(** * The Thrift AST of [parser]: positions, nodes and bad nodes

    A shallow embedding of the node model of the Thrift language server
    (package [parser], the file that declares [Node], [Document] and the
    concrete nodes), with the properties of its position arithmetic, of
    the bad-node constructors, of [Children] and of [ChildrenBadNode].

    Conventions of the embedding.
    - A Go [int] / [int64] is a [Z]; arithmetic of [NewLocation] goes
      through [int_wrap], the two's complement wrap-around on 64 bits.
    - A Go [string] is a [string] of 8-bit characters, i.e. its bytes.
    - A Go pointer [*T] is a [ptr T] = [option T]; [None] is [nil].
    - A Go slice is a [list]; the nil slice and the empty slice are [[]].
    - Each Go struct is a record in a module of its own, so that the
      fields keep their names ([Struct.BadNode], [Union.Comments]).
    - A method that may dereference a nil receiver, or that may not
      return, gives a [Result]. *)

From Stdlib Require Import ZArith List String Ascii Bool Lia.
Import ListNotations.
Local Open Scope string_scope.
Local Open Scope list_scope.
Local Open Scope Z_scope.

Set Implicit Arguments.

(** ** Outcomes of a call *)

(** [Ok v]: the call returns [v].  [Panic]: the call dereferences a nil
    pointer (a Go run-time panic).  [OutOfFuel]: the bound on the depth
    of nested calls was reached before the call returned. *)
Inductive Result (A : Type) : Type :=
| Ok (a : A)
| Panic
| OutOfFuel.

Arguments Ok {A} a.
Arguments Panic {A}.
Arguments OutOfFuel {A}.

Definition bind {A B : Type} (r : Result A) (k : A -> Result B) : Result B :=
  match r with
  | Ok a => k a
  | Panic => Panic
  | OutOfFuel => OutOfFuel
  end.

Notation "x <- r ;; k" := (bind r (fun x => k))
  (at level 61, r at next level, right associativity).

Definition ptr (A : Type) : Type := option A.

(** [p.f] for a pointer [p]: a panic when [p] is nil. *)
Definition deref {A B : Type} (p : ptr A) (f : A -> B) : Result B :=
  match p with
  | Some a => Ok (f a)
  | None => Panic
  end.

(** ** Machine integers *)

Definition int_min : Z := - 2 ^ 63.
Definition int_max : Z := 2 ^ 63 - 1.

Definition in_int (z : Z) : Prop := int_min <= z <= int_max.

Definition int_wrap (z : Z) : Z := (z + 2 ^ 63) mod 2 ^ 64 - 2 ^ 63.

Definition int_add (a b : Z) : Z := int_wrap (a + b).
Definition int_sub (a b : Z) : Z := int_wrap (a - b).

(** ** Strings as byte sequences *)

Definition newline : ascii := ascii_of_nat 10.

(** [len(s)] *)
Definition len (s : string) : Z := Z.of_nat (String.length s).

(** [strings.Count(s, "\n")], for a one-byte separator [c]. *)
Fixpoint strings_Count (s : string) (c : ascii) : Z :=
  match s with
  | EmptyString => 0
  | String a rest =>
      (if Ascii.eqb a c then 1 else 0) + strings_Count rest c
  end.

(** [strings.LastIndexByte(s, c)]: the index of the last [c], or -1. *)
Fixpoint strings_LastIndexByte (s : string) (c : ascii) : Z :=
  match s with
  | EmptyString => -1
  | String a rest =>
      let r := strings_LastIndexByte rest c in
      if 0 <=? r then 1 + r
      else if Ascii.eqb a c then 0 else -1
  end.

(** [[]byte(s)[i:]] for [0 <= i <= len(s)]. *)
Fixpoint drop_bytes (i : nat) (s : string) : string :=
  match i, s with
  | O, _ => s
  | S k, EmptyString => EmptyString
  | S k, String _ rest => drop_bytes k rest
  end.

Definition byte_at (s : string) (i : nat) : Z :=
  match String.get i s with
  | Some a => Z.of_nat (nat_of_ascii a)
  | None => 0
  end.

(** *** [utf8.RuneCount]

    The tables [first] and [acceptRanges] of package [unicode/utf8]:
    for a leading byte, the length of the sequence it starts and the
    range its second byte must lie in; [None] marks a byte that starts
    no sequence. *)
Definition utf8_first (c : Z) : option (nat * (Z * Z)) :=
  if c <? 194 then None                       (* 0x80-0xC1: invalid *)
  else if c <? 224 then Some (2%nat, (128, 191))   (* 0xC2-0xDF *)
  else if c =? 224 then Some (3%nat, (160, 191))   (* 0xE0 *)
  else if c <? 237 then Some (3%nat, (128, 191))   (* 0xE1-0xEC *)
  else if c =? 237 then Some (3%nat, (128, 159))   (* 0xED *)
  else if c <? 240 then Some (3%nat, (128, 191))   (* 0xEE-0xEF *)
  else if c =? 240 then Some (4%nat, (144, 191))   (* 0xF0 *)
  else if c <? 244 then Some (4%nat, (128, 191))   (* 0xF1-0xF3 *)
  else if c =? 244 then Some (4%nat, (128, 143))   (* 0xF4 *)
  else None.                                  (* 0xF5-0xFF: invalid *)

Definition continuation (c : Z) : bool := (128 <=? c) && (c <=? 191).

(** The number of bytes the loop of [RuneCount] advances by when the
    byte [c] is at the front and [rest] follows it. *)
Definition rune_size (c : Z) (rest : string) : nat :=
  if c <? 128 then 1%nat
  else
    match utf8_first c with
    | None => 1%nat
    | Some (size, (lo, hi)) =>
        if (String.length rest <? size - 1)%nat then 1%nat
        else
          let c1 := byte_at rest 0 in
          if (c1 <? lo) || (hi <? c1) then 1%nat
          else if (size =? 2)%nat then 2%nat
          else if negb (continuation (byte_at rest 1)) then 1%nat
          else if (size =? 3)%nat then 3%nat
          else if negb (continuation (byte_at rest 2)) then 1%nat
          else 4%nat
    end.

(** The loop of [RuneCount]; [skip] is the number of bytes still to be
    passed over before the next rune starts. *)
Fixpoint rune_count_from (skip : nat) (s : string) : Z :=
  match s with
  | EmptyString => 0
  | String a rest =>
      match skip with
      | S k => rune_count_from k rest
      | O =>
          1 + rune_count_from
                (Nat.pred (rune_size (Z.of_nat (nat_of_ascii a)) rest)) rest
      end
  end.

Definition utf8_RuneCount (s : string) : Z := rune_count_from 0 s.

(** ** Positions and locations *)

(** The position type of the generated parser ([c.pos]). *)
Record position : Type := mkposition {
  line : Z;
  col : Z;
  offset : Z
}.

Record Position : Type := mkPosition {
  Line : Z;   (* 1-based line number *)
  Col : Z;    (* 1-based rune count from start of line *)
  Offset : Z  (* 0-based byte offset *)
}.

Record Location : Type := mkLocation {
  StartPos : Position;
  EndPos : Position
}.

Definition ConvertPosition (pos : position) : Position :=
  {| Line := line pos; Col := col pos; Offset := offset pos |}.

Definition InvalidPosition : Position :=
  {| Line := -1; Col := -1; Offset := -1 |}.

Module Pos.

Definition Less (p other : Position) : bool :=
  if Line p <? Line other then true
  else if Line p =? Line other then Col p <? Col other
  else false.

Definition Equal (p other : Position) : bool :=
  (Line p =? Line other) && (Col p =? Col other).

Definition Greater (p other : Position) : bool :=
  if Line p >? Line other then true
  else if Line p =? Line other then Col p >? Col other
  else false.

Definition Invalid (p : Position) : bool :=
  (Line p <? 1) || (Col p <? 1) || (Offset p <? 0).

End Pos.

Definition Location_Pos (l : ptr Location) : Result Position := deref l StartPos.
Definition Location_End (l : ptr Location) : Result Position := deref l EndPos.

Definition Location_Contains (l : ptr Location) (pos : Position) : bool :=
  match l with
  | None => false
  | Some l =>
      (Pos.Less (StartPos l) pos || Pos.Equal (StartPos l) pos)
      && Pos.Greater (EndPos l) pos
  end.

Definition NewLocationFromPos (start end_ : Position) : Location :=
  {| StartPos := start; EndPos := end_ |}.

Definition NewLocation (startPos : position) (text : string) : Location :=
  let start := ConvertPosition startPos in
  let nLine := strings_Count text newline in
  let nLine := if col startPos =? 0 then int_sub nLine 1 else nLine in
  let lastLineOffset := strings_LastIndexByte text newline in
  let lastLineOffset := if lastLineOffset =? -1 then 0 else lastLineOffset in
  let lastLine := drop_bytes (Z.to_nat lastLineOffset) text in
  let col := int_add (utf8_RuneCount lastLine) 1 in
  let col := if nLine =? 0 then int_add col (int_sub (Col start) 1) else col in
  let end_ := {| Line := int_add (Line start) nLine;
                 Col := col;
                 Offset := int_add (Offset start) (len text) |} in
  {| StartPos := start; EndPos := end_ |}.

Definition MoveStartInLine (l : Location) (n : Z) : Location :=
  {| StartPos := {| Line := Line (StartPos l);
                    Col := int_add (Col (StartPos l)) n;
                    Offset := int_add (Offset (StartPos l)) n |};
     EndPos := EndPos l |}.

(** The parser state handed to an action: the start of the match and
    the matched text. *)
Record current : Type := mkcurrent {
  pos : position;
  text : string
}.

Definition NewLocationFromCurrent (c : current) : Location :=
  NewLocation (pos c) (text c).

(** ** The concrete nodes

    One module per Go struct; the record [t] has the fields of the
    struct, in the order of the source.  The zero value of a struct, as a
    composite literal that names no field leaves it, is [zero]. *)

Set Warnings "-register-all".

Definition zeroPosition : Position := {| Line := 0; Col := 0; Offset := 0 |}.
Definition zeroLocation : Location :=
  {| StartPos := zeroPosition; EndPos := zeroPosition |}.

Module Comment.
Record t : Type := mk {
  Text : string;
  Style : string;  (* CommentStyle: shell, multiline or singleline *)
  BadNode : bool;
  Location : Location
}.
End Comment.

Definition CommentStyleShell : string := "shell".
Definition CommentStyleMultiLine : string := "multiline".
Definition CommentStyleSingleLine : string := "singleline".

Module KeywordLiteral.
Record t : Type := mk {
  Text : string;
  BadNode : bool;
  Location : Location
}.
End KeywordLiteral.

Module Keyword.
Record t : Type := mk {
  Comments : list (ptr Comment.t);
  Literal : ptr KeywordLiteral.t;
  BadNode : bool;
  Location : Location
}.
Definition zero : t :=
  {| Comments := []; Literal := None; BadNode := false;
     Location := zeroLocation |}.
End Keyword.

(** The keyword types [type XKeyword struct { Keyword }] add nothing to
    the embedded [Keyword] but their own [Type()]: a pointer to one of
    them is a [ptr Keyword.t], and the name of the type is recorded by a
    [KeywordKind] where the pointer is stored in a [Node]. *)
Inductive KeywordKind : Type :=
| IncludeKeyword | CPPIncludeKeyword | NamespaceKeyword | StructKeyword
| LCurKeyword | RCurKeyword | ConstKeyword | EqualKeyword
| TypedefKeyword | EnumKeyword | ServiceKeyword | ExtendsKeyword
| OnewayKeyword | LParKeyword | RParKeyword | VoidKeyword
| ThrowsKeyword | UnionKeyword | ExceptionKeyword | ColonKeyword
| RequiredKeyword | LPointKeyword | RPointKeyword | CommaKeyword
| CppTypeKeyword | LBrkKeyword | RBrkKeyword.

Module ListSeparatorKeyword.
Record t : Type := mk {
  Keyword : Keyword.t;
  Text : string  (* , or ; *)
}.
End ListSeparatorKeyword.

Module IdentifierName.
Record t : Type := mk {
  Text : string;
  BadNode : bool;
  Location : Location
}.
End IdentifierName.

Module Identifier.
Record t : Type := mk {
  Name : ptr IdentifierName.t;
  Comments : list (ptr Comment.t);
  BadNode : bool;
  Location : Location
}.
End Identifier.

Module LiteralValue.
Record t : Type := mk {
  Text : string;
  BadNode : bool;
  Location : Location
}.
End LiteralValue.

Module Literal.
Record t : Type := mk {
  Value : ptr LiteralValue.t;
  Quote : string;
  Comments : list (ptr Comment.t);
  BadNode : bool;
  Location : Location
}.
End Literal.

Module Annotation.
Record t : Type := mk {
  EqualKeyword : ptr Keyword.t;
  ListSeparatorKeyword : ptr ListSeparatorKeyword.t;
  Identifier : ptr Identifier.t;
  Value : ptr Literal.t;
  BadNode : bool;
  Location : Location
}.
End Annotation.

Module Annotations.
Record t : Type := mk {
  Annotations : list (ptr Annotation.t);
  LParKeyword : ptr Keyword.t;
  RParKeyword : ptr Keyword.t;
  BadNode : bool;
  Location : Location
}.
End Annotations.

Module TypeName.
Record t : Type := mk {
  Name : string;
  Comments : list (ptr Comment.t);
  BadNode : bool;
  Location : Location
}.
End TypeName.

Module CppType.
Record t : Type := mk {
  CppTypeKeyword : ptr Keyword.t;
  Literal : ptr Literal.t;
  BadNode : bool;
  Location : Location
}.
End CppType.

Module FieldType.
Inductive t : Type := mk {
  TypeName : ptr TypeName.t;
  KeyType : ptr t;    (* only when TypeName is map, set or list *)
  ValueType : ptr t;  (* only when TypeName is map *)
  CppType : ptr CppType.t;
  LPointKeyword : ptr Keyword.t;
  RPointKeyword : ptr Keyword.t;
  CommaKeyword : ptr Keyword.t;
  Annotations : ptr Annotations.t;
  BadNode : bool;
  Location : Location
}.
End FieldType.

Module ConstValue.
(** The fields [Value] and [Key] have type [any]; [t_] is the struct
    over the type of those two fields, and [any] the values stored in
    them: none, an [int64], a [float64] (by its bits), a [string], a
    [*ConstValue] or a [[]*ConstValue]. *)
Record t_ (any : Type) : Type := mk {
  TypeName : string;
  Value : any;
  ValueInText : string;
  Key : any;
  LBrkKeyword : ptr Keyword.t;
  RBrkKeyword : ptr Keyword.t;
  LCurKeyword : ptr Keyword.t;
  RCurKeyword : ptr Keyword.t;
  ListSeparatorKeyword : ptr ListSeparatorKeyword.t;
  ColonKeyword : ptr Keyword.t;
  Comments : list (ptr Comment.t);
  BadNode : bool;
  Location : Location
}.
Inductive any : Type :=
| any_nil
| any_int64 (v : Z)
| any_float64 (bits : Z)
| any_string (s : string)
| any_ConstValue (p : ptr (t_ any))
| any_ConstValues (l : list (ptr (t_ any))).
Definition t : Type := t_ any.
End ConstValue.

Module FieldIndex.
Record t : Type := mk {
  ColonKeyword : ptr Keyword.t;
  Value : Z;
  Comments : list (ptr Comment.t);
  BadNode : bool;
  Location : Location
}.
End FieldIndex.

Module Field.
Record t : Type := mk {
  Index : ptr FieldIndex.t;
  RequiredKeyword : ptr Keyword.t;
  FieldType : ptr FieldType.t;
  Identifier : ptr Identifier.t;
  ConstValue : ptr ConstValue.t;
  EqualKeyword : ptr Keyword.t;                        (* can be nil *)
  ListSeparatorKeyword : ptr ListSeparatorKeyword.t;   (* can be nil *)
  Comments : list (ptr Comment.t);
  EndLineComments : list (ptr Comment.t);
  Annotations : ptr Annotations.t;
  BadNode : bool;
  Location : Location
}.
End Field.

Module Throws.
Record t : Type := mk {
  ThrowsKeyword : ptr Keyword.t;
  LParKeyword : ptr Keyword.t;
  RParKeyword : ptr Keyword.t;
  Fields : list (ptr Field.t);
  BadNode : bool;
  Location : Location
}.
End Throws.

Module Function.
Record t : Type := mk {
  LParKeyword : ptr Keyword.t;
  RParKeyword : ptr Keyword.t;
  ListSeparatorKeyword : ptr ListSeparatorKeyword.t;  (* can be nil *)
  Name : ptr Identifier.t;
  Oneway : ptr Keyword.t;                             (* can be nil *)
  Void : ptr Keyword.t;                               (* can be nil *)
  FunctionType : ptr FieldType.t;
  Arguments : list (ptr Field.t);
  Throws : ptr Throws.t;
  Comments : list (ptr Comment.t);
  EndLineComments : list (ptr Comment.t);
  Annotations : ptr Annotations.t;
  BadNode : bool;
  Location : Location
}.
End Function.

Module Service.
Record t : Type := mk {
  ServiceKeyword : ptr Keyword.t;
  ExtendsKeyword : ptr Keyword.t;  (* can be nil *)
  LCurKeyword : ptr Keyword.t;
  RCurKeyword : ptr Keyword.t;
  Name : ptr Identifier.t;
  Extends : ptr Identifier.t;
  Functions : list (ptr Function.t);
  Comments : list (ptr Comment.t);
  EndLineComments : list (ptr Comment.t);
  Annotations : ptr Annotations.t;
  BadNode : bool;
  Location : Location
}.
End Service.

Module Struct.
Record t : Type := mk {
  StructKeyword : ptr Keyword.t;
  LCurKeyword : ptr Keyword.t;
  RCurKeyword : ptr Keyword.t;
  Identifier : ptr Identifier.t;
  Fields : list (ptr Field.t);
  Comments : list (ptr Comment.t);
  EndLineComments : list (ptr Comment.t);
  Annotations : ptr Annotations.t;
  BadNode : bool;
  Location : Location
}.
End Struct.

Module Union.
Record t : Type := mk {
  UnionKeyword : ptr Keyword.t;
  LCurKeyword : ptr Keyword.t;
  RCurKeyword : ptr Keyword.t;
  Name : ptr Identifier.t;
  Fields : list (ptr Field.t);
  Comments : list (ptr Comment.t);
  EndLineComments : list (ptr Comment.t);
  Annotations : ptr Annotations.t;
  BadNode : bool;
  Location : Location
}.
End Union.

Module Exception.
Record t : Type := mk {
  ExceptionKeyword : ptr Keyword.t;
  LCurKeyword : ptr Keyword.t;
  RCurKeyword : ptr Keyword.t;
  Name : ptr Identifier.t;
  Fields : list (ptr Field.t);
  Comments : list (ptr Comment.t);
  EndLineComments : list (ptr Comment.t);
  Annotations : ptr Annotations.t;
  BadNode : bool;
  Location : Location
}.
End Exception.

Module EnumValue.
Record t : Type := mk {
  ListSeparatorKeyword : ptr ListSeparatorKeyword.t;  (* can be nil *)
  EqualKeyword : ptr Keyword.t;                       (* can be nil *)
  Name : ptr Identifier.t;
  ValueNode : ptr ConstValue.t;
  Value : Z;  (* the value of the enumerator; not a node *)
  Annotations : ptr Annotations.t;
  Comments : list (ptr Comment.t);
  EndLineComments : list (ptr Comment.t);
  BadNode : bool;
  Location : Location
}.
End EnumValue.

Module Enum.
Record t : Type := mk {
  EnumKeyword : ptr Keyword.t;
  LCurKeyword : ptr Keyword.t;
  RCurKeyword : ptr Keyword.t;
  Name : ptr Identifier.t;
  Values : list (ptr EnumValue.t);
  Comments : list (ptr Comment.t);
  EndLineComments : list (ptr Comment.t);
  Annotations : ptr Annotations.t;
  BadNode : bool;
  Location : Location
}.
End Enum.

Module Const.
Record t : Type := mk {
  ConstKeyword : ptr Keyword.t;
  EqualKeyword : ptr Keyword.t;
  ListSeparatorKeyword : ptr ListSeparatorKeyword.t;  (* can be nil *)
  Name : ptr Identifier.t;
  ConstType : ptr FieldType.t;
  Value : ptr ConstValue.t;
  Comments : list (ptr Comment.t);
  EndLineComments : list (ptr Comment.t);
  Annotations : ptr Annotations.t;
  BadNode : bool;
  Location : Location
}.
End Const.

Module Typedef.
Record t : Type := mk {
  TypedefKeyword : ptr Keyword.t;
  T : ptr FieldType.t;
  Alias : ptr Identifier.t;
  Comments : list (ptr Comment.t);
  EndLineComments : list (ptr Comment.t);
  Annotations : ptr Annotations.t;
  BadNode : bool;
  Location : Location
}.
End Typedef.

Module Include.
Record t : Type := mk {
  IncludeKeyword : ptr Keyword.t;
  Path : ptr Literal.t;
  Comments : list (ptr Comment.t);
  EndLineComments : list (ptr Comment.t);
  BadNode : bool;
  Location : Location
}.
End Include.

Module CPPInclude.
Record t : Type := mk {
  CPPIncludeKeyword : ptr Keyword.t;
  Path : ptr Literal.t;
  Comments : list (ptr Comment.t);
  EndLineComments : list (ptr Comment.t);
  BadNode : bool;
  Location : Location
}.
End CPPInclude.

Module Namespace.
(** [Language] is a [*NamespaceScope], a struct that only embeds an
    [Identifier]. *)
Record t : Type := mk {
  NamespaceKeyword : ptr Keyword.t;
  Language : ptr Identifier.t;
  Name : ptr Identifier.t;
  Annotations : ptr Annotations.t;
  Comments : list (ptr Comment.t);
  EndLineComments : list (ptr Comment.t);
  BadNode : bool;
  Location : Location
}.
End Namespace.

Module BadHeader.
Record t : Type := mk {
  BadNode : bool;
  Location : Location
}.
End BadHeader.

Module BadDefinition.
Record t : Type := mk {
  BadNode : bool;
  Location : Location
}.
End BadDefinition.

(** ** The interface [Node] and the document

    A value of interface type [Node] is a pointer to one of the concrete
    nodes, tagged with its dynamic type; the pointer itself may be nil.
    [Document_] is the struct [Document] over the type of the elements
    of its field [Nodes]. *)

Module Document.
Record t_ (Node : Type) : Type := mk {
  Filename : string;
  BadHeaders : list (ptr BadHeader.t);
  Includes : list (ptr Include.t);
  CPPIncludes : list (ptr CPPInclude.t);
  Namespaces : list (ptr Namespace.t);
  Consts : list (ptr Const.t);
  Typedefs : list (ptr Typedef.t);
  Enums : list (ptr Enum.t);
  Services : list (ptr Service.t);
  Structs : list (ptr Struct.t);
  Unions : list (ptr Union.t);
  Exceptions : list (ptr Exception.t);
  BadDefinitions : list (ptr BadDefinition.t);
  Comments : list (ptr Comment.t);  (* comments at end of doc *)
  Nodes : list Node;
  Location : Location
}.
End Document.

Inductive Node : Type :=
| NDocument (p : ptr (Document.t_ Node))
| NBadHeader (p : ptr BadHeader.t)
| NKeywordLiteral (p : ptr KeywordLiteral.t)
| NKeyword (kind : KeywordKind) (p : ptr Keyword.t)
| NListSeparatorKeyword (p : ptr ListSeparatorKeyword.t)
| NInclude (p : ptr Include.t)
| NCPPInclude (p : ptr CPPInclude.t)
| NNamespaceScope (p : ptr Identifier.t)
| NNamespace (p : ptr Namespace.t)
| NBadDefinition (p : ptr BadDefinition.t)
| NStruct (p : ptr Struct.t)
| NConst (p : ptr Const.t)
| NTypedef (p : ptr Typedef.t)
| NEnum (p : ptr Enum.t)
| NEnumValue (p : ptr EnumValue.t)
| NService (p : ptr Service.t)
| NThrows (p : ptr Throws.t)
| NFunction (p : ptr Function.t)
| NUnion (p : ptr Union.t)
| NException (p : ptr Exception.t)
| NIdentifierName (p : ptr IdentifierName.t)
| NIdentifier (p : ptr Identifier.t)
| NField (p : ptr Field.t)
| NFieldIndex (p : ptr FieldIndex.t)
| NCppType (p : ptr CppType.t)
| NFieldType (p : ptr FieldType.t)
| NTypeName (p : ptr TypeName.t)
| NConstValue (p : ptr ConstValue.t)
| NLiteralValue (p : ptr LiteralValue.t)
| NLiteral (p : ptr Literal.t)
| NAnnotations (p : ptr Annotations.t)
| NAnnotation (p : ptr Annotation.t)
| NComment (p : ptr Comment.t).

Definition DocumentT : Type := Document.t_ Node.

(** A value of an interface type: the nil interface value, or a value
    of one of the types that implement the interface. *)
Definition iface (A : Type) : Type := option A.

(** The interface [Header]: the non-nil values of the twelve types that
    have [Type], [SetComments], [SetLocation] and the methods of
    [Node].  The eight types of definitions are among them, as they
    have these methods too. *)
Inductive Header : Type :=
| HInclude (p : ptr Include.t)
| HCPPInclude (p : ptr CPPInclude.t)
| HNamespace (p : ptr Namespace.t)
| HBadHeader (p : ptr BadHeader.t)
| HConst (p : ptr Const.t)
| HTypedef (p : ptr Typedef.t)
| HEnum (p : ptr Enum.t)
| HService (p : ptr Service.t)
| HStruct (p : ptr Struct.t)
| HUnion (p : ptr Union.t)
| HException (p : ptr Exception.t)
| HBadDefinition (p : ptr BadDefinition.t).

(** The interface [Definition]: the non-nil values of the eight types
    that also have [SetAnnotations]. *)
Inductive Definition_ : Type :=
| DConst (p : ptr Const.t)
| DTypedef (p : ptr Typedef.t)
| DEnum (p : ptr Enum.t)
| DService (p : ptr Service.t)
| DStruct (p : ptr Struct.t)
| DUnion (p : ptr Union.t)
| DException (p : ptr Exception.t)
| DBadDefinition (p : ptr BadDefinition.t).

(** The conversion of a [Header] or a [Definition] to a [Node]. *)
Definition Header_Node (h : Header) : Node :=
  match h with
  | HInclude p => NInclude p
  | HCPPInclude p => NCPPInclude p
  | HNamespace p => NNamespace p
  | HBadHeader p => NBadHeader p
  | HConst p => NConst p
  | HTypedef p => NTypedef p
  | HEnum p => NEnum p
  | HService p => NService p
  | HStruct p => NStruct p
  | HUnion p => NUnion p
  | HException p => NException p
  | HBadDefinition p => NBadDefinition p
  end.

Definition Definition_Node (d : Definition_) : Node :=
  match d with
  | DConst p => NConst p
  | DTypedef p => NTypedef p
  | DEnum p => NEnum p
  | DService p => NService p
  | DStruct p => NStruct p
  | DUnion p => NUnion p
  | DException p => NException p
  | DBadDefinition p => NBadDefinition p
  end.

(** ** [Type()] *)

Definition KeywordKind_Type (k : KeywordKind) : string :=
  match k with
  | IncludeKeyword => "IncludeKeyword"
  | CPPIncludeKeyword => "CPPIncludeKeyword"
  | NamespaceKeyword => "NamespaceKeyword"
  | StructKeyword => "StructKeyword"
  | LCurKeyword => "LCurKeyword"
  | RCurKeyword => "RCurKeyword"
  | ConstKeyword => "ConstKeyword"
  | EqualKeyword => "EqualKeyword"
  | TypedefKeyword => "TypedefKeyword"
  | EnumKeyword => "EnumKeyword"
  | ServiceKeyword => "ServiceKeyword"
  | ExtendsKeyword => "ExtendsKeyword"
  | OnewayKeyword => "OnewayKeyword"
  | LParKeyword => "LParKeyword"
  | RParKeyword => "RParKeyword"
  | VoidKeyword => "VoidKeyword"
  | ThrowsKeyword => "ThrowsKeyword"
  | UnionKeyword => "UnionKeyword"
  | ExceptionKeyword => "ExceptionKeyword"
  | ColonKeyword => "ColonKeyword"
  | RequiredKeyword => "RequiredKeyword"
  | LPointKeyword => "LPointKeyword"
  | RPointKeyword => "RPointKeyword"
  | CommaKeyword => "CommaKeyword"
  | CppTypeKeyword => "CppTypeKeyword"
  | LBrkKeyword => "LBrkKeyword"
  | RBrkKeyword => "RBrkKeyword"
  end.

(** The [Type] methods of the headers and of the definitions return a
    constant and do not read their receiver. *)
Definition Definition_Type (d : Definition_) : string :=
  match d with
  | DConst _ => "Const"
  | DTypedef _ => "Typedef"
  | DEnum _ => "Enum"
  | DService _ => "Service"
  | DStruct _ => "Struct"
  | DUnion _ => "Union"
  | DException _ => "Exception"
  | DBadDefinition _ => "Definition"
  end.

Definition Header_Type (h : Header) : string :=
  match h with
  | HInclude _ => "Include"
  | HCPPInclude _ => "CPPInclude"
  | HNamespace _ => "Namespace"
  | HBadHeader _ => "BadHeader"
  | HConst p => Definition_Type (DConst p)
  | HTypedef p => Definition_Type (DTypedef p)
  | HEnum p => Definition_Type (DEnum p)
  | HService p => Definition_Type (DService p)
  | HStruct p => Definition_Type (DStruct p)
  | HUnion p => Definition_Type (DUnion p)
  | HException p => Definition_Type (DException p)
  | HBadDefinition p => Definition_Type (DBadDefinition p)
  end.

(** [Type] on a [Node].  [NamespaceScope] has the method of the
    [Identifier] it embeds, which is reached through the receiver. *)
Definition Node_Type (n : Node) : Result string :=
  match n with
  | NDocument _ => Ok "Document"
  | NBadHeader p => Ok (Header_Type (HBadHeader p))
  | NKeywordLiteral _ => Ok "KeywordLiteral"
  | NKeyword k _ => Ok (KeywordKind_Type k)
  | NListSeparatorKeyword _ => Ok "ListSeparator"
  | NInclude p => Ok (Header_Type (HInclude p))
  | NCPPInclude p => Ok (Header_Type (HCPPInclude p))
  | NNamespaceScope p => deref p (fun _ => "Identifier")
  | NNamespace p => Ok (Header_Type (HNamespace p))
  | NBadDefinition p => Ok (Definition_Type (DBadDefinition p))
  | NStruct p => Ok (Definition_Type (DStruct p))
  | NConst p => Ok (Definition_Type (DConst p))
  | NTypedef p => Ok (Definition_Type (DTypedef p))
  | NEnum p => Ok (Definition_Type (DEnum p))
  | NEnumValue _ => Ok "EnumValue"
  | NService p => Ok (Definition_Type (DService p))
  | NThrows _ => Ok "Throws"
  | NFunction _ => Ok "Function"
  | NUnion p => Ok (Definition_Type (DUnion p))
  | NException p => Ok (Definition_Type (DException p))
  | NIdentifierName _ => Ok "IdentifierName"
  | NIdentifier _ => Ok "Identifier"
  | NField _ => Ok "Field"
  | NFieldIndex _ => Ok "FieldIndex"
  | NCppType _ => Ok "CppType"
  | NFieldType _ => Ok "FieldType"
  | NTypeName _ => Ok "TypeName"
  | NConstValue _ => Ok "ConstValue"
  | NLiteralValue _ => Ok "LiteralValue"
  | NLiteral _ => Ok "Literal"
  | NAnnotations _ => Ok "Annotations"
  | NAnnotation _ => Ok "Annotation"
  | NComment _ => Ok "Comment"
  end.

(** ** Constructors

    A constructor returns a pointer to a fresh struct, hence [Some] of a
    record; the fields its composite literal does not name have their
    zero value. *)

Definition NewBadHeader (loc : Location) : ptr BadHeader.t :=
  Some {| BadHeader.BadNode := true; BadHeader.Location := loc |}.

Definition NewKeywordLiteral (c : current) : ptr KeywordLiteral.t :=
  Some {| KeywordLiteral.Text := text c;
          KeywordLiteral.BadNode := false;
          KeywordLiteral.Location := NewLocationFromCurrent c |}.

Definition NewBadKeywordLiteral (c : current) : ptr KeywordLiteral.t :=
  Some {| KeywordLiteral.Text := text c;
          KeywordLiteral.BadNode := true;
          KeywordLiteral.Location := NewLocationFromCurrent c |}.

Definition NewKeyword (comments : list (ptr Comment.t))
    (literal : ptr KeywordLiteral.t) (loc : Location) : Keyword.t :=
  {| Keyword.Comments := comments; Keyword.Literal := literal;
     Keyword.BadNode := false; Keyword.Location := loc |}.

Definition NewBadEqualKeyword : ptr Keyword.t :=
  Some {| Keyword.Comments := []; Keyword.Literal := None;
          Keyword.BadNode := true; Keyword.Location := zeroLocation |}.

Definition NewInclude (keyword : ptr Keyword.t) (path : ptr Literal.t)
    (loc : Location) : ptr Include.t :=
  Some {| Include.IncludeKeyword := keyword; Include.Path := path;
          Include.Comments := []; Include.EndLineComments := [];
          Include.BadNode := false; Include.Location := loc |}.

Definition NewBadInclude (loc : Location) : ptr Include.t :=
  Some {| Include.IncludeKeyword := None; Include.Path := None;
          Include.Comments := []; Include.EndLineComments := [];
          Include.BadNode := true; Include.Location := loc |}.

Definition NewCPPInclude (keyword : ptr Keyword.t) (path : ptr Literal.t)
    (loc : Location) : ptr CPPInclude.t :=
  Some {| CPPInclude.CPPIncludeKeyword := keyword; CPPInclude.Path := path;
          CPPInclude.Comments := []; CPPInclude.EndLineComments := [];
          CPPInclude.BadNode := false; CPPInclude.Location := loc |}.

Definition NewBadCPPInclude (loc : Location) : ptr CPPInclude.t :=
  Some {| CPPInclude.CPPIncludeKeyword := None; CPPInclude.Path := None;
          CPPInclude.Comments := []; CPPInclude.EndLineComments := [];
          CPPInclude.BadNode := true; CPPInclude.Location := loc |}.

Definition NewNamespace (keyword : ptr Keyword.t) (language : ptr Identifier.t)
    (name : ptr Identifier.t) (annotations : ptr Annotations.t)
    (loc : Location) : ptr Namespace.t :=
  Some {| Namespace.NamespaceKeyword := keyword;
          Namespace.Language := language;
          Namespace.Name := name;
          Namespace.Annotations := annotations;
          Namespace.Comments := []; Namespace.EndLineComments := [];
          Namespace.BadNode := false; Namespace.Location := loc |}.

Definition NewBadNamespace (loc : Location) : ptr Namespace.t :=
  Some {| Namespace.NamespaceKeyword := None;
          Namespace.Language := None;
          Namespace.Name := None;
          Namespace.Annotations := None;
          Namespace.Comments := []; Namespace.EndLineComments := [];
          Namespace.BadNode := true; Namespace.Location := loc |}.

Definition NewBadDefinition (loc : Location) : ptr BadDefinition.t :=
  Some {| BadDefinition.BadNode := true; BadDefinition.Location := loc |}.

Definition NewStruct (structKeyword lCurKeyword rCurKeyword : ptr Keyword.t)
    (identifier : ptr Identifier.t) (fields : list (ptr Field.t))
    (loc : Location) : ptr Struct.t :=
  Some {| Struct.StructKeyword := structKeyword;
          Struct.LCurKeyword := lCurKeyword;
          Struct.RCurKeyword := rCurKeyword;
          Struct.Identifier := identifier;
          Struct.Fields := fields;
          Struct.Comments := []; Struct.EndLineComments := [];
          Struct.Annotations := None;
          Struct.BadNode := false; Struct.Location := loc |}.

Definition NewBadStruct (loc : Location) : ptr Struct.t :=
  Some {| Struct.StructKeyword := None;
          Struct.LCurKeyword := None;
          Struct.RCurKeyword := None;
          Struct.Identifier := None;
          Struct.Fields := [];
          Struct.Comments := []; Struct.EndLineComments := [];
          Struct.Annotations := None;
          Struct.BadNode := true; Struct.Location := loc |}.

Definition NewConst (constKeyword equalKeyword : ptr Keyword.t)
    (listSeparatorKeyword : ptr ListSeparatorKeyword.t)
    (name : ptr Identifier.t) (t : ptr FieldType.t) (v : ptr ConstValue.t)
    (loc : Location) : ptr Const.t :=
  Some {| Const.ConstKeyword := constKeyword;
          Const.EqualKeyword := equalKeyword;
          Const.ListSeparatorKeyword := listSeparatorKeyword;
          Const.Name := name;
          Const.ConstType := t;
          Const.Value := v;
          Const.Comments := []; Const.EndLineComments := [];
          Const.Annotations := None;
          Const.BadNode := false; Const.Location := loc |}.

Definition NewBadConst (loc : Location) : ptr Const.t :=
  Some {| Const.ConstKeyword := None;
          Const.EqualKeyword := None;
          Const.ListSeparatorKeyword := None;
          Const.Name := None;
          Const.ConstType := None;
          Const.Value := None;
          Const.Comments := []; Const.EndLineComments := [];
          Const.Annotations := None;
          Const.BadNode := true; Const.Location := loc |}.

Definition NewTypedef (keyword : ptr Keyword.t) (t : ptr FieldType.t)
    (alias : ptr Identifier.t) (loc : Location) : ptr Typedef.t :=
  Some {| Typedef.TypedefKeyword := keyword;
          Typedef.T := t;
          Typedef.Alias := alias;
          Typedef.Comments := []; Typedef.EndLineComments := [];
          Typedef.Annotations := None;
          Typedef.BadNode := false; Typedef.Location := loc |}.

Definition NewBadTypedef (loc : Location) : ptr Typedef.t :=
  Some {| Typedef.TypedefKeyword := None;
          Typedef.T := None;
          Typedef.Alias := None;
          Typedef.Comments := []; Typedef.EndLineComments := [];
          Typedef.Annotations := None;
          Typedef.BadNode := true; Typedef.Location := loc |}.

Definition NewEnum (enumKeyword lCurKeyword rCurKeyword : ptr Keyword.t)
    (name : ptr Identifier.t) (values : list (ptr EnumValue.t))
    (loc : Location) : ptr Enum.t :=
  Some {| Enum.EnumKeyword := enumKeyword;
          Enum.LCurKeyword := lCurKeyword;
          Enum.RCurKeyword := rCurKeyword;
          Enum.Name := name;
          Enum.Values := values;
          Enum.Comments := []; Enum.EndLineComments := [];
          Enum.Annotations := None;
          Enum.BadNode := false; Enum.Location := loc |}.

Definition NewBadEnum (loc : Location) : ptr Enum.t :=
  Some {| Enum.EnumKeyword := None;
          Enum.LCurKeyword := None;
          Enum.RCurKeyword := None;
          Enum.Name := None;
          Enum.Values := [];
          Enum.Comments := []; Enum.EndLineComments := [];
          Enum.Annotations := None;
          Enum.BadNode := true; Enum.Location := loc |}.

Definition NewBadEnumValue (loc : Location) : ptr EnumValue.t :=
  Some {| EnumValue.ListSeparatorKeyword := None;
          EnumValue.EqualKeyword := None;
          EnumValue.Name := None;
          EnumValue.ValueNode := None;
          EnumValue.Value := 0;
          EnumValue.Annotations := None;
          EnumValue.Comments := []; EnumValue.EndLineComments := [];
          EnumValue.BadNode := true; EnumValue.Location := loc |}.

Definition NewEnumValue (listSeparatorKeyword : ptr ListSeparatorKeyword.t)
    (equalKeyword : ptr Keyword.t) (name : ptr Identifier.t)
    (valueNode : ptr ConstValue.t) (value : Z)
    (annotations : ptr Annotations.t) (loc : Location) : ptr EnumValue.t :=
  Some {| EnumValue.ListSeparatorKeyword := listSeparatorKeyword;
          EnumValue.EqualKeyword := equalKeyword;
          EnumValue.Name := name;
          EnumValue.ValueNode := valueNode;
          EnumValue.Value := value;
          EnumValue.Annotations := annotations;
          EnumValue.Comments := []; EnumValue.EndLineComments := [];
          EnumValue.BadNode := false; EnumValue.Location := loc |}.

Definition NewService
    (serviceKeyword extendsKeyword lCurKeyword rCurKeyword : ptr Keyword.t)
    (name extends : ptr Identifier.t) (fns : list (ptr Function.t))
    (loc : Location) : ptr Service.t :=
  Some {| Service.ServiceKeyword := serviceKeyword;
          Service.ExtendsKeyword := extendsKeyword;
          Service.LCurKeyword := lCurKeyword;
          Service.RCurKeyword := rCurKeyword;
          Service.Name := name;
          Service.Extends := extends;
          Service.Functions := fns;
          Service.Comments := []; Service.EndLineComments := [];
          Service.Annotations := None;
          Service.BadNode := false; Service.Location := loc |}.

Definition NewBadService (loc : Location) : ptr Service.t :=
  Some {| Service.ServiceKeyword := None;
          Service.ExtendsKeyword := None;
          Service.LCurKeyword := None;
          Service.RCurKeyword := None;
          Service.Name := None;
          Service.Extends := None;
          Service.Functions := [];
          Service.Comments := []; Service.EndLineComments := [];
          Service.Annotations := None;
          Service.BadNode := true; Service.Location := loc |}.

Definition NewThrows (throwsKeyword lparKeyword rparKeyword : ptr Keyword.t)
    (fields : list (ptr Field.t)) (loc : Location) : ptr Throws.t :=
  Some {| Throws.ThrowsKeyword := throwsKeyword;
          Throws.LParKeyword := lparKeyword;
          Throws.RParKeyword := rparKeyword;
          Throws.Fields := fields;
          Throws.BadNode := false; Throws.Location := loc |}.

Definition NewFunction (lParKeyword rParKeyword : ptr Keyword.t)
    (listSeparatorKeyword : ptr ListSeparatorKeyword.t)
    (name : ptr Identifier.t) (oneway void : ptr Keyword.t)
    (ft : ptr FieldType.t) (args : list (ptr Field.t))
    (throws : ptr Throws.t) (comments endlineComments : list (ptr Comment.t))
    (annotations : ptr Annotations.t) (loc : Location) : ptr Function.t :=
  Some {| Function.LParKeyword := lParKeyword;
          Function.RParKeyword := rParKeyword;
          Function.ListSeparatorKeyword := listSeparatorKeyword;
          Function.Name := name;
          Function.Oneway := oneway;
          Function.Void := void;
          Function.FunctionType := ft;
          Function.Arguments := args;
          Function.Throws := throws;
          Function.Comments := comments;
          Function.EndLineComments := endlineComments;
          Function.Annotations := annotations;
          Function.BadNode := false; Function.Location := loc |}.

Definition NewBadFunction (loc : Location) : ptr Function.t :=
  Some {| Function.LParKeyword := None;
          Function.RParKeyword := None;
          Function.ListSeparatorKeyword := None;
          Function.Name := None;
          Function.Oneway := None;
          Function.Void := None;
          Function.FunctionType := None;
          Function.Arguments := [];
          Function.Throws := None;
          Function.Comments := [];
          Function.EndLineComments := [];
          Function.Annotations := None;
          Function.BadNode := true; Function.Location := loc |}.

Definition NewUnion (unionKeyword lCurKeyword rCurKeyword : ptr Keyword.t)
    (name : ptr Identifier.t) (fields : list (ptr Field.t))
    (loc : Location) : ptr Union.t :=
  Some {| Union.UnionKeyword := unionKeyword;
          Union.LCurKeyword := lCurKeyword;
          Union.RCurKeyword := rCurKeyword;
          Union.Name := name;
          Union.Fields := fields;
          Union.Comments := []; Union.EndLineComments := [];
          Union.Annotations := None;
          Union.BadNode := false; Union.Location := loc |}.

Definition NewBadUnion (loc : Location) : ptr Union.t :=
  Some {| Union.UnionKeyword := None;
          Union.LCurKeyword := None;
          Union.RCurKeyword := None;
          Union.Name := None;
          Union.Fields := [];
          Union.Comments := []; Union.EndLineComments := [];
          Union.Annotations := None;
          Union.BadNode := true; Union.Location := loc |}.

Definition NewException
    (exceptionKeyword lCurKeyword rCurKeyword : ptr Keyword.t)
    (name : ptr Identifier.t) (fields : list (ptr Field.t))
    (loc : Location) : ptr Exception.t :=
  Some {| Exception.ExceptionKeyword := exceptionKeyword;
          Exception.LCurKeyword := lCurKeyword;
          Exception.RCurKeyword := rCurKeyword;
          Exception.Name := name;
          Exception.Fields := fields;
          Exception.Comments := []; Exception.EndLineComments := [];
          Exception.Annotations := None;
          Exception.BadNode := false; Exception.Location := loc |}.

Definition NewBadException (loc : Location) : ptr Exception.t :=
  Some {| Exception.ExceptionKeyword := None;
          Exception.LCurKeyword := None;
          Exception.RCurKeyword := None;
          Exception.Name := None;
          Exception.Fields := [];
          Exception.Comments := []; Exception.EndLineComments := [];
          Exception.Annotations := None;
          Exception.BadNode := true; Exception.Location := loc |}.

Definition NewIdentifierName (name : string) (loc : Location)
    : ptr IdentifierName.t :=
  Some {| IdentifierName.Text := name;
          IdentifierName.BadNode := String.eqb name EmptyString;
          IdentifierName.Location := loc |}.

Definition NewIdentifier (name : ptr IdentifierName.t)
    (comments : list (ptr Comment.t)) (loc : Location) : ptr Identifier.t :=
  Some {| Identifier.Name := name;
          Identifier.Comments := comments;
          Identifier.BadNode :=
            match name with
            | None => true
            | Some n => IdentifierName.BadNode n
            end;
          Identifier.Location := loc |}.

Definition NewBadIdentifier (loc : Location) : ptr Identifier.t :=
  Some {| Identifier.Name := None;
          Identifier.Comments := [];
          Identifier.BadNode := true;
          Identifier.Location := loc |}.

Definition NewField (equalKeyword : ptr Keyword.t)
    (listSeparatorKeyword : ptr ListSeparatorKeyword.t)
    (comments endLineComments : list (ptr Comment.t))
    (annotations : ptr Annotations.t) (index : ptr FieldIndex.t)
    (required : ptr Keyword.t) (fieldType : ptr FieldType.t)
    (identifier : ptr Identifier.t) (constValue : ptr ConstValue.t)
    (loc : Location) : ptr Field.t :=
  Some {| Field.Index := index;
          Field.RequiredKeyword := required;
          Field.FieldType := fieldType;
          Field.Identifier := identifier;
          Field.ConstValue := constValue;
          Field.EqualKeyword := equalKeyword;
          Field.ListSeparatorKeyword := listSeparatorKeyword;
          Field.Comments := comments;
          Field.EndLineComments := endLineComments;
          Field.Annotations := annotations;
          Field.BadNode := false; Field.Location := loc |}.

Definition NewBadField (loc : Location) : ptr Field.t :=
  Some {| Field.Index := None;
          Field.RequiredKeyword := None;
          Field.FieldType := None;
          Field.Identifier := None;
          Field.ConstValue := None;
          Field.EqualKeyword := None;
          Field.ListSeparatorKeyword := None;
          Field.Comments := [];
          Field.EndLineComments := [];
          Field.Annotations := None;
          Field.BadNode := true; Field.Location := loc |}.

Definition NewFieldIndex (colonKeyword : ptr Keyword.t) (v : Z)
    (comments : list (ptr Comment.t)) (loc : Location) : ptr FieldIndex.t :=
  Some {| FieldIndex.ColonKeyword := colonKeyword;
          FieldIndex.Value := v;
          FieldIndex.Comments := comments;
          FieldIndex.BadNode := false; FieldIndex.Location := loc |}.

Definition NewBadFieldIndex (loc : Location) : ptr FieldIndex.t :=
  Some {| FieldIndex.ColonKeyword := None;
          FieldIndex.Value := 0;
          FieldIndex.Comments := [];
          FieldIndex.BadNode := true; FieldIndex.Location := loc |}.

Definition NewCppType (cppTypeKeyword : ptr Keyword.t)
    (literal : ptr Literal.t) (loc : Location) : ptr CppType.t :=
  Some {| CppType.CppTypeKeyword := cppTypeKeyword;
          CppType.Literal := literal;
          CppType.BadNode := false; CppType.Location := loc |}.

Definition NewFieldType
    (lpointKeyword rpointKeyword commaKeyword : ptr Keyword.t)
    (cppType : ptr CppType.t) (typeName : ptr TypeName.t)
    (keyType valueType : ptr FieldType.t) (loc : Location)
    : ptr FieldType.t :=
  Some {| FieldType.TypeName := typeName;
          FieldType.KeyType := keyType;
          FieldType.ValueType := valueType;
          FieldType.CppType := cppType;
          FieldType.LPointKeyword := lpointKeyword;
          FieldType.RPointKeyword := rpointKeyword;
          FieldType.CommaKeyword := commaKeyword;
          FieldType.Annotations := None;
          FieldType.BadNode := false; FieldType.Location := loc |}.

Definition NewTypeName (name : string) (pos : position) : ptr TypeName.t :=
  Some {| TypeName.Name := name;
          TypeName.Comments := [];
          TypeName.BadNode := false;
          TypeName.Location := NewLocation pos name |}.

(** The struct [ConstValue] with only the fields named set. *)
Definition ConstValue_literal (typeName : string) (value key : ConstValue.any)
    (bad : bool) (loc : Location) : ConstValue.t :=
  {| ConstValue.TypeName := typeName;
     ConstValue.Value := value;
     ConstValue.ValueInText := EmptyString;
     ConstValue.Key := key;
     ConstValue.LBrkKeyword := None; ConstValue.RBrkKeyword := None;
     ConstValue.LCurKeyword := None; ConstValue.RCurKeyword := None;
     ConstValue.ListSeparatorKeyword := None;
     ConstValue.ColonKeyword := None;
     ConstValue.Comments := [];
     ConstValue.BadNode := bad;
     ConstValue.Location := loc |}.

Definition NewConstValue (typeName : string) (value : ConstValue.any)
    (loc : Location) : ptr ConstValue.t :=
  Some (ConstValue_literal typeName value ConstValue.any_nil false loc).

Definition NewBadConstValue (loc : Location) : ptr ConstValue.t :=
  Some (ConstValue_literal EmptyString ConstValue.any_nil ConstValue.any_nil true loc).

Definition NewBadIntConstValue (loc : Location) : ptr ConstValue.t :=
  Some (ConstValue_literal "i64" (ConstValue.any_int64 0) ConstValue.any_nil
          true loc).

Definition NewMapConstValue (key value : ptr ConstValue.t) (loc : Location)
    : ptr ConstValue.t :=
  Some (ConstValue_literal "pair" (ConstValue.any_ConstValue value)
          (ConstValue.any_ConstValue key) false loc).

Definition NewLiteralValue (text : string) (loc : Location)
    : ptr LiteralValue.t :=
  Some {| LiteralValue.Text := text;
          LiteralValue.BadNode := false; LiteralValue.Location := loc |}.

Definition NewBadLiteralValue (loc : Location) : ptr LiteralValue.t :=
  Some {| LiteralValue.Text := EmptyString;
          LiteralValue.BadNode := true; LiteralValue.Location := loc |}.

Definition NewLiteral (comments : list (ptr Comment.t))
    (v : ptr LiteralValue.t) (quote : string) (loc : Location)
    : ptr Literal.t :=
  Some {| Literal.Value := v;
          Literal.Quote := quote;
          Literal.Comments := comments;
          Literal.BadNode := false; Literal.Location := loc |}.

Definition NewBadLiteral (loc : Location) : ptr Literal.t :=
  Some {| Literal.Value := None;
          Literal.Quote := EmptyString;
          Literal.Comments := [];
          Literal.BadNode := true; Literal.Location := loc |}.

Definition NewAnnotations (lpar rpar : ptr Keyword.t)
    (annos : list (ptr Annotation.t)) (loc : Location) : ptr Annotations.t :=
  Some {| Annotations.Annotations := annos;
          Annotations.LParKeyword := lpar;
          Annotations.RParKeyword := rpar;
          Annotations.BadNode := false; Annotations.Location := loc |}.

Definition NewAnnotation (equalKeyword : ptr Keyword.t)
    (listSeparatorKeyword : ptr ListSeparatorKeyword.t)
    (id : ptr Identifier.t) (value : ptr Literal.t) (loc : Location)
    : ptr Annotation.t :=
  Some {| Annotation.EqualKeyword := equalKeyword;
          Annotation.ListSeparatorKeyword := listSeparatorKeyword;
          Annotation.Identifier := id;
          Annotation.Value := value;
          Annotation.BadNode := false; Annotation.Location := loc |}.

Definition NewBadAnnotation (loc : Location) : ptr Annotation.t :=
  Some {| Annotation.EqualKeyword := None;
          Annotation.ListSeparatorKeyword := None;
          Annotation.Identifier := None;
          Annotation.Value := None;
          Annotation.BadNode := true; Annotation.Location := loc |}.

Definition NewComment (text : string) (style : string) (loc : Location)
    : ptr Comment.t :=
  Some {| Comment.Text := text; Comment.Style := style;
          Comment.BadNode := false; Comment.Location := loc |}.

Definition NewBadComment (loc : Location) : ptr Comment.t :=
  Some {| Comment.Text := EmptyString; Comment.Style := EmptyString;
          Comment.BadNode := true; Comment.Location := loc |}.

(** ** Setters

    The setters write through their receiver; the result is the struct
    the receiver points to after the call. *)

Definition Struct_SetComments (s : ptr Struct.t)
    (comments endLineComments : list (ptr Comment.t)) : Result (ptr Struct.t) :=
  deref s (fun s =>
    Some {| Struct.StructKeyword := Struct.StructKeyword s;
            Struct.LCurKeyword := Struct.LCurKeyword s;
            Struct.RCurKeyword := Struct.RCurKeyword s;
            Struct.Identifier := Struct.Identifier s;
            Struct.Fields := Struct.Fields s;
            Struct.Comments := comments;
            Struct.EndLineComments := endLineComments;
            Struct.Annotations := Struct.Annotations s;
            Struct.BadNode := Struct.BadNode s;
            Struct.Location := Struct.Location s |}).

Definition Struct_SetAnnotations (s : ptr Struct.t)
    (annos : ptr Annotations.t) : Result (ptr Struct.t) :=
  deref s (fun s =>
    Some {| Struct.StructKeyword := Struct.StructKeyword s;
            Struct.LCurKeyword := Struct.LCurKeyword s;
            Struct.RCurKeyword := Struct.RCurKeyword s;
            Struct.Identifier := Struct.Identifier s;
            Struct.Fields := Struct.Fields s;
            Struct.Comments := Struct.Comments s;
            Struct.EndLineComments := Struct.EndLineComments s;
            Struct.Annotations := annos;
            Struct.BadNode := Struct.BadNode s;
            Struct.Location := Struct.Location s |}).

Definition Union_SetComments (u : ptr Union.t)
    (comments endLineComments : list (ptr Comment.t)) : Result (ptr Union.t) :=
  deref u (fun u =>
    Some {| Union.UnionKeyword := Union.UnionKeyword u;
            Union.LCurKeyword := Union.LCurKeyword u;
            Union.RCurKeyword := Union.RCurKeyword u;
            Union.Name := Union.Name u;
            Union.Fields := Union.Fields u;
            Union.Comments := comments;
            Union.EndLineComments := endLineComments;
            Union.Annotations := Union.Annotations u;
            Union.BadNode := Union.BadNode u;
            Union.Location := Union.Location u |}).

Definition Union_SetAnnotations (u : ptr Union.t)
    (annos : ptr Annotations.t) : Result (ptr Union.t) :=
  deref u (fun u =>
    Some {| Union.UnionKeyword := Union.UnionKeyword u;
            Union.LCurKeyword := Union.LCurKeyword u;
            Union.RCurKeyword := Union.RCurKeyword u;
            Union.Name := Union.Name u;
            Union.Fields := Union.Fields u;
            Union.Comments := Union.Comments u;
            Union.EndLineComments := Union.EndLineComments u;
            Union.Annotations := annos;
            Union.BadNode := Union.BadNode u;
            Union.Location := Union.Location u |}).

Definition Exception_SetComments (e : ptr Exception.t)
    (comments endLineComments : list (ptr Comment.t))
    : Result (ptr Exception.t) :=
  deref e (fun e =>
    Some {| Exception.ExceptionKeyword := Exception.ExceptionKeyword e;
            Exception.LCurKeyword := Exception.LCurKeyword e;
            Exception.RCurKeyword := Exception.RCurKeyword e;
            Exception.Name := Exception.Name e;
            Exception.Fields := Exception.Fields e;
            Exception.Comments := comments;
            Exception.EndLineComments := endLineComments;
            Exception.Annotations := Exception.Annotations e;
            Exception.BadNode := Exception.BadNode e;
            Exception.Location := Exception.Location e |}).

Definition Exception_SetAnnotations (e : ptr Exception.t)
    (annos : ptr Annotations.t) : Result (ptr Exception.t) :=
  deref e (fun e =>
    Some {| Exception.ExceptionKeyword := Exception.ExceptionKeyword e;
            Exception.LCurKeyword := Exception.LCurKeyword e;
            Exception.RCurKeyword := Exception.RCurKeyword e;
            Exception.Name := Exception.Name e;
            Exception.Fields := Exception.Fields e;
            Exception.Comments := Exception.Comments e;
            Exception.EndLineComments := Exception.EndLineComments e;
            Exception.Annotations := annos;
            Exception.BadNode := Exception.BadNode e;
            Exception.Location := Exception.Location e |}).

Definition Enum_SetComments (e : ptr Enum.t)
    (comments endlineComments : list (ptr Comment.t)) : Result (ptr Enum.t) :=
  deref e (fun e =>
    Some {| Enum.EnumKeyword := Enum.EnumKeyword e;
            Enum.LCurKeyword := Enum.LCurKeyword e;
            Enum.RCurKeyword := Enum.RCurKeyword e;
            Enum.Name := Enum.Name e;
            Enum.Values := Enum.Values e;
            Enum.Comments := comments;
            Enum.EndLineComments := endlineComments;
            Enum.Annotations := Enum.Annotations e;
            Enum.BadNode := Enum.BadNode e;
            Enum.Location := Enum.Location e |}).

Definition Enum_SetAnnotations (e : ptr Enum.t)
    (annos : ptr Annotations.t) : Result (ptr Enum.t) :=
  deref e (fun e =>
    Some {| Enum.EnumKeyword := Enum.EnumKeyword e;
            Enum.LCurKeyword := Enum.LCurKeyword e;
            Enum.RCurKeyword := Enum.RCurKeyword e;
            Enum.Name := Enum.Name e;
            Enum.Values := Enum.Values e;
            Enum.Comments := Enum.Comments e;
            Enum.EndLineComments := Enum.EndLineComments e;
            Enum.Annotations := annos;
            Enum.BadNode := Enum.BadNode e;
            Enum.Location := Enum.Location e |}).

Definition Service_SetComments (s : ptr Service.t)
    (comments endLineComments : list (ptr Comment.t))
    : Result (ptr Service.t) :=
  deref s (fun s =>
    Some {| Service.ServiceKeyword := Service.ServiceKeyword s;
            Service.ExtendsKeyword := Service.ExtendsKeyword s;
            Service.LCurKeyword := Service.LCurKeyword s;
            Service.RCurKeyword := Service.RCurKeyword s;
            Service.Name := Service.Name s;
            Service.Extends := Service.Extends s;
            Service.Functions := Service.Functions s;
            Service.Comments := comments;
            Service.EndLineComments := endLineComments;
            Service.Annotations := Service.Annotations s;
            Service.BadNode := Service.BadNode s;
            Service.Location := Service.Location s |}).

Definition Service_SetAnnotations (s : ptr Service.t)
    (annos : ptr Annotations.t) : Result (ptr Service.t) :=
  deref s (fun s =>
    Some {| Service.ServiceKeyword := Service.ServiceKeyword s;
            Service.ExtendsKeyword := Service.ExtendsKeyword s;
            Service.LCurKeyword := Service.LCurKeyword s;
            Service.RCurKeyword := Service.RCurKeyword s;
            Service.Name := Service.Name s;
            Service.Extends := Service.Extends s;
            Service.Functions := Service.Functions s;
            Service.Comments := Service.Comments s;
            Service.EndLineComments := Service.EndLineComments s;
            Service.Annotations := annos;
            Service.BadNode := Service.BadNode s;
            Service.Location := Service.Location s |}).

(** ** [Children()]

    [append_if_not_nil] is the statement
    [if p != nil { nodes = append(nodes, p) }], and [map N l] the loop
    that appends every element of the slice [l]. *)

Definition append_if_not_nil {A : Type} (N : ptr A -> Node) (p : ptr A)
    : list Node :=
  match p with
  | Some _ => [N p]
  | None => []
  end.

Definition Document_Children (d : ptr DocumentT) : Result (list Node) :=
  deref d (fun d => Document.Nodes d).

Definition BadHeader_Children (h : ptr BadHeader.t) : Result (list Node) :=
  Ok [].

Definition KeywordLiteral_Children (k : ptr KeywordLiteral.t)
    : Result (list Node) :=
  Ok [].

(** A method that a struct [W] has by embedding a struct [E]: the call
    on a [*W] selects the embedded field, which fails on a nil pointer,
    and calls the method of [*E] on its address. *)
Definition promoted {W E B : Type} (field : W -> E) (m : ptr E -> Result B)
    (w : ptr W) : Result B :=
  match w with
  | None => Panic
  | Some w => m (Some (field w))
  end.

Definition Keyword_Children (i : ptr Keyword.t) : Result (list Node) :=
  Ok [].

Definition Include_Children (i : ptr Include.t) : Result (list Node) :=
  deref i (fun i =>
    [NKeyword IncludeKeyword (Include.IncludeKeyword i);
     NLiteral (Include.Path i)]
    ++ map NComment (Include.Comments i)
    ++ map NComment (Include.EndLineComments i)).

Definition CPPInclude_Children (i : ptr CPPInclude.t) : Result (list Node) :=
  deref i (fun i =>
    [NKeyword CPPIncludeKeyword (CPPInclude.CPPIncludeKeyword i);
     NLiteral (CPPInclude.Path i)]
    ++ map NComment (CPPInclude.Comments i)
    ++ map NComment (CPPInclude.EndLineComments i)).

Definition Namespace_Children (n : ptr Namespace.t) : Result (list Node) :=
  deref n (fun n =>
    [NKeyword NamespaceKeyword (Namespace.NamespaceKeyword n);
     NNamespaceScope (Namespace.Language n);
     NIdentifier (Namespace.Name n)]
    ++ map NComment (Namespace.Comments n)
    ++ map NComment (Namespace.EndLineComments n)
    ++ append_if_not_nil NAnnotations (Namespace.Annotations n)).

Definition BadDefinition_Children (d : ptr BadDefinition.t)
    : Result (list Node) :=
  Ok [].

Definition Struct_Children (s : ptr Struct.t) : Result (list Node) :=
  deref s (fun s =>
    [NKeyword StructKeyword (Struct.StructKeyword s);
     NKeyword LCurKeyword (Struct.LCurKeyword s);
     NKeyword RCurKeyword (Struct.RCurKeyword s);
     NIdentifier (Struct.Identifier s)]
    ++ map NField (Struct.Fields s)
    ++ map NComment (Struct.Comments s)
    ++ map NComment (Struct.EndLineComments s)
    ++ append_if_not_nil NAnnotations (Struct.Annotations s)).

Definition Const_Children (c : ptr Const.t) : Result (list Node) :=
  deref c (fun c =>
    [NKeyword ConstKeyword (Const.ConstKeyword c);
     NKeyword EqualKeyword (Const.EqualKeyword c);
     NIdentifier (Const.Name c);
     NFieldType (Const.ConstType c);
     NConstValue (Const.Value c)]
    ++ append_if_not_nil NListSeparatorKeyword (Const.ListSeparatorKeyword c)
    ++ map NComment (Const.Comments c)
    ++ map NComment (Const.EndLineComments c)
    ++ append_if_not_nil NAnnotations (Const.Annotations c)).

Definition Typedef_Children (t : ptr Typedef.t) : Result (list Node) :=
  deref t (fun t =>
    [NKeyword TypedefKeyword (Typedef.TypedefKeyword t);
     NFieldType (Typedef.T t);
     NIdentifier (Typedef.Alias t)]
    ++ map NComment (Typedef.Comments t)
    ++ map NComment (Typedef.EndLineComments t)
    ++ append_if_not_nil NAnnotations (Typedef.Annotations t)).

Definition Enum_Children (e : ptr Enum.t) : Result (list Node) :=
  deref e (fun e =>
    [NIdentifier (Enum.Name e)]
    ++ map NEnumValue (Enum.Values e)
    ++ map NComment (Enum.Comments e)
    ++ map NComment (Enum.EndLineComments e)
    ++ append_if_not_nil NAnnotations (Enum.Annotations e)).

Definition EnumValue_Children (e : ptr EnumValue.t) : Result (list Node) :=
  deref e (fun e =>
    [NIdentifier (EnumValue.Name e)]
    ++ append_if_not_nil NConstValue (EnumValue.ValueNode e)
    ++ append_if_not_nil NListSeparatorKeyword
         (EnumValue.ListSeparatorKeyword e)
    ++ append_if_not_nil (NKeyword EqualKeyword) (EnumValue.EqualKeyword e)
    ++ map NComment (EnumValue.Comments e)
    ++ map NComment (EnumValue.EndLineComments e)
    ++ append_if_not_nil NAnnotations (EnumValue.Annotations e)).

Definition Service_Children (s : ptr Service.t) : Result (list Node) :=
  deref s (fun s =>
    [NKeyword ServiceKeyword (Service.ServiceKeyword s);
     NKeyword LCurKeyword (Service.LCurKeyword s);
     NKeyword RCurKeyword (Service.RCurKeyword s)]
    ++ append_if_not_nil (NKeyword ExtendsKeyword) (Service.ExtendsKeyword s)
    ++ append_if_not_nil NIdentifier (Service.Name s)
    ++ append_if_not_nil NIdentifier (Service.Extends s)
    ++ map NFunction (Service.Functions s)
    ++ map NComment (Service.Comments s)
    ++ map NComment (Service.EndLineComments s)
    ++ append_if_not_nil NAnnotations (Service.Annotations s)).

Definition Throws_Children (t : ptr Throws.t) : Result (list Node) :=
  deref t (fun t =>
    [NKeyword ThrowsKeyword (Throws.ThrowsKeyword t);
     NKeyword LParKeyword (Throws.LParKeyword t);
     NKeyword RParKeyword (Throws.RParKeyword t)]
    ++ map NField (Throws.Fields t)).

Definition Function_Children (f : ptr Function.t) : Result (list Node) :=
  deref f (fun f =>
    [NKeyword LParKeyword (Function.LParKeyword f);
     NKeyword RParKeyword (Function.RParKeyword f)]
    ++ append_if_not_nil (NKeyword OnewayKeyword) (Function.Oneway f)
    ++ append_if_not_nil (NKeyword VoidKeyword) (Function.Void f)
    ++ append_if_not_nil NListSeparatorKeyword
         (Function.ListSeparatorKeyword f)
    ++ append_if_not_nil NIdentifier (Function.Name f)
    ++ append_if_not_nil NFieldType (Function.FunctionType f)
    ++ map NField (Function.Arguments f)
    ++ append_if_not_nil NThrows (Function.Throws f)
    ++ map NComment (Function.Comments f)
    ++ map NComment (Function.EndLineComments f)
    ++ append_if_not_nil NAnnotations (Function.Annotations f)).

Definition Union_Children (u : ptr Union.t) : Result (list Node) :=
  deref u (fun u =>
    [NIdentifier (Union.Name u);
     NKeyword UnionKeyword (Union.UnionKeyword u);
     NKeyword LCurKeyword (Union.LCurKeyword u);
     NKeyword RCurKeyword (Union.RCurKeyword u)]
    ++ map NField (Union.Fields u)
    ++ map NComment (Union.Comments u)
    ++ map NComment (Union.EndLineComments u)
    ++ map NComment (Union.Comments u)
    ++ map NComment (Union.EndLineComments u)
    ++ append_if_not_nil NAnnotations (Union.Annotations u)).

Definition Exception_Children (e : ptr Exception.t) : Result (list Node) :=
  deref e (fun e =>
    [NIdentifier (Exception.Name e);
     NKeyword ExceptionKeyword (Exception.ExceptionKeyword e);
     NKeyword LCurKeyword (Exception.LCurKeyword e);
     NKeyword RCurKeyword (Exception.RCurKeyword e)]
    ++ map NField (Exception.Fields e)
    ++ map NComment (Exception.Comments e)
    ++ map NComment (Exception.EndLineComments e)
    ++ append_if_not_nil NAnnotations (Exception.Annotations e)).

Definition IdentifierName_Children (i : ptr IdentifierName.t)
    : Result (list Node) :=
  Ok [].

Definition Identifier_Children (i : ptr Identifier.t) : Result (list Node) :=
  deref i (fun i =>
    map NComment (Identifier.Comments i)
    ++ [NIdentifierName (Identifier.Name i)]).

Definition Field_Children (f : ptr Field.t) : Result (list Node) :=
  deref f (fun f =>
    append_if_not_nil (NKeyword RequiredKeyword) (Field.RequiredKeyword f)
    ++ append_if_not_nil NFieldType (Field.FieldType f)
    ++ append_if_not_nil NIdentifier (Field.Identifier f)
    ++ append_if_not_nil NConstValue (Field.ConstValue f)
    ++ append_if_not_nil (NKeyword EqualKeyword) (Field.EqualKeyword f)
    ++ append_if_not_nil NListSeparatorKeyword (Field.ListSeparatorKeyword f)
    ++ map NComment (Field.Comments f)
    ++ map NComment (Field.EndLineComments f)
    ++ append_if_not_nil NAnnotations (Field.Annotations f)).

Definition FieldIndex_Children (f : ptr FieldIndex.t) : Result (list Node) :=
  Ok [].

Definition CppType_Children (c : ptr CppType.t) : Result (list Node) :=
  deref c (fun c =>
    [NKeyword CppTypeKeyword (CppType.CppTypeKeyword c);
     NLiteral (CppType.Literal c)]).

Definition FieldType_Children (c : ptr FieldType.t) : Result (list Node) :=
  deref c (fun c =>
    [NTypeName (FieldType.TypeName c)]
    ++ append_if_not_nil NFieldType (FieldType.KeyType c)
    ++ append_if_not_nil NFieldType (FieldType.ValueType c)).

Definition TypeName_Children (t : ptr TypeName.t) : Result (list Node) :=
  deref t (fun t => map NComment (TypeName.Comments t)).

Definition ConstValue_Children (c : ptr ConstValue.t) : Result (list Node) :=
  Ok [].

Definition LiteralValue_Children (l : ptr LiteralValue.t)
    : Result (list Node) :=
  Ok [].

Definition Literal_Children (l : ptr Literal.t) : Result (list Node) :=
  deref l (fun l =>
    map NComment (Literal.Comments l)
    ++ append_if_not_nil NLiteralValue (Literal.Value l)).

Definition Annotations_Children (a : ptr Annotations.t)
    : Result (list Node) :=
  deref a (fun a =>
    [NKeyword LParKeyword (Annotations.LParKeyword a);
     NKeyword RParKeyword (Annotations.RParKeyword a)]
    ++ map NAnnotation (Annotations.Annotations a)).

Definition Annotation_Children (a : ptr Annotation.t) : Result (list Node) :=
  deref a (fun a =>
    [NIdentifier (Annotation.Identifier a);
     NLiteral (Annotation.Value a);
     NKeyword EqualKeyword (Annotation.EqualKeyword a)]
    ++ append_if_not_nil NListSeparatorKeyword
         (Annotation.ListSeparatorKeyword a)).

Definition Comment_Children (c : ptr Comment.t) : Result (list Node) :=
  Ok [].

(** [n.Children()] for a value [n] of interface type [Node]. *)
Definition Children (n : Node) : Result (list Node) :=
  match n with
  | NDocument p => Document_Children p
  | NBadHeader p => BadHeader_Children p
  | NKeywordLiteral p => KeywordLiteral_Children p
  | NKeyword _ p => promoted (fun k => k) Keyword_Children p
  | NListSeparatorKeyword p =>
      promoted ListSeparatorKeyword.Keyword Keyword_Children p
  | NInclude p => Include_Children p
  | NCPPInclude p => CPPInclude_Children p
  | NNamespaceScope p => promoted (fun i => i) Identifier_Children p
  | NNamespace p => Namespace_Children p
  | NBadDefinition p => BadDefinition_Children p
  | NStruct p => Struct_Children p
  | NConst p => Const_Children p
  | NTypedef p => Typedef_Children p
  | NEnum p => Enum_Children p
  | NEnumValue p => EnumValue_Children p
  | NService p => Service_Children p
  | NThrows p => Throws_Children p
  | NFunction p => Function_Children p
  | NUnion p => Union_Children p
  | NException p => Exception_Children p
  | NIdentifierName p => IdentifierName_Children p
  | NIdentifier p => Identifier_Children p
  | NField p => Field_Children p
  | NFieldIndex p => FieldIndex_Children p
  | NCppType p => CppType_Children p
  | NFieldType p => FieldType_Children p
  | NTypeName p => TypeName_Children p
  | NConstValue p => ConstValue_Children p
  | NLiteralValue p => LiteralValue_Children p
  | NLiteral p => Literal_Children p
  | NAnnotations p => Annotations_Children p
  | NAnnotation p => Annotation_Children p
  | NComment p => Comment_Children p
  end.

(** ** [IsBadNode()] *)

Definition Document_IsBadNode (d : ptr DocumentT) : Result bool := Ok false.
Definition BadHeader_IsBadNode (h : ptr BadHeader.t) : Result bool := Ok true.
Definition KeywordLiteral_IsBadNode (k : ptr KeywordLiteral.t) : Result bool :=
  deref k KeywordLiteral.BadNode.
Definition Keyword_IsBadNode (i : ptr Keyword.t) : Result bool :=
  deref i Keyword.BadNode.
Definition Include_IsBadNode (i : ptr Include.t) : Result bool :=
  deref i Include.BadNode.
Definition CPPInclude_IsBadNode (i : ptr CPPInclude.t) : Result bool :=
  deref i CPPInclude.BadNode.
Definition Namespace_IsBadNode (n : ptr Namespace.t) : Result bool :=
  deref n Namespace.BadNode.
Definition BadDefinition_IsBadNode (d : ptr BadDefinition.t) : Result bool :=
  Ok true.
Definition Struct_IsBadNode (s : ptr Struct.t) : Result bool :=
  deref s Struct.BadNode.
Definition Const_IsBadNode (c : ptr Const.t) : Result bool :=
  deref c Const.BadNode.
Definition Typedef_IsBadNode (t : ptr Typedef.t) : Result bool :=
  deref t Typedef.BadNode.
Definition Enum_IsBadNode (e : ptr Enum.t) : Result bool :=
  deref e Enum.BadNode.
Definition EnumValue_IsBadNode (e : ptr EnumValue.t) : Result bool :=
  deref e EnumValue.BadNode.
Definition Service_IsBadNode (s : ptr Service.t) : Result bool :=
  deref s Service.BadNode.
Definition Throws_IsBadNode (t : ptr Throws.t) : Result bool :=
  deref t Throws.BadNode.
Definition Function_IsBadNode (f : ptr Function.t) : Result bool :=
  deref f Function.BadNode.
Definition Union_IsBadNode (u : ptr Union.t) : Result bool :=
  deref u Union.BadNode.
Definition Exception_IsBadNode (e : ptr Exception.t) : Result bool :=
  deref e Exception.BadNode.
Definition IdentifierName_IsBadNode (i : ptr IdentifierName.t) : Result bool :=
  deref i IdentifierName.BadNode.
Definition Identifier_IsBadNode (i : ptr Identifier.t) : Result bool :=
  deref i Identifier.BadNode.
Definition Field_IsBadNode (f : ptr Field.t) : Result bool :=
  deref f Field.BadNode.
Definition FieldIndex_IsBadNode (f : ptr FieldIndex.t) : Result bool :=
  deref f FieldIndex.BadNode.

(** [func (c *CppType) IsBadNode() bool { return c.IsBadNode() }]: the
    method calls itself; [fuel] bounds the depth of the calls. *)
Fixpoint CppType_IsBadNode (fuel : nat) (c : ptr CppType.t) : Result bool :=
  match fuel with
  | O => OutOfFuel
  | S fuel => CppType_IsBadNode fuel c
  end.

Definition FieldType_IsBadNode (c : ptr FieldType.t) : Result bool :=
  deref c FieldType.BadNode.
Definition TypeName_IsBadNode (t : ptr TypeName.t) : Result bool :=
  deref t TypeName.BadNode.
Definition ConstValue_IsBadNode (c : ptr ConstValue.t) : Result bool :=
  deref c (@ConstValue.BadNode _).
Definition LiteralValue_IsBadNode (l : ptr LiteralValue.t) : Result bool :=
  deref l LiteralValue.BadNode.
Definition Literal_IsBadNode (l : ptr Literal.t) : Result bool :=
  deref l Literal.BadNode.
Definition Annotations_IsBadNode (a : ptr Annotations.t) : Result bool :=
  deref a Annotations.BadNode.
Definition Annotation_IsBadNode (a : ptr Annotation.t) : Result bool :=
  deref a Annotation.BadNode.
Definition Comment_IsBadNode (c : ptr Comment.t) : Result bool :=
  deref c Comment.BadNode.

(** [n.IsBadNode()] for a value [n] of interface type [Node]; [fuel]
    bounds the depth of nested calls. *)
Definition IsBadNode (fuel : nat) (n : Node) : Result bool :=
  match n with
  | NDocument p => Document_IsBadNode p
  | NBadHeader p => BadHeader_IsBadNode p
  | NKeywordLiteral p => KeywordLiteral_IsBadNode p
  | NKeyword _ p => promoted (fun k => k) Keyword_IsBadNode p
  | NListSeparatorKeyword p =>
      promoted ListSeparatorKeyword.Keyword Keyword_IsBadNode p
  | NInclude p => Include_IsBadNode p
  | NCPPInclude p => CPPInclude_IsBadNode p
  | NNamespaceScope p => promoted (fun i => i) Identifier_IsBadNode p
  | NNamespace p => Namespace_IsBadNode p
  | NBadDefinition p => BadDefinition_IsBadNode p
  | NStruct p => Struct_IsBadNode p
  | NConst p => Const_IsBadNode p
  | NTypedef p => Typedef_IsBadNode p
  | NEnum p => Enum_IsBadNode p
  | NEnumValue p => EnumValue_IsBadNode p
  | NService p => Service_IsBadNode p
  | NThrows p => Throws_IsBadNode p
  | NFunction p => Function_IsBadNode p
  | NUnion p => Union_IsBadNode p
  | NException p => Exception_IsBadNode p
  | NIdentifierName p => IdentifierName_IsBadNode p
  | NIdentifier p => Identifier_IsBadNode p
  | NField p => Field_IsBadNode p
  | NFieldIndex p => FieldIndex_IsBadNode p
  | NCppType p => CppType_IsBadNode fuel p
  | NFieldType p => FieldType_IsBadNode p
  | NTypeName p => TypeName_IsBadNode p
  | NConstValue p => ConstValue_IsBadNode p
  | NLiteralValue p => LiteralValue_IsBadNode p
  | NLiteral p => Literal_IsBadNode p
  | NAnnotations p => Annotations_IsBadNode p
  | NAnnotation p => Annotation_IsBadNode p
  | NComment p => Comment_IsBadNode p
  end.

(** ** [ChildrenBadNode()]

    The methods call [IsBadNode] and [ChildrenBadNode] on the elements of
    a slice of [Node]s, that is through the interface; in this section
    the two calls are [isBadNode] and [childrenBadNode]. *)

Section ChildrenBadNodeMethods.

Variable isBadNode : Node -> Result bool.
Variable childrenBadNode : Node -> Result bool.

(** [for i := range children {
       if children[i].IsBadNode() { return true }
       if children[i].ChildrenBadNode() { return true } }
     return false] *)
Fixpoint children_loop (children : list Node) : Result bool :=
  match children with
  | [] => Ok false
  | child :: rest =>
      bad <- isBadNode child ;;
      if bad then Ok true
      else
        sub <- childrenBadNode child ;;
        if sub then Ok true else children_loop rest
  end.

Definition Document_ChildrenBadNode (d : ptr DocumentT) : Result bool :=
  children <- Document_Children d ;; children_loop children.
Definition BadHeader_ChildrenBadNode (h : ptr BadHeader.t) : Result bool :=
  Ok false.
Definition KeywordLiteral_ChildrenBadNode (k : ptr KeywordLiteral.t)
    : Result bool :=
  Ok false.
Definition Keyword_ChildrenBadNode (i : ptr Keyword.t) : Result bool :=
  Ok false.
Definition Include_ChildrenBadNode (i : ptr Include.t) : Result bool :=
  children <- Include_Children i ;; children_loop children.
Definition CPPInclude_ChildrenBadNode (i : ptr CPPInclude.t) : Result bool :=
  children <- CPPInclude_Children i ;; children_loop children.
Definition Namespace_ChildrenBadNode (n : ptr Namespace.t) : Result bool :=
  children <- Namespace_Children n ;; children_loop children.
Definition BadDefinition_ChildrenBadNode (d : ptr BadDefinition.t)
    : Result bool :=
  Ok false.
Definition Struct_ChildrenBadNode (s : ptr Struct.t) : Result bool :=
  children <- Struct_Children s ;; children_loop children.
Definition Const_ChildrenBadNode (c : ptr Const.t) : Result bool :=
  children <- Const_Children c ;; children_loop children.
Definition Typedef_ChildrenBadNode (t : ptr Typedef.t) : Result bool :=
  children <- Typedef_Children t ;; children_loop children.
Definition Enum_ChildrenBadNode (e : ptr Enum.t) : Result bool :=
  children <- Enum_Children e ;; children_loop children.
Definition EnumValue_ChildrenBadNode (e : ptr EnumValue.t) : Result bool :=
  children <- EnumValue_Children e ;; children_loop children.
Definition Service_ChildrenBadNode (s : ptr Service.t) : Result bool :=
  children <- Service_Children s ;; children_loop children.
Definition Throws_ChildrenBadNode (t : ptr Throws.t) : Result bool :=
  children <- Throws_Children t ;; children_loop children.
Definition Function_ChildrenBadNode (f : ptr Function.t) : Result bool :=
  children <- Function_Children f ;; children_loop children.
Definition Union_ChildrenBadNode (u : ptr Union.t) : Result bool :=
  children <- Union_Children u ;; children_loop children.
Definition Exception_ChildrenBadNode (e : ptr Exception.t) : Result bool :=
  children <- Exception_Children e ;; children_loop children.
Definition IdentifierName_ChildrenBadNode (i : ptr IdentifierName.t)
    : Result bool :=
  children <- IdentifierName_Children i ;; children_loop children.
Definition Identifier_ChildrenBadNode (i : ptr Identifier.t) : Result bool :=
  children <- Identifier_Children i ;; children_loop children.
Definition Field_ChildrenBadNode (f : ptr Field.t) : Result bool :=
  children <- Field_Children f ;; children_loop children.
Definition FieldIndex_ChildrenBadNode (f : ptr FieldIndex.t) : Result bool :=
  children <- FieldIndex_Children f ;; children_loop children.
Definition CppType_ChildrenBadNode (c : ptr CppType.t) : Result bool :=
  children <- CppType_Children c ;; children_loop children.
Definition FieldType_ChildrenBadNode (c : ptr FieldType.t) : Result bool :=
  children <- FieldType_Children c ;; children_loop children.
Definition TypeName_ChildrenBadNode (t : ptr TypeName.t) : Result bool :=
  children <- TypeName_Children t ;; children_loop children.
Definition ConstValue_ChildrenBadNode (c : ptr ConstValue.t) : Result bool :=
  children <- ConstValue_Children c ;; children_loop children.
Definition LiteralValue_ChildrenBadNode (l : ptr LiteralValue.t)
    : Result bool :=
  children <- LiteralValue_Children l ;; children_loop children.
Definition Literal_ChildrenBadNode (l : ptr Literal.t) : Result bool :=
  children <- Literal_Children l ;; children_loop children.
Definition Annotations_ChildrenBadNode (a : ptr Annotations.t)
    : Result bool :=
  children <- Annotations_Children a ;; children_loop children.
Definition Annotation_ChildrenBadNode (a : ptr Annotation.t) : Result bool :=
  children <- Annotation_Children a ;; children_loop children.
Definition Comment_ChildrenBadNode (c : ptr Comment.t) : Result bool :=
  Ok false.

(** The method of the dynamic type of [n]. *)
Definition ChildrenBadNode_dispatch (n : Node) : Result bool :=
  match n with
  | NDocument p => Document_ChildrenBadNode p
  | NBadHeader p => BadHeader_ChildrenBadNode p
  | NKeywordLiteral p => KeywordLiteral_ChildrenBadNode p
  | NKeyword _ p => promoted (fun k => k) Keyword_ChildrenBadNode p
  | NListSeparatorKeyword p =>
      promoted ListSeparatorKeyword.Keyword Keyword_ChildrenBadNode p
  | NInclude p => Include_ChildrenBadNode p
  | NCPPInclude p => CPPInclude_ChildrenBadNode p
  | NNamespaceScope p => promoted (fun i => i) Identifier_ChildrenBadNode p
  | NNamespace p => Namespace_ChildrenBadNode p
  | NBadDefinition p => BadDefinition_ChildrenBadNode p
  | NStruct p => Struct_ChildrenBadNode p
  | NConst p => Const_ChildrenBadNode p
  | NTypedef p => Typedef_ChildrenBadNode p
  | NEnum p => Enum_ChildrenBadNode p
  | NEnumValue p => EnumValue_ChildrenBadNode p
  | NService p => Service_ChildrenBadNode p
  | NThrows p => Throws_ChildrenBadNode p
  | NFunction p => Function_ChildrenBadNode p
  | NUnion p => Union_ChildrenBadNode p
  | NException p => Exception_ChildrenBadNode p
  | NIdentifierName p => IdentifierName_ChildrenBadNode p
  | NIdentifier p => Identifier_ChildrenBadNode p
  | NField p => Field_ChildrenBadNode p
  | NFieldIndex p => FieldIndex_ChildrenBadNode p
  | NCppType p => CppType_ChildrenBadNode p
  | NFieldType p => FieldType_ChildrenBadNode p
  | NTypeName p => TypeName_ChildrenBadNode p
  | NConstValue p => ConstValue_ChildrenBadNode p
  | NLiteralValue p => LiteralValue_ChildrenBadNode p
  | NLiteral p => Literal_ChildrenBadNode p
  | NAnnotations p => Annotations_ChildrenBadNode p
  | NAnnotation p => Annotation_ChildrenBadNode p
  | NComment p => Comment_ChildrenBadNode p
  end.

End ChildrenBadNodeMethods.

(** [n.ChildrenBadNode()] for a value [n] of interface type [Node];
    [fuel] bounds the depth of nested calls. *)
Fixpoint ChildrenBadNode (fuel : nat) (n : Node) : Result bool :=
  match fuel with
  | O => OutOfFuel
  | S fuel =>
      ChildrenBadNode_dispatch (IsBadNode fuel) (ChildrenBadNode fuel) n
  end.

(** ** [NewDocument] *)

(** The type assertions of a header or a definition to a pointer type,
    as in [header.( *Include )]: a panic when
    the dynamic type of the value is another one. *)
Definition assert_Include (h : Header) : Result (ptr Include.t) :=
  match h with HInclude p => Ok p | _ => Panic end.
Definition assert_CPPInclude (h : Header) : Result (ptr CPPInclude.t) :=
  match h with HCPPInclude p => Ok p | _ => Panic end.
Definition assert_Namespace (h : Header) : Result (ptr Namespace.t) :=
  match h with HNamespace p => Ok p | _ => Panic end.
Definition assert_BadHeader (h : Header) : Result (ptr BadHeader.t) :=
  match h with HBadHeader p => Ok p | _ => Panic end.
Definition assert_Const (d : Definition_) : Result (ptr Const.t) :=
  match d with DConst p => Ok p | _ => Panic end.
Definition assert_Typedef (d : Definition_) : Result (ptr Typedef.t) :=
  match d with DTypedef p => Ok p | _ => Panic end.
Definition assert_Enum (d : Definition_) : Result (ptr Enum.t) :=
  match d with DEnum p => Ok p | _ => Panic end.
Definition assert_Service (d : Definition_) : Result (ptr Service.t) :=
  match d with DService p => Ok p | _ => Panic end.
Definition assert_Struct (d : Definition_) : Result (ptr Struct.t) :=
  match d with DStruct p => Ok p | _ => Panic end.
Definition assert_Union (d : Definition_) : Result (ptr Union.t) :=
  match d with DUnion p => Ok p | _ => Panic end.
Definition assert_Exception (d : Definition_) : Result (ptr Exception.t) :=
  match d with DException p => Ok p | _ => Panic end.
Definition assert_BadDefinition (d : Definition_)
    : Result (ptr BadDefinition.t) :=
  match d with DBadDefinition p => Ok p | _ => Panic end.

(** The assignments [doc.F = append(doc.F, x)], one per field. *)
Section DocumentAppend.
Import Document.
Variable doc : DocumentT.

Definition append_BadHeaders (x : ptr BadHeader.t) : DocumentT :=
  mk (Filename doc) (BadHeaders doc ++ [x]) (Includes doc) (CPPIncludes doc)
     (Namespaces doc) (Consts doc) (Typedefs doc) (Enums doc) (Services doc)
     (Structs doc) (Unions doc) (Exceptions doc) (BadDefinitions doc)
     (Comments doc) (Nodes doc) (Location doc).
Definition append_Includes (x : ptr Include.t) : DocumentT :=
  mk (Filename doc) (BadHeaders doc) (Includes doc ++ [x]) (CPPIncludes doc)
     (Namespaces doc) (Consts doc) (Typedefs doc) (Enums doc) (Services doc)
     (Structs doc) (Unions doc) (Exceptions doc) (BadDefinitions doc)
     (Comments doc) (Nodes doc) (Location doc).
Definition append_CPPIncludes (x : ptr CPPInclude.t) : DocumentT :=
  mk (Filename doc) (BadHeaders doc) (Includes doc) (CPPIncludes doc ++ [x])
     (Namespaces doc) (Consts doc) (Typedefs doc) (Enums doc) (Services doc)
     (Structs doc) (Unions doc) (Exceptions doc) (BadDefinitions doc)
     (Comments doc) (Nodes doc) (Location doc).
Definition append_Namespaces (x : ptr Namespace.t) : DocumentT :=
  mk (Filename doc) (BadHeaders doc) (Includes doc) (CPPIncludes doc)
     (Namespaces doc ++ [x]) (Consts doc) (Typedefs doc) (Enums doc)
     (Services doc) (Structs doc) (Unions doc) (Exceptions doc)
     (BadDefinitions doc) (Comments doc) (Nodes doc) (Location doc).
Definition append_Consts (x : ptr Const.t) : DocumentT :=
  mk (Filename doc) (BadHeaders doc) (Includes doc) (CPPIncludes doc)
     (Namespaces doc) (Consts doc ++ [x]) (Typedefs doc) (Enums doc)
     (Services doc) (Structs doc) (Unions doc) (Exceptions doc)
     (BadDefinitions doc) (Comments doc) (Nodes doc) (Location doc).
Definition append_Typedefs (x : ptr Typedef.t) : DocumentT :=
  mk (Filename doc) (BadHeaders doc) (Includes doc) (CPPIncludes doc)
     (Namespaces doc) (Consts doc) (Typedefs doc ++ [x]) (Enums doc)
     (Services doc) (Structs doc) (Unions doc) (Exceptions doc)
     (BadDefinitions doc) (Comments doc) (Nodes doc) (Location doc).
Definition append_Enums (x : ptr Enum.t) : DocumentT :=
  mk (Filename doc) (BadHeaders doc) (Includes doc) (CPPIncludes doc)
     (Namespaces doc) (Consts doc) (Typedefs doc) (Enums doc ++ [x])
     (Services doc) (Structs doc) (Unions doc) (Exceptions doc)
     (BadDefinitions doc) (Comments doc) (Nodes doc) (Location doc).
Definition append_Services (x : ptr Service.t) : DocumentT :=
  mk (Filename doc) (BadHeaders doc) (Includes doc) (CPPIncludes doc)
     (Namespaces doc) (Consts doc) (Typedefs doc) (Enums doc)
     (Services doc ++ [x]) (Structs doc) (Unions doc) (Exceptions doc)
     (BadDefinitions doc) (Comments doc) (Nodes doc) (Location doc).
Definition append_Structs (x : ptr Struct.t) : DocumentT :=
  mk (Filename doc) (BadHeaders doc) (Includes doc) (CPPIncludes doc)
     (Namespaces doc) (Consts doc) (Typedefs doc) (Enums doc)
     (Services doc) (Structs doc ++ [x]) (Unions doc) (Exceptions doc)
     (BadDefinitions doc) (Comments doc) (Nodes doc) (Location doc).
Definition append_Unions (x : ptr Union.t) : DocumentT :=
  mk (Filename doc) (BadHeaders doc) (Includes doc) (CPPIncludes doc)
     (Namespaces doc) (Consts doc) (Typedefs doc) (Enums doc)
     (Services doc) (Structs doc) (Unions doc ++ [x]) (Exceptions doc)
     (BadDefinitions doc) (Comments doc) (Nodes doc) (Location doc).
Definition append_Exceptions (x : ptr Exception.t) : DocumentT :=
  mk (Filename doc) (BadHeaders doc) (Includes doc) (CPPIncludes doc)
     (Namespaces doc) (Consts doc) (Typedefs doc) (Enums doc)
     (Services doc) (Structs doc) (Unions doc) (Exceptions doc ++ [x])
     (BadDefinitions doc) (Comments doc) (Nodes doc) (Location doc).
Definition append_BadDefinitions (x : ptr BadDefinition.t) : DocumentT :=
  mk (Filename doc) (BadHeaders doc) (Includes doc) (CPPIncludes doc)
     (Namespaces doc) (Consts doc) (Typedefs doc) (Enums doc)
     (Services doc) (Structs doc) (Unions doc) (Exceptions doc)
     (BadDefinitions doc ++ [x]) (Comments doc) (Nodes doc) (Location doc).
Definition append_Nodes (x : Node) : DocumentT :=
  mk (Filename doc) (BadHeaders doc) (Includes doc) (CPPIncludes doc)
     (Namespaces doc) (Consts doc) (Typedefs doc) (Enums doc)
     (Services doc) (Structs doc) (Unions doc) (Exceptions doc)
     (BadDefinitions doc) (Comments doc) (Nodes doc ++ [x]) (Location doc).
(** [doc.Comments = comments] *)
Definition set_Comments (comments : list (ptr Comment.t)) : DocumentT :=
  mk (Filename doc) (BadHeaders doc) (Includes doc) (CPPIncludes doc)
     (Namespaces doc) (Consts doc) (Typedefs doc) (Enums doc)
     (Services doc) (Structs doc) (Unions doc) (Exceptions doc)
     (BadDefinitions doc) comments (Nodes doc) (Location doc).
End DocumentAppend.

(** [for _, x := range l { ... }] over a body that may panic. *)
Fixpoint range_ {A S : Type} (body : S -> A -> Result S) (l : list A) (s : S)
    : Result S :=
  match l with
  | [] => Ok s
  | x :: rest => s' <- body s x ;; range_ body rest s'
  end.

(** The body of the loop over the headers.  The element is a value of
    interface type: [header.Type()] panics on the nil value, and on
    another value it is the method of its dynamic type. *)
Definition NewDocument_header (doc : DocumentT) (header : iface Header)
    : Result DocumentT :=
  header <- deref header (fun h => h) ;;
  let ty := Header_Type header in
  doc <- (if String.eqb ty "Include" then
            p <- assert_Include header ;; Ok (append_Includes doc p)
          else if String.eqb ty "CPPInclude" then
            p <- assert_CPPInclude header ;; Ok (append_CPPIncludes doc p)
          else if String.eqb ty "Namespace" then
            p <- assert_Namespace header ;; Ok (append_Namespaces doc p)
          else if String.eqb ty "BadHeader" then
            p <- assert_BadHeader header ;; Ok (append_BadHeaders doc p)
          else Ok doc) ;;
  Ok (append_Nodes doc (Header_Node header)).

(** The body of the loop over the definitions. *)
Definition NewDocument_def (doc : DocumentT) (def : iface Definition_)
    : Result DocumentT :=
  def <- deref def (fun d => d) ;;
  let ty := Definition_Type def in
  doc <- (if String.eqb ty "Const" then
            p <- assert_Const def ;; Ok (append_Consts doc p)
          else if String.eqb ty "Typedef" then
            p <- assert_Typedef def ;; Ok (append_Typedefs doc p)
          else if String.eqb ty "Enum" then
            p <- assert_Enum def ;; Ok (append_Enums doc p)
          else if String.eqb ty "Service" then
            p <- assert_Service def ;; Ok (append_Services doc p)
          else if String.eqb ty "Struct" then
            p <- assert_Struct def ;; Ok (append_Structs doc p)
          else if String.eqb ty "Union" then
            p <- assert_Union def ;; Ok (append_Unions doc p)
          else if String.eqb ty "Exception" then
            p <- assert_Exception def ;; Ok (append_Exceptions doc p)
          else if String.eqb ty "BadDefinition" then
            p <- assert_BadDefinition def ;; Ok (append_BadDefinitions doc p)
          else Ok doc) ;;
  Ok (append_Nodes doc (Definition_Node def)).

Definition NewDocument (headers : list (iface Header))
    (defs : list (iface Definition_))
    (comments : list (ptr Comment.t)) (loc : Location)
    : Result (ptr DocumentT) :=
  let doc : DocumentT :=
    Document.mk EmptyString [] [] [] [] [] [] [] [] [] [] [] [] [] [] loc in
  doc <- range_ NewDocument_header headers doc ;;
  doc <- range_ NewDocument_def defs doc ;;
  let doc := set_Comments doc comments in
  doc <- range_ (fun doc comment => Ok (append_Nodes doc (NComment comment)))
           comments doc ;;
  Ok (Some doc).

(** ** [ToFieldType] *)

(** [i.ToFieldType()]: a field type named after the identifier.  The
    composite literals name [TypeName] and [Location] only. *)
Definition Identifier_ToFieldType (i : ptr Identifier.t)
    : Result (ptr FieldType.t) :=
  i <- deref i (fun i => i) ;;
  name <- deref (Identifier.Name i) (fun n => n) ;;
  Ok (Some {| FieldType.TypeName :=
                Some {| TypeName.Name := IdentifierName.Text name;
                        TypeName.Comments := [];
                        TypeName.BadNode := false;
                        TypeName.Location := IdentifierName.Location name |};
              FieldType.KeyType := None;
              FieldType.ValueType := None;
              FieldType.CppType := None;
              FieldType.LPointKeyword := None;
              FieldType.RPointKeyword := None;
              FieldType.CommaKeyword := None;
              FieldType.Annotations := None;
              FieldType.BadNode := false;
              FieldType.Location := Identifier.Location i |}).

(** ** [FieldSymbol] (package [symbols])

    The symbol of a field for the editor.  [format.MustFormatFieldType]
    and [lsputils.ASTNodeToRange] belong to other packages: they are the
    variables of the section, as is the type of a range.  Of
    [protocol.DocumentSymbol] the record has the fields the function
    sets. *)

Module DocumentSymbol.
Record t (R : Type) : Type := mk {
  Name : string;
  Detail : string;
  Kind : Z;
  Range : R;
  SelectionRange : R
}.
End DocumentSymbol.

(** [protocol.SymbolKindField] *)
Definition SymbolKindField : Z := 8.

Section FieldSymbolDef.

Variable R : Type.
Variable MustFormatFieldType : ptr FieldType.t -> Result string.
Variable ASTNodeToRange : Node -> Result R.

Definition FieldSymbol (fuel : nat) (field : ptr Field.t)
    : Result (ptr (DocumentSymbol.t R)) :=
  bad <- Field_IsBadNode field ;;
  skip <- (if bad then Ok true else ChildrenBadNode fuel (NField field)) ;;
  if skip then Ok None
  else
    f <- deref field (fun f => f) ;;
    detail <- match Field.RequiredKeyword f with
              | None => Ok EmptyString
              | Some k => deref (Keyword.Literal k) KeywordLiteral.Text
              end ;;
    ty <- MustFormatFieldType (Field.FieldType f) ;;
    id <- deref (Field.Identifier f) (fun i => i) ;;
    name <- deref (Identifier.Name id) IdentifierName.Text ;;
    range <- ASTNodeToRange (NField field) ;;
    selection <- ASTNodeToRange (NField field) ;;
    Ok (Some {| DocumentSymbol.Name := name;
                DocumentSymbol.Detail := (detail ++ ty)%string;
                DocumentSymbol.Kind := SymbolKindField;
                DocumentSymbol.Range := range;
                DocumentSymbol.SelectionRange := selection |}).

End FieldSymbolDef.

(** * Vocabulary of the properties *)

(** The order on positions: by line, then by column; the byte offset
    takes no part in it. *)
Definition pos_lt (p q : Position) : Prop :=
  Line p < Line q \/ (Line p = Line q /\ Col p < Col q).

Definition pos_le (p q : Position) : Prop :=
  pos_lt p q \/ (Line p = Line q /\ Col p = Col q).

(** The text of the multi-line example: a struct on three lines. *)
Definition struct_Foo_text : string :=
  ("struct Foo {" ++ String newline "  1: string a" ++ String newline "}")%string.

(** The elements of a list of headers, or of definitions, that have a
    given dynamic type. *)
Fixpoint select {A B : Type} (f : A -> option B) (l : list A) : list B :=
  match l with
  | [] => []
  | x :: rest =>
      match f x with
      | Some y => y :: select f rest
      | None => select f rest
      end
  end.

(** The elements of a slice of interface values that are not nil, and
    whether all are. *)
Fixpoint values {A : Type} (l : list (iface A)) : list A :=
  match l with
  | [] => []
  | Some x :: rest => x :: values rest
  | None :: rest => values rest
  end.

Fixpoint no_nil {A : Type} (l : list (iface A)) : bool :=
  match l with
  | [] => true
  | Some _ :: rest => no_nil rest
  | None :: rest => false
  end.

Definition is_Include (h : Header) : option (ptr Include.t) :=
  match h with HInclude p => Some p | _ => None end.
Definition is_CPPInclude (h : Header) : option (ptr CPPInclude.t) :=
  match h with HCPPInclude p => Some p | _ => None end.
Definition is_Namespace (h : Header) : option (ptr Namespace.t) :=
  match h with HNamespace p => Some p | _ => None end.
Definition is_BadHeader (h : Header) : option (ptr BadHeader.t) :=
  match h with HBadHeader p => Some p | _ => None end.
Definition is_Const (d : Definition_) : option (ptr Const.t) :=
  match d with DConst p => Some p | _ => None end.
Definition is_Typedef (d : Definition_) : option (ptr Typedef.t) :=
  match d with DTypedef p => Some p | _ => None end.
Definition is_Enum (d : Definition_) : option (ptr Enum.t) :=
  match d with DEnum p => Some p | _ => None end.
Definition is_Service (d : Definition_) : option (ptr Service.t) :=
  match d with DService p => Some p | _ => None end.
Definition is_Struct (d : Definition_) : option (ptr Struct.t) :=
  match d with DStruct p => Some p | _ => None end.
Definition is_Union (d : Definition_) : option (ptr Union.t) :=
  match d with DUnion p => Some p | _ => None end.
Definition is_Exception (d : Definition_) : option (ptr Exception.t) :=
  match d with DException p => Some p | _ => None end.

(** The declaration [u] after [SetComments] and [SetAnnotations]. *)
Definition Union_with (u : ptr Union.t)
    (comments endl : list (ptr Comment.t)) (annos : ptr Annotations.t)
    : Result (ptr Union.t) :=
  u <- Union_SetComments u comments endl ;; Union_SetAnnotations u annos.

Definition Struct_with (s : ptr Struct.t)
    (comments endl : list (ptr Comment.t)) (annos : ptr Annotations.t)
    : Result (ptr Struct.t) :=
  s <- Struct_SetComments s comments endl ;; Struct_SetAnnotations s annos.

Definition Exception_with (e : ptr Exception.t)
    (comments endl : list (ptr Comment.t)) (annos : ptr Annotations.t)
    : Result (ptr Exception.t) :=
  e <- Exception_SetComments e comments endl ;; Exception_SetAnnotations e annos.

Definition Enum_with (e : ptr Enum.t)
    (comments endl : list (ptr Comment.t)) (annos : ptr Annotations.t)
    : Result (ptr Enum.t) :=
  e <- Enum_SetComments e comments endl ;; Enum_SetAnnotations e annos.

Definition Service_with (s : ptr Service.t)
    (comments endl : list (ptr Comment.t)) (annos : ptr Annotations.t)
    : Result (ptr Service.t) :=
  s <- Service_SetComments s comments endl ;; Service_SetAnnotations s annos.

Definition Position_eqb (p q : Position) : bool :=
  (Line p =? Line q) && (Col p =? Col q) && (Offset p =? Offset q).

Definition Location_eqb (a b : Location) : bool :=
  Position_eqb (StartPos a) (StartPos b) && Position_eqb (EndPos a) (EndPos b).

Definition Comment_eqb (c c' : Comment.t) : bool :=
  String.eqb (Comment.Text c) (Comment.Text c')
  && String.eqb (Comment.Style c) (Comment.Style c')
  && Bool.eqb (Comment.BadNode c) (Comment.BadNode c')
  && Location_eqb (Comment.Location c) (Comment.Location c').

(** The number of entries of a child list that are the comment [c]. *)
Fixpoint count_comment (c : Comment.t) (l : list Node) : nat :=
  match l with
  | [] => 0
  | NComment (Some c') :: rest =>
      ((if Comment_eqb c c' then 1 else 0) + count_comment c rest)%nat
  | _ :: rest => count_comment c rest
  end.

(** [child_of c n]: [c] is an entry of [n.Children()]. *)
Inductive child_of (c n : Node) : Prop :=
| child_of_intro (cs : list Node) :
    Children n = Ok cs -> In c cs -> child_of c n.

(** [descendant d n]: [d] is reached from [n] by one or more steps of
    [Children()]. *)
Inductive descendant (d n : Node) : Prop :=
| descendant_child : child_of d n -> descendant d n
| descendant_step (c : Node) :
    child_of c n -> descendant d c -> descendant d n.

(** [IsBadNode] returns [b] on [n], whatever the bound on the calls. *)
Definition is_bad (n : Node) (b : bool) : Prop :=
  forall fuel, IsBadNode fuel n = Ok b.

Definition has_bad_descendant (n : Node) : Prop :=
  exists d, descendant d n /\ is_bad d true.

(** The trees on which the traversal of [ChildrenBadNode] meets no nil
    pointer: the children of the node can be listed, every child answers
    [IsBadNode], and every child that is not bad is such a tree again.
    Nothing is asked of the children of a bad child, which the loop does
    not visit. *)
Inductive checkable : Node -> Prop :=
| checkable_intro (n : Node) (cs : list Node) :
    Children n = Ok cs ->
    (forall c, In c cs -> exists b, is_bad c b) ->
    (forall c, In c cs -> is_bad c false -> checkable c) ->
    checkable n.

(** A struct [Foo] with one field that failed to parse. *)
Definition struct_with_bad_field : Node :=
  let loc := zeroLocation in
  let kw := Some (NewKeyword [] None loc) in
  NStruct (NewStruct kw kw kw
             (NewIdentifier (NewIdentifierName "Foo" loc) [] loc)
             [NewBadField loc] loc).

(** Every byte of the text is below [utf8.RuneSelf]. *)
Fixpoint all_ascii (s : string) : bool :=
  match s with
  | EmptyString => true
  | String a rest => (Z.of_nat (nat_of_ascii a) <? 128) && all_ascii rest
  end.

(** A field with a name and a type, and a bad field index. *)
Definition field_with_bad_index : ptr Field.t :=
  let loc := zeroLocation in
  NewField None None [] [] None (NewBadFieldIndex loc) None
    (NewFieldType None None None None (NewTypeName "i32" (mkposition 1 4 3))
       None None loc)
    (NewIdentifier (NewIdentifierName "a" loc) [] loc) None loc.

Definition is_BadDefinition (d : Definition_) : option (ptr BadDefinition.t) :=
  match d with DBadDefinition p => Some p | _ => None end.

(** The headers whose dynamic type is one of the eight types of
    definitions. *)
Definition is_Definition_header (h : Header) : option Definition_ :=
  match h with
  | HConst p => Some (DConst p)
  | HTypedef p => Some (DTypedef p)
  | HEnum p => Some (DEnum p)
  | HService p => Some (DService p)
  | HStruct p => Some (DStruct p)
  | HUnion p => Some (DUnion p)
  | HException p => Some (DException p)
  | HBadDefinition p => Some (DBadDefinition p)
  | _ => None
  end.

(** A struct [Foo] with the given fields. *)
Definition struct_Foo (fields : list (ptr Field.t)) : Node :=
  let loc := zeroLocation in
  let kw := Some (NewKeyword [] None loc) in
  NStruct (NewStruct kw kw kw
             (NewIdentifier (NewIdentifierName "Foo" loc) [] loc)
             fields loc).

Definition is_Document (n : Node) : bool :=
  match n with NDocument _ => true | _ => false end.

(** The kinds of node that have a flag [BadNode] and are in no list of
    children. *)
Definition unlisted (n : Node) : bool :=
  match n with
  | NKeywordLiteral _ | NFieldIndex _ | NCppType _ => true
  | _ => false
  end.

Definition listed_kind (n : Node) : Prop :=
  is_Document n = false /\ unlisted n = false.

(** The document that [NewDocument] builds from headers and definitions
    none of which is the nil interface value: each bucket of headers
    and each bucket of definitions but [BadDefinitions] holds the inputs
    of its type, in order; [BadDefinitions] is empty; [Nodes] is the
    headers, then the definitions, then the comments. *)
Definition NewDocument_result (headers : list (iface Header))
    (defs : list (iface Definition_)) (comments : list (ptr Comment.t))
    (loc : Location) : DocumentT :=
  Document.mk EmptyString
    (select is_BadHeader (values headers)) (select is_Include (values headers))
    (select is_CPPInclude (values headers))
    (select is_Namespace (values headers))
    (select is_Const (values defs)) (select is_Typedef (values defs))
    (select is_Enum (values defs)) (select is_Service (values defs))
    (select is_Struct (values defs)) (select is_Union (values defs))
    (select is_Exception (values defs)) [] comments
    (map Header_Node (values headers) ++ map Definition_Node (values defs)
     ++ map NComment comments)
    loc.

(** * Properties *)

(** ** Position arithmetic *)

Lemma int_wrap_id (z : Z) : in_int z -> int_wrap z = z.
Proof.
  unfold in_int, int_min, int_max, int_wrap. intros H.
  rewrite Z.mod_small by lia. lia.
Qed.

Lemma int_add_0_r (z : Z) : in_int z -> int_add z 0 = z.
Proof. intros H. unfold int_add. rewrite Z.add_0_r. now apply int_wrap_id. Qed.

Lemma Less_spec (p q : Position) : Pos.Less p q = true <-> pos_lt p q.
Proof.
  unfold Pos.Less, pos_lt.
  destruct (Z.ltb_spec (Line p) (Line q)); [intuition lia|].
  destruct (Z.eqb_spec (Line p) (Line q)).
  - rewrite Z.ltb_lt. intuition lia.
  - intuition (try discriminate; lia).
Qed.

Lemma Equal_spec (p q : Position) :
  Pos.Equal p q = true <-> Line p = Line q /\ Col p = Col q.
Proof. unfold Pos.Equal. rewrite andb_true_iff, !Z.eqb_eq. reflexivity. Qed.

Lemma Greater_spec (p q : Position) : Pos.Greater p q = true <-> pos_lt q p.
Proof.
  unfold Pos.Greater, pos_lt. rewrite !Z.gtb_ltb.
  destruct (Z.ltb_spec (Line q) (Line p)); [intuition lia|].
  destruct (Z.eqb_spec (Line p) (Line q)).
  - rewrite Z.ltb_lt. intuition lia.
  - intuition (try discriminate; lia).
Qed.

Lemma Contains_iff (loc : Location) (pos : Position) :
  Location_Contains (Some loc) pos = true
  <-> pos_le (StartPos loc) pos /\ pos_lt pos (EndPos loc).
Proof.
  unfold Location_Contains, pos_le.
  rewrite andb_true_iff, orb_true_iff, Less_spec, Equal_spec, Greater_spec.
  reflexivity.
Qed.

(** C7. [Contains] on a non-nil location is true exactly for the
    positions [pos] with [start <= pos < end] in the order by line and
    column, and it is false on a nil location.  Hence, when
    [start < end], it is true at [start], true at the position one column
    before [end], and false at [end]. *)
Theorem Contains_half_open (loc : Location) (pos : Position) :
  (Location_Contains (Some loc) pos = true
   <-> pos_le (StartPos loc) pos /\ pos_lt pos (EndPos loc))
  /\ Location_Contains None pos = false
  /\ (pos_lt (StartPos loc) (EndPos loc) ->
      Location_Contains (Some loc) (StartPos loc) = true
      /\ (Line pos = Line (EndPos loc) -> Col pos = Col (EndPos loc) - 1 ->
          Location_Contains (Some loc) pos = true)
      /\ Location_Contains (Some loc) (EndPos loc) = false).
Proof.
  split; [apply Contains_iff|]. split; [reflexivity|].
  intros Hlt. repeat split.
  - apply Contains_iff. unfold pos_le, pos_lt in *. lia.
  - intros Hl Hc. apply Contains_iff. unfold pos_le, pos_lt in *. lia.
  - apply not_true_is_false. rewrite Contains_iff.
    unfold pos_le, pos_lt. lia.
Qed.

Lemma Contains_half_open_witness :
  let loc := {| StartPos := {| Line := 1; Col := 1; Offset := 0 |};
                EndPos := {| Line := 3; Col := 2; Offset := 28 |} |} in
  let before := {| Line := 3; Col := 1; Offset := 27 |} in
  Location_Contains (Some loc) (StartPos loc) = true
  /\ Location_Contains (Some loc) before = true
  /\ Location_Contains (Some loc) (EndPos loc) = false.
Proof.
  intros loc before.
  destruct (Contains_half_open loc before) as (_ & _ & H).
  assert (Hlt : pos_lt (StartPos loc) (EndPos loc)) by (left; simpl; lia).
  destruct (H Hlt) as (Hs & Hb & He).
  split; [exact Hs|]. split; [|exact He].
  apply Hb; reflexivity.
Defined.

(** C9. From a start with line and column at least 1, the span of the
    empty text ends where it starts: same line, column and offset. *)
Theorem NewLocation_empty_text (p : position) :
  in_int (line p) -> in_int (col p) -> in_int (offset p) ->
  1 <= line p -> 1 <= col p ->
  EndPos (NewLocation p EmptyString) = StartPos (NewLocation p EmptyString)
  /\ StartPos (NewLocation p EmptyString) = ConvertPosition p.
Proof.
  intros Hl Hc Ho H1 H2. split; [|reflexivity].
  unfold NewLocation. cbn [strings_Count strings_LastIndexByte].
  destruct (Z.eqb_spec (col p) 0) as [E|_]; [lia|].
  cbn -[int_add int_sub int_wrap Z.add Z.sub].
  unfold ConvertPosition. f_equal.
  - now apply int_add_0_r.
  - unfold int_add, int_sub. cbn [utf8_RuneCount rune_count_from].
    change (int_wrap (0 + 1)) with 1.
    rewrite (int_wrap_id (z := col p - 1)) by (unfold in_int, int_min, int_max in *; lia).
    replace (1 + (col p - 1)) with (col p) by lia. now apply int_wrap_id.
  - change (len EmptyString) with 0. now apply int_add_0_r.
Qed.

Lemma NewLocation_empty_text_witness :
  EndPos (NewLocation (mkposition 5 7 100) EmptyString)
  = StartPos (NewLocation (mkposition 5 7 100) EmptyString).
Proof.
  apply (NewLocation_empty_text (mkposition 5 7 100));
    unfold in_int, int_min, int_max; simpl; lia.
Defined.

(** C3. At the start [{line:1, col:1, offset:0}] and the three-line text
    of a struct, [NewLocation] ends at line 3 and offset 28, the byte
    length of the text, but at column 3: the last line is sliced from
    the newline itself, so the newline is counted as a rune of it. *)
Theorem NewLocation_multi_line_example :
  len struct_Foo_text = 28
  /\ strings_Count struct_Foo_text newline = 2
  /\ EndPos (NewLocation (mkposition 1 1 0) struct_Foo_text)
     = {| Line := 3; Col := 3; Offset := 28 |}
  /\ EndPos (NewLocation (mkposition 1 1 0) struct_Foo_text)
     <> {| Line := 3; Col := 2; Offset := 28 |}.
Proof.
  repeat split; try (vm_compute; reflexivity).
  vm_compute. discriminate.
Qed.

Lemma strings_Count_nonneg (s : string) (c : ascii) : 0 <= strings_Count s c.
Proof.
  induction s as [|a rest IH]; simpl; [lia|].
  destruct (Ascii.eqb a c); lia.
Qed.

Lemma strings_Count_app (s t : string) (c : ascii) :
  strings_Count (s ++ t) c = strings_Count s c + strings_Count t c.
Proof.
  induction s as [|a rest IH]; simpl; [reflexivity|]. rewrite IH. lia.
Qed.

Lemma strings_LastIndexByte_absent (s : string) (c : ascii) :
  strings_Count s c = 0 -> strings_LastIndexByte s c = -1.
Proof.
  induction s as [|a rest IH]; simpl; [reflexivity|]. intros H.
  pose proof (strings_Count_nonneg rest c) as Hge.
  destruct (Ascii.eqb a c); [lia|].
  rewrite IH by lia. reflexivity.
Qed.

Lemma strings_LastIndexByte_last (pre post : string) (c : ascii) :
  strings_Count post c = 0 ->
  strings_LastIndexByte (pre ++ String c post) c = Z.of_nat (String.length pre).
Proof.
  intros H. induction pre as [|a rest IH].
  - simpl. rewrite (strings_LastIndexByte_absent _ _ H). simpl.
    now rewrite Ascii.eqb_refl.
  - cbn [append strings_LastIndexByte String.length]. rewrite IH.
    destruct (Z.leb_spec 0 (Z.of_nat (String.length rest))); lia.
Qed.

Lemma drop_bytes_app (pre s : string) :
  drop_bytes (String.length pre) (pre ++ s) = s.
Proof. induction pre as [|a rest IH]; simpl; [now destruct s | exact IH]. Qed.

Lemma utf8_RuneCount_newline (s : string) :
  utf8_RuneCount (String newline s) = 1 + utf8_RuneCount s.
Proof. reflexivity. Qed.

(** What [NewLocation] computes on a text with a newline, [post] being
    the text after the last one: the line advances by the number of
    newlines and the offset by the byte length, and the column is one
    more than the number of runes of [post] plus 1, as the newline before
    [post] is counted with it. *)
Lemma NewLocation_multi_line (p : position) (pre post : string) :
  col p <> 0 ->
  strings_Count post newline = 0 ->
  let text := (pre ++ String newline post)%string in
  1 <= strings_Count text newline
  /\ EndPos (NewLocation p text)
     = {| Line := int_add (line p) (strings_Count text newline);
          Col := int_add (1 + utf8_RuneCount post) 1;
          Offset := int_add (offset p) (len text) |}.
Proof.
  intros Hcol Hpost text.
  assert (Hn : 1 <= strings_Count text newline).
  { unfold text. rewrite strings_Count_app.
    cbn [strings_Count]. rewrite Ascii.eqb_refl.
    pose proof (strings_Count_nonneg pre newline).
    pose proof (strings_Count_nonneg post newline). lia. }
  split; [exact Hn|].
  subst text. unfold NewLocation. cbv zeta.
  rewrite (@strings_LastIndexByte_last pre post newline Hpost).
  destruct (Z.eqb_spec (col p) 0) as [E|_]; [contradiction|].
  destruct (Z.eqb_spec (Z.of_nat (String.length pre)) (-1)) as [E|_]; [lia|].
  rewrite Nat2Z.id, drop_bytes_app, utf8_RuneCount_newline.
  destruct (Z.eqb_spec (strings_Count (pre ++ String newline post) newline) 0)
    as [E|_]; [lia|].
  reflexivity.
Qed.

Lemma CppType_IsBadNode_OutOfFuel (fuel : nat) (c : ptr CppType.t) :
  CppType_IsBadNode fuel c = OutOfFuel.
Proof. induction fuel as [|fuel IH]; simpl; [reflexivity | exact IH]. Qed.

(** C6. [IsBadNode] of a [CppType] calls itself and returns no value,
    whatever the bound on the depth of the calls; every other method
    [IsBadNode] returns without a nested call. *)
Theorem CppType_IsBadNode_never_returns (fuel : nat) (c : ptr CppType.t) :
  CppType_IsBadNode fuel c = OutOfFuel
  /\ IsBadNode fuel (NCppType c) = OutOfFuel
  /\ (forall b, IsBadNode fuel (NCppType (NewCppType None None zeroLocation))
                <> Ok b).
Proof.
  split; [apply CppType_IsBadNode_OutOfFuel|].
  split; [apply CppType_IsBadNode_OutOfFuel|].
  intros b. simpl. rewrite CppType_IsBadNode_OutOfFuel. discriminate.
Qed.

(** ** Constant values *)

(** C10. Whatever a [ConstValue] holds, [Children] returns the empty
    sequence and [ChildrenBadNode] returns false; so the pair built by
    [NewMapConstValue] from a bad key, or a bad value, reports no bad
    node below it. *)
Theorem ConstValue_has_no_children (c : ptr ConstValue.t) (fuel : nat) :
  Children (NConstValue c) = Ok []
  /\ ChildrenBadNode (S fuel) (NConstValue c) = Ok false
  /\ (forall (other : ptr ConstValue.t) (loc badloc : Location),
        let bad := NewBadConstValue badloc in
        IsBadNode fuel (NConstValue bad) = Ok true
        /\ ChildrenBadNode (S fuel)
             (NConstValue (NewMapConstValue bad other loc)) = Ok false
        /\ ChildrenBadNode (S fuel)
             (NConstValue (NewMapConstValue other bad loc)) = Ok false).
Proof. repeat split. Qed.

(** ** The document *)

Lemma range_headers (headers : list (iface Header)) : forall doc : DocumentT,
  range_ NewDocument_header headers doc
  = if no_nil headers then
      Ok (Document.mk (Document.Filename doc)
            (Document.BadHeaders doc ++ select is_BadHeader (values headers))
            (Document.Includes doc ++ select is_Include (values headers))
            (Document.CPPIncludes doc
             ++ select is_CPPInclude (values headers))
            (Document.Namespaces doc ++ select is_Namespace (values headers))
            (Document.Consts doc) (Document.Typedefs doc) (Document.Enums doc)
            (Document.Services doc) (Document.Structs doc)
            (Document.Unions doc) (Document.Exceptions doc)
            (Document.BadDefinitions doc) (Document.Comments doc)
            (Document.Nodes doc ++ map Header_Node (values headers))
            (Document.Location doc))
    else Panic.
Proof.
  induction headers as [|[h|] rest IH]; intros doc.
  - destruct doc; simpl. now rewrite !app_nil_r.
  - destruct h; cbn; rewrite IH; destruct (no_nil rest); cbn;
      try reflexivity; now rewrite <- !app_assoc.
  - reflexivity.
Qed.

Lemma range_defs (defs : list (iface Definition_)) : forall doc : DocumentT,
  range_ NewDocument_def defs doc
  = if no_nil defs then
      Ok (Document.mk (Document.Filename doc)
            (Document.BadHeaders doc) (Document.Includes doc)
            (Document.CPPIncludes doc) (Document.Namespaces doc)
            (Document.Consts doc ++ select is_Const (values defs))
            (Document.Typedefs doc ++ select is_Typedef (values defs))
            (Document.Enums doc ++ select is_Enum (values defs))
            (Document.Services doc ++ select is_Service (values defs))
            (Document.Structs doc ++ select is_Struct (values defs))
            (Document.Unions doc ++ select is_Union (values defs))
            (Document.Exceptions doc ++ select is_Exception (values defs))
            (Document.BadDefinitions doc)
            (Document.Comments doc)
            (Document.Nodes doc ++ map Definition_Node (values defs))
            (Document.Location doc))
    else Panic.
Proof.
  induction defs as [|[d|] rest IH]; intros doc.
  - destruct doc; simpl. now rewrite !app_nil_r.
  - destruct d; cbn; rewrite IH; destruct (no_nil rest); cbn;
      try reflexivity; now rewrite <- !app_assoc.
  - reflexivity.
Qed.

Lemma range_comments (comments : list (ptr Comment.t)) : forall doc : DocumentT,
  range_ (fun doc comment => Ok (append_Nodes doc (NComment comment)))
    comments doc
  = Ok (Document.mk (Document.Filename doc)
          (Document.BadHeaders doc) (Document.Includes doc)
          (Document.CPPIncludes doc) (Document.Namespaces doc)
          (Document.Consts doc) (Document.Typedefs doc) (Document.Enums doc)
          (Document.Services doc) (Document.Structs doc) (Document.Unions doc)
          (Document.Exceptions doc) (Document.BadDefinitions doc)
          (Document.Comments doc)
          (Document.Nodes doc ++ map NComment comments)
          (Document.Location doc)).
Proof.
  induction comments as [|c rest IH]; intros doc.
  - destruct doc; simpl. now rewrite !app_nil_r.
  - cbn. rewrite IH. cbn. now rewrite <- !app_assoc.
Qed.

(** What [NewDocument] does: it panics when a header or a definition is
    the nil interface value, at the call of [Type()] on it, and returns
    the document above otherwise. *)
Lemma NewDocument_spec (headers : list (iface Header))
    (defs : list (iface Definition_))
    (comments : list (ptr Comment.t)) (loc : Location) :
  NewDocument headers defs comments loc
  = if no_nil headers && no_nil defs
    then Ok (Some (NewDocument_result headers defs comments loc))
    else Panic.
Proof.
  unfold NewDocument, NewDocument_result. rewrite range_headers.
  destruct (no_nil headers); [|reflexivity]. cbn.
  rewrite range_defs. destruct (no_nil defs); [|reflexivity]. cbn.
  rewrite range_comments. cbn. now rewrite <- app_assoc.
Qed.

Lemma no_nil_false (A : Type) (l : list (iface A)) :
  no_nil l = false <-> In None l.
Proof.
  induction l as [|[x|] rest IH]; cbn [no_nil In].
  - split; [discriminate | intros []].
  - rewrite IH. split; [now right | intros [H|H]; [discriminate H | exact H]].
  - split; [now left | reflexivity].
Qed.

(** C2. [NewDocument] appends every input, in order, to [Nodes], but a
    [BadDefinition] lands in no bucket: its [Type()] is ["Definition"],
    which no case of the switch names, and [BadDefinitions] stays empty
    whatever the input.  The call returns a document unless a header or
    a definition is the nil interface value, on which [Type()]
    panics. *)
Theorem NewDocument_drops_BadDefinition (headers : list (iface Header))
    (defs : list (iface Definition_)) (comments : list (ptr Comment.t))
    (loc badloc : Location) :
  Definition_Type (DBadDefinition (NewBadDefinition badloc)) = "Definition"
  /\ match NewDocument headers defs comments loc with
     | Ok (Some doc) =>
         no_nil headers = true /\ no_nil defs = true
         /\ Document.BadDefinitions doc = []
         /\ Document.Nodes doc
            = map Header_Node (values headers)
              ++ map Definition_Node (values defs)
              ++ map NComment comments
     | Panic => In None headers \/ In None defs
     | Ok None | OutOfFuel => False
     end
  /\ (exists doc,
        NewDocument [] [Some (DBadDefinition (NewBadDefinition badloc))] []
          loc
        = Ok (Some doc)
        /\ Document.BadDefinitions doc = []
        /\ Document.Nodes doc = [NBadDefinition (NewBadDefinition badloc)]).
Proof.
  split; [reflexivity|]. split.
  - rewrite NewDocument_spec.
    destruct (no_nil headers) eqn:Hh; cbn [andb].
    + destruct (no_nil defs) eqn:Hd.
      * repeat split.
      * right. now apply no_nil_false.
    + left. now apply no_nil_false.
  - eexists. split; [rewrite NewDocument_spec; reflexivity|].
    split; reflexivity.
Qed.

(** ** Bad nodes *)

(** C1. Every bad-node constructor gives a node whose [IsBadNode] is
    true.  [Children] is empty for the bad header, definition, field,
    field index, constant value, literal and comment; for the other
    fourteen it lists the fixed slots of the struct, each holding a nil
    pointer: four entries for a bad struct. *)
Theorem bad_node_constructors (loc : Location) (fuel : nat) :
  (* IsBadNode *)
  (IsBadNode fuel (NBadHeader (NewBadHeader loc)) = Ok true
   /\ IsBadNode fuel (NInclude (NewBadInclude loc)) = Ok true
   /\ IsBadNode fuel (NCPPInclude (NewBadCPPInclude loc)) = Ok true
   /\ IsBadNode fuel (NNamespace (NewBadNamespace loc)) = Ok true
   /\ IsBadNode fuel (NBadDefinition (NewBadDefinition loc)) = Ok true
   /\ IsBadNode fuel (NStruct (NewBadStruct loc)) = Ok true
   /\ IsBadNode fuel (NUnion (NewBadUnion loc)) = Ok true
   /\ IsBadNode fuel (NException (NewBadException loc)) = Ok true
   /\ IsBadNode fuel (NEnum (NewBadEnum loc)) = Ok true
   /\ IsBadNode fuel (NEnumValue (NewBadEnumValue loc)) = Ok true
   /\ IsBadNode fuel (NService (NewBadService loc)) = Ok true
   /\ IsBadNode fuel (NFunction (NewBadFunction loc)) = Ok true
   /\ IsBadNode fuel (NConst (NewBadConst loc)) = Ok true
   /\ IsBadNode fuel (NTypedef (NewBadTypedef loc)) = Ok true
   /\ IsBadNode fuel (NField (NewBadField loc)) = Ok true
   /\ IsBadNode fuel (NFieldIndex (NewBadFieldIndex loc)) = Ok true
   /\ IsBadNode fuel (NIdentifier (NewBadIdentifier loc)) = Ok true
   /\ IsBadNode fuel (NConstValue (NewBadConstValue loc)) = Ok true
   /\ IsBadNode fuel (NLiteral (NewBadLiteral loc)) = Ok true
   /\ IsBadNode fuel (NAnnotation (NewBadAnnotation loc)) = Ok true
   /\ IsBadNode fuel (NComment (NewBadComment loc)) = Ok true)
  (* Children: empty *)
  /\ (Children (NBadHeader (NewBadHeader loc)) = Ok []
      /\ Children (NBadDefinition (NewBadDefinition loc)) = Ok []
      /\ Children (NField (NewBadField loc)) = Ok []
      /\ Children (NFieldIndex (NewBadFieldIndex loc)) = Ok []
      /\ Children (NConstValue (NewBadConstValue loc)) = Ok []
      /\ Children (NLiteral (NewBadLiteral loc)) = Ok []
      /\ Children (NComment (NewBadComment loc)) = Ok [])
  (* Children: nil entries *)
  /\ (Children (NStruct (NewBadStruct loc))
      = Ok [NKeyword StructKeyword None; NKeyword LCurKeyword None;
            NKeyword RCurKeyword None; NIdentifier None]
      /\ Children (NUnion (NewBadUnion loc))
         = Ok [NIdentifier None; NKeyword UnionKeyword None;
               NKeyword LCurKeyword None; NKeyword RCurKeyword None]
      /\ Children (NException (NewBadException loc))
         = Ok [NIdentifier None; NKeyword ExceptionKeyword None;
               NKeyword LCurKeyword None; NKeyword RCurKeyword None]
      /\ Children (NEnum (NewBadEnum loc)) = Ok [NIdentifier None]
      /\ Children (NEnumValue (NewBadEnumValue loc)) = Ok [NIdentifier None]
      /\ Children (NService (NewBadService loc))
         = Ok [NKeyword ServiceKeyword None; NKeyword LCurKeyword None;
               NKeyword RCurKeyword None]
      /\ Children (NFunction (NewBadFunction loc))
         = Ok [NKeyword LParKeyword None; NKeyword RParKeyword None]
      /\ Children (NConst (NewBadConst loc))
         = Ok [NKeyword ConstKeyword None; NKeyword EqualKeyword None;
               NIdentifier None; NFieldType None; NConstValue None]
      /\ Children (NTypedef (NewBadTypedef loc))
         = Ok [NKeyword TypedefKeyword None; NFieldType None; NIdentifier None]
      /\ Children (NInclude (NewBadInclude loc))
         = Ok [NKeyword IncludeKeyword None; NLiteral None]
      /\ Children (NCPPInclude (NewBadCPPInclude loc))
         = Ok [NKeyword CPPIncludeKeyword None; NLiteral None]
      /\ Children (NNamespace (NewBadNamespace loc))
         = Ok [NKeyword NamespaceKeyword None; NNamespaceScope None;
               NIdentifier None]
      /\ Children (NIdentifier (NewBadIdentifier loc))
         = Ok [NIdentifierName None]
      /\ Children (NAnnotation (NewBadAnnotation loc))
         = Ok [NIdentifier None; NLiteral None; NKeyword EqualKeyword None])
  /\ Children (NStruct (NewBadStruct loc)) <> Ok [].
Proof.
  split; [repeat split|]. split; [repeat split|]. split; [repeat split|].
  discriminate.
Qed.

(** ** The local flag *)

(** The claim that an [Identifier] built from a bad, non-nil
    [IdentifierName] reports [IsBadNode() == false] does not hold:
    [NewIdentifierName] of the empty text is bad, and so is the
    [Identifier] built from it. *)
Lemma NewIdentifier_takes_flag_of_name :
  let name := NewIdentifierName EmptyString zeroLocation in
  name <> None
  /\ IsBadNode 0 (NIdentifierName name) = Ok true
  /\ IsBadNode 0 (NIdentifier (NewIdentifier name [] zeroLocation)) = Ok true
  /\ IsBadNode 0 (NIdentifier (NewIdentifier name [] zeroLocation))
     <> Ok false.
Proof. repeat split; discriminate. Qed.

(** C5, amended.  [NewIdentifier] sets the flag from its name: the
    identifier is bad exactly when the name is nil or is itself bad.
    [NewIdentifierName] sets it when the text is empty.  Every other
    valid-path constructor ([NewCppType] left aside) gives a node whose
    [IsBadNode] is false, whatever the children it is given. *)
Theorem valid_constructors_local_flag (fuel : nat) (loc : Location) :
  (forall name comments,
      IsBadNode fuel (NIdentifier (NewIdentifier name comments loc))
      = Ok (match name with
            | None => true
            | Some n => IdentifierName.BadNode n
            end))
  /\ (forall text,
        IsBadNode fuel (NIdentifierName (NewIdentifierName text loc))
        = Ok (String.eqb text EmptyString))
  /\ (forall d : ptr DocumentT, IsBadNode fuel (NDocument d) = Ok false)
  /\ (forall c, IsBadNode fuel (NKeywordLiteral (NewKeywordLiteral c))
                = Ok false)
  /\ (forall kind comments literal,
        IsBadNode fuel (NKeyword kind (Some (NewKeyword comments literal loc)))
        = Ok false)
  /\ (forall keyword path,
        IsBadNode fuel (NInclude (NewInclude keyword path loc)) = Ok false)
  /\ (forall keyword path,
        IsBadNode fuel (NCPPInclude (NewCPPInclude keyword path loc))
        = Ok false)
  /\ (forall keyword language name annotations,
        IsBadNode fuel
          (NNamespace (NewNamespace keyword language name annotations loc))
        = Ok false)
  /\ (forall k l r identifier fields,
        IsBadNode fuel (NStruct (NewStruct k l r identifier fields loc))
        = Ok false)
  /\ (forall k e sep name t v,
        IsBadNode fuel (NConst (NewConst k e sep name t v loc)) = Ok false)
  /\ (forall k t alias,
        IsBadNode fuel (NTypedef (NewTypedef k t alias loc)) = Ok false)
  /\ (forall k l r name values,
        IsBadNode fuel (NEnum (NewEnum k l r name values loc)) = Ok false)
  /\ (forall sep e name valueNode value annotations,
        IsBadNode fuel
          (NEnumValue (NewEnumValue sep e name valueNode value annotations loc))
        = Ok false)
  /\ (forall k e l r name extends fns,
        IsBadNode fuel (NService (NewService k e l r name extends fns loc))
        = Ok false)
  /\ (forall k l r fields,
        IsBadNode fuel (NThrows (NewThrows k l r fields loc)) = Ok false)
  /\ (forall l r sep name oneway void ft args throws comments endl annos,
        IsBadNode fuel
          (NFunction (NewFunction l r sep name oneway void ft args throws
                        comments endl annos loc))
        = Ok false)
  /\ (forall k l r name fields,
        IsBadNode fuel (NUnion (NewUnion k l r name fields loc)) = Ok false)
  /\ (forall k l r name fields,
        IsBadNode fuel (NException (NewException k l r name fields loc))
        = Ok false)
  /\ (forall e sep comments endl annos index required ft identifier cv,
        IsBadNode fuel
          (NField (NewField e sep comments endl annos index required ft
                     identifier cv loc))
        = Ok false)
  /\ (forall k v comments,
        IsBadNode fuel (NFieldIndex (NewFieldIndex k v comments loc))
        = Ok false)
  /\ (forall l r c cpp typeName keyType valueType,
        IsBadNode fuel
          (NFieldType (NewFieldType l r c cpp typeName keyType valueType loc))
        = Ok false)
  /\ (forall name pos, IsBadNode fuel (NTypeName (NewTypeName name pos))
                       = Ok false)
  /\ (forall typeName value,
        IsBadNode fuel (NConstValue (NewConstValue typeName value loc))
        = Ok false)
  /\ (forall key value,
        IsBadNode fuel (NConstValue (NewMapConstValue key value loc))
        = Ok false)
  /\ (forall text, IsBadNode fuel (NLiteralValue (NewLiteralValue text loc))
                   = Ok false)
  /\ (forall comments v quote,
        IsBadNode fuel (NLiteral (NewLiteral comments v quote loc)) = Ok false)
  /\ (forall l r annos,
        IsBadNode fuel (NAnnotations (NewAnnotations l r annos loc))
        = Ok false)
  /\ (forall e sep id value,
        IsBadNode fuel (NAnnotation (NewAnnotation e sep id value loc))
        = Ok false)
  /\ (forall text style, IsBadNode fuel (NComment (NewComment text style loc))
                         = Ok false).
Proof. repeat split. Qed.

(** ** The order of the children of a declaration *)

Lemma Comment_eqb_refl (c : Comment.t) : Comment_eqb c c = true.
Proof.
  unfold Comment_eqb, Location_eqb, Position_eqb.
  now rewrite !String.eqb_refl, Bool.eqb_reflx, !Z.eqb_refl.
Qed.

(** C8. The children of the five declarations, built by the valid-path
    constructor and given comments and annotations by the setters.
    [Struct] and [Service] list the keywords, the identifier, the nested
    elements, the comments and the annotations, in this order.
    [Exception] and [Union] list the name before the keywords, [Enum]
    lists no keyword at all, and [Union] lists its comments and its
    end-of-line comments twice: a union with the one comment [c] has it
    two times among its children. *)
Theorem declaration_children (k l r : ptr Keyword.t) (name : ptr Identifier.t)
    (fields : list (ptr Field.t)) (comments endl : list (ptr Comment.t))
    (annos : Annotations.t) (loc : Location) :
  (s <- Struct_with (NewStruct k l r name fields loc) comments endl
          (Some annos) ;;
   Children (NStruct s))
  = Ok ([NKeyword StructKeyword k; NKeyword LCurKeyword l;
         NKeyword RCurKeyword r; NIdentifier name]
        ++ map NField fields
        ++ map NComment comments ++ map NComment endl
        ++ [NAnnotations (Some annos)])
  /\ (forall (e : ptr Keyword.t) (n ext : Identifier.t)
        (fns : list (ptr Function.t)),
        (s <- Service_with (NewService k e l r (Some n) (Some ext) fns loc)
                comments endl (Some annos) ;;
         Children (NService s))
        = Ok ([NKeyword ServiceKeyword k; NKeyword LCurKeyword l;
               NKeyword RCurKeyword r]
              ++ append_if_not_nil (NKeyword ExtendsKeyword) e
              ++ [NIdentifier (Some n); NIdentifier (Some ext)]
              ++ map NFunction fns
              ++ map NComment comments ++ map NComment endl
              ++ [NAnnotations (Some annos)]))
  /\ (e <- Exception_with (NewException k l r name fields loc) comments endl
             (Some annos) ;;
      Children (NException e))
     = Ok ([NIdentifier name; NKeyword ExceptionKeyword k;
            NKeyword LCurKeyword l; NKeyword RCurKeyword r]
           ++ map NField fields
           ++ map NComment comments ++ map NComment endl
           ++ [NAnnotations (Some annos)])
  /\ (forall values : list (ptr EnumValue.t),
        (e <- Enum_with (NewEnum k l r name values loc) comments endl
                (Some annos) ;;
         Children (NEnum e))
        = Ok ([NIdentifier name]
              ++ map NEnumValue values
              ++ map NComment comments ++ map NComment endl
              ++ [NAnnotations (Some annos)]))
  /\ (u <- Union_with (NewUnion k l r name fields loc) comments endl
             (Some annos) ;;
      Children (NUnion u))
     = Ok ([NIdentifier name; NKeyword UnionKeyword k;
            NKeyword LCurKeyword l; NKeyword RCurKeyword r]
           ++ map NField fields
           ++ map NComment comments ++ map NComment endl
           ++ map NComment comments ++ map NComment endl
           ++ [NAnnotations (Some annos)])
  /\ (forall c : Comment.t,
        (u <- Union_SetComments (NewUnion k l r name [] loc) [Some c] [] ;;
         Children (NUnion u))
        = Ok [NIdentifier name; NKeyword UnionKeyword k;
              NKeyword LCurKeyword l; NKeyword RCurKeyword r;
              NComment (Some c); NComment (Some c)]
        /\ (u <- Union_SetComments (NewUnion k l r name [] loc) [Some c] [] ;;
            cs <- Children (NUnion u) ;; Ok (count_comment c cs))
           = Ok 2%nat).
Proof.
  repeat split.
  cbn [bind Union_SetComments NewUnion deref Children Union_Children
       Union.Name Union.UnionKeyword Union.LCurKeyword Union.RCurKeyword
       Union.Fields Union.Comments Union.EndLineComments Union.Annotations
       map app append_if_not_nil count_comment].
  now rewrite Comment_eqb_refl.
Qed.

(** ** Bad nodes below a node *)

(** A value returned by [IsBadNode] does not depend on the bound. *)
Lemma IsBadNode_fuel_irrelevant (fuel : nat) (n : Node) (b : bool) :
  IsBadNode fuel n = Ok b -> is_bad n b.
Proof.
  intros H fuel'. destruct n; try exact H.
  simpl in H. rewrite CppType_IsBadNode_OutOfFuel in H. discriminate H.
Qed.

Lemma ChildrenBadNode_unfold (fuel : nat) (n : Node) :
  ChildrenBadNode (S fuel) n
  = (cs <- Children n ;;
     children_loop (IsBadNode fuel) (ChildrenBadNode fuel) cs).
Proof. destruct n as [p| | | | | | | | | | | | | | | | | | | | | | | | | | | | | | | |]; try destruct p; reflexivity. Qed.

(** The loop returns as soon as every call it makes does, and then it
    returns true exactly when one of the calls on a child returns
    true. *)
Lemma children_loop_spec (isBad cbn : Node -> Result bool) (cs : list Node) :
  (forall c, In c cs ->
     exists b, isBad c = Ok b /\ (b = false -> exists b', cbn c = Ok b')) ->
  exists r,
    children_loop isBad cbn cs = Ok r
    /\ (r = true
        <-> exists c, In c cs
              /\ (isBad c = Ok true
                  \/ (isBad c = Ok false /\ cbn c = Ok true))).
Proof.
  induction cs as [|c rest IH]; intros H.
  - exists false. split; [reflexivity|].
    split; [discriminate|]. intros (c & [] & _).
  - destruct (H c (or_introl eq_refl)) as (b & Hb & Hsub).
    simpl. rewrite Hb. simpl. destruct b.
    + exists true. split; [reflexivity|].
      split; [|reflexivity]. intros _. exists c. split; [now left | now left].
    + destruct (Hsub eq_refl) as (b' & Hb'). rewrite Hb'. simpl.
      destruct b'.
      * exists true. split; [reflexivity|].
        split; [|reflexivity]. intros _. exists c.
        split; [now left | right; now split].
      * destruct IH as (r & Hr & Hiff).
        { intros c' Hin. apply H. now right. }
        exists r. split; [exact Hr|]. rewrite Hiff. split.
        -- intros (c' & Hin & Hc'). exists c'. split; [now right | exact Hc'].
        -- intros (c' & [<- | Hin] & Hc').
           ++ destruct Hc' as [Hc' | [_ Hc']]; congruence.
           ++ exists c'. split; assumption.
Qed.

(** A bound on the depth that fits every element of a list. *)
Lemma uniform_bound (P : Node -> Prop) (R : nat -> Node -> Prop)
    (cs : list Node) :
  (forall c, In c cs -> P c \/ ~ P c) ->
  (forall c, In c cs -> P c ->
     exists N, forall fuel, (N <= fuel)%nat -> R fuel c) ->
  exists N, forall c, In c cs -> P c ->
    forall fuel, (N <= fuel)%nat -> R fuel c.
Proof.
  induction cs as [|c rest IH]; intros Hdec H.
  - exists 0%nat. intros c [].
  - destruct IH as (N1 & H1).
    { intros c' Hin. apply Hdec. now right. }
    { intros c' Hin. apply H. now right. }
    destruct (Hdec c (or_introl eq_refl)) as [Pc | nPc].
    + destruct (H c (or_introl eq_refl) Pc) as (N2 & H2).
      exists (Nat.max N1 N2). intros c' [<- | Hin] Pc' fuel Hle.
      * apply H2. lia.
      * apply H1; [assumption | assumption | lia].
    + exists N1. intros c' [<- | Hin] Pc' fuel Hle.
      * contradiction.
      * now apply H1.
Qed.

Lemma is_bad_decided (c : Node) :
  (exists b, is_bad c b) -> is_bad c false \/ ~ is_bad c false.
Proof.
  intros ([|] & Hb); [right | now left].
  intros Hf. specialize (Hb 0%nat). specialize (Hf 0%nat). congruence.
Qed.

Lemma has_bad_descendant_children (n : Node) (cs : list Node) :
  Children n = Ok cs ->
  (has_bad_descendant n
   <-> exists c, In c cs /\ (is_bad c true \/ has_bad_descendant c)).
Proof.
  intros Hcs. split.
  - intros (d & Hd & Hbad). destruct Hd as [Hchild | c Hchild Hd].
    + destruct Hchild as [cs' Hcs' Hin].
      assert (cs' = cs) by congruence. subst cs'.
      exists d. split; [assumption | now left].
    + destruct Hchild as [cs' Hcs' Hin].
      assert (cs' = cs) by congruence. subst cs'.
      exists c. split; [assumption|]. right. exists d. now split.
  - intros (c & Hin & [Hbad | (d & Hd & Hbad)]).
    + exists c. split; [|assumption].
      apply descendant_child. now apply child_of_intro with cs.
    + exists d. split; [|assumption].
      apply descendant_step with c; [|assumption].
      now apply child_of_intro with cs.
Qed.

(** X24. On a tree in which the traversal meets no nil pointer
    ([checkable]), [ChildrenBadNode] returns once the bound on the depth
    is large enough, and it returns true exactly when some node reached
    from [n] by one or more steps of [Children()] is bad; so it returns
    false when there is none.  [IsBadNode] of [n] itself takes no part
    in it. *)
Theorem ChildrenBadNode_iff_bad_descendant (n : Node) :
  checkable n ->
  exists N, forall fuel, (N <= fuel)%nat ->
    exists b,
      ChildrenBadNode fuel n = Ok b
      /\ (b = true <-> has_bad_descendant n)
      /\ (~ has_bad_descendant n -> ChildrenBadNode fuel n = Ok false).
Proof.
  induction 1 as [n cs Hcs Hflag _ IH].
  destruct (uniform_bound (fun c => is_bad c false)
              (fun fuel c =>
                 exists b, ChildrenBadNode fuel c = Ok b
                   /\ (b = true <-> has_bad_descendant c)
                   /\ (~ has_bad_descendant c ->
                       ChildrenBadNode fuel c = Ok false)) cs) as (N & HN).
  { intros c Hin. apply is_bad_decided. now apply Hflag. }
  { exact IH. }
  exists (S N). intros fuel Hle.
  destruct fuel as [|fuel]; [lia|].
  assert (Hle' : (N <= fuel)%nat) by lia.
  rewrite ChildrenBadNode_unfold, Hcs. simpl.
  destruct (children_loop_spec (IsBadNode fuel) (ChildrenBadNode fuel) cs)
    as (r & Hr & Hiff).
  { intros c Hin. destruct (Hflag c Hin) as (b & Hb).
    exists b. split; [apply Hb|]. intros ->.
    destruct (HN c Hin Hb fuel Hle') as (b' & Hb' & _). now exists b'. }
  assert (Hspec : r = true <-> has_bad_descendant n).
  { rewrite Hiff, (@has_bad_descendant_children n cs Hcs). split.
    - intros (c & Hin & [Hbad | [Hgood Hsub]]).
      + exists c. split; [assumption|]. left.
        destruct (Hflag c Hin) as (b & Hb).
        assert (b = true) by (specialize (Hb fuel); congruence).
        now subst b.
      + exists c. split; [assumption|]. right.
        destruct (Hflag c Hin) as (b & Hb).
        assert (b = false) by (specialize (Hb fuel); congruence).
        subst b.
        destruct (HN c Hin Hb fuel Hle') as (b' & Hb' & Hiff' & _).
        apply Hiff'. congruence.
    - intros (c & Hin & [Hbad | Hsub]).
      + exists c. split; [assumption|]. left. apply Hbad.
      + exists c. split; [assumption|].
        destruct (Hflag c Hin) as ([|] & Hb); [left; apply Hb|].
        right. split; [apply Hb|].
        destruct (HN c Hin Hb fuel Hle') as (b' & Hb' & Hiff' & _).
        rewrite Hb'. f_equal. now apply Hiff'. }
  exists r. split; [exact Hr|]. split; [exact Hspec|].
  intros Hnone. rewrite Hr. f_equal.
  destruct r; [|reflexivity]. exfalso. apply Hnone. now apply Hspec.
Qed.

Ltac in_cases H :=
  simpl in H;
  repeat match type of H with
         | _ \/ _ => destruct H as [<- | H]
         | False => destruct H
         end.

Ltac prove_checkable :=
  eapply checkable_intro;
  [ reflexivity
  | let c := fresh "c" in let Hin := fresh "Hin" in
    intros c Hin; in_cases Hin; eexists; intros ?; reflexivity
  | let c := fresh "c" in let Hin := fresh "Hin" in let Hb := fresh "Hb" in
    intros c Hin Hb; in_cases Hin;
    try (specialize (Hb 0%nat); discriminate Hb);
    prove_checkable ].

Lemma ChildrenBadNode_iff_bad_descendant_witness :
  checkable struct_with_bad_field
  /\ exists N, forall fuel, (N <= fuel)%nat ->
       exists b,
         ChildrenBadNode fuel struct_with_bad_field = Ok b
         /\ (b = true <-> has_bad_descendant struct_with_bad_field)
         /\ (~ has_bad_descendant struct_with_bad_field ->
             ChildrenBadNode fuel struct_with_bad_field = Ok false).
Proof.
  assert (H : checkable struct_with_bad_field).
  { unfold struct_with_bad_field. prove_checkable. }
  split; [exact H|].
  exact (ChildrenBadNode_iff_bad_descendant H).
Defined.

(** C4. Below the node built by [NewBadStruct] no node is bad, as its
    four children are nil pointers, so the answer of [ChildrenBadNode]
    ought to be false.  The call returns no value: it calls [IsBadNode]
    on the first of the nil children and panics, whatever the bound on
    the depth of the calls.  On the bad field, the bad literal, the bad
    header and the bad definition, whose [Children] is empty, the
    answer is false. *)
Theorem ChildrenBadNode_panics_on_bad_struct (loc : Location) (fuel : nat) :
  IsBadNode fuel (NStruct (NewBadStruct loc)) = Ok true
  /\ ~ has_bad_descendant (NStruct (NewBadStruct loc))
  /\ ChildrenBadNode (S fuel) (NStruct (NewBadStruct loc)) = Panic
  /\ (forall b, ChildrenBadNode fuel (NStruct (NewBadStruct loc)) <> Ok b)
  /\ ChildrenBadNode (S fuel) (NField (NewBadField loc)) = Ok false
  /\ ChildrenBadNode (S fuel) (NLiteral (NewBadLiteral loc)) = Ok false
  /\ ChildrenBadNode (S fuel) (NBadHeader (NewBadHeader loc)) = Ok false
  /\ ChildrenBadNode (S fuel) (NBadDefinition (NewBadDefinition loc))
     = Ok false.
Proof.
  split; [reflexivity|]. split; [|split; [reflexivity|split]].
  - intros (d & Hd & Hbad).
    assert (Hnil : forall c, child_of c (NStruct (NewBadStruct loc)) ->
                     Children c = Panic /\ IsBadNode 0 c = Panic).
    { intros c [cs Hcs Hin]. simpl in Hcs. injection Hcs as <-.
      in_cases Hin; split; reflexivity. }
    destruct Hd as [Hchild | c Hchild Hd].
    + destruct (Hnil d Hchild) as [_ Hp]. specialize (Hbad 0%nat). congruence.
    + destruct (Hnil c Hchild) as [Hp _].
      destruct Hd as [[cs Hcs _] | c' [cs Hcs _] _]; congruence.
  - intros b H. destruct fuel; discriminate H.
  - repeat split.
Qed.

(** * Further properties of the code *)

(** ** The order of positions *)

Lemma Contains_reflect (l : Location) (pos : Position) :
  reflect (pos_le (StartPos l) pos /\ pos_lt pos (EndPos l))
          (Location_Contains (Some l) pos).
Proof. apply iff_reflect. symmetry. apply Contains_iff. Qed.




(** ** Spans and the positions in them *)

(** X2. A span whose end is not after its start contains no position,
    not even its own start: so does the span of an empty match, which
    ends where it starts. *)
Theorem Contains_empty_span (l : Location) (pos : Position) :
  pos_le (EndPos l) (StartPos l) ->
  Location_Contains (Some l) pos = false.
Proof.
  intros H. destruct (Contains_reflect l pos) as [[H1 H2]|_]; [|reflexivity].
  exfalso. unfold pos_le, pos_lt in *. lia.
Qed.

Lemma Contains_empty_span_witness :
  let l := NewLocation (mkposition 5 7 100) EmptyString in
  Location_Contains (Some l) (StartPos l) = false.
Proof.
  intros l. apply (Contains_empty_span l (StartPos l)).
  right. split; reflexivity.
Defined.

(** X3. Two spans that meet, [a, b) and [b, c) with [a <= b <= c],
    share no position, and the positions of [a, c) are those of the
    one and those of the other. *)
Theorem Contains_adjacent_spans (a b c pos : Position) :
  pos_le a b -> pos_le b c ->
  Location_Contains (Some (NewLocationFromPos a c)) pos
  = Location_Contains (Some (NewLocationFromPos a b)) pos
    || Location_Contains (Some (NewLocationFromPos b c)) pos
  /\ Location_Contains (Some (NewLocationFromPos a b)) pos
     && Location_Contains (Some (NewLocationFromPos b c)) pos = false.
Proof.
  intros Hab Hbc.
  destruct (Contains_reflect (NewLocationFromPos a c) pos) as [Hac|Hac],
    (Contains_reflect (NewLocationFromPos a b) pos) as [H1|H1],
    (Contains_reflect (NewLocationFromPos b c) pos) as [H2|H2];
    cbn [NewLocationFromPos StartPos EndPos orb andb] in *;
    split; try reflexivity; exfalso;
    unfold pos_le, pos_lt in *; lia.
Qed.

Lemma Contains_adjacent_spans_witness :
  let a := {| Line := 1; Col := 1; Offset := 0 |} in
  let b := {| Line := 1; Col := 8; Offset := 7 |} in
  let c := {| Line := 2; Col := 3; Offset := 20 |} in
  Location_Contains (Some (NewLocationFromPos a c)) b
  = Location_Contains (Some (NewLocationFromPos a b)) b
    || Location_Contains (Some (NewLocationFromPos b c)) b
  /\ Location_Contains (Some (NewLocationFromPos a b)) b
     && Location_Contains (Some (NewLocationFromPos b c)) b = false.
Proof.
  intros a b c. apply (@Contains_adjacent_spans a b c b).
  - left. right. cbn. lia.
  - left. left. cbn. lia.
Defined.

(** X4. A position of a span is a position of every span around it:
    what the location of a child contains, the location of a parent
    that starts no later and ends no earlier contains too. *)
Theorem Contains_nested (inner outer : Location) (pos : Position) :
  pos_le (StartPos outer) (StartPos inner) ->
  pos_le (EndPos inner) (EndPos outer) ->
  Location_Contains (Some inner) pos = true ->
  Location_Contains (Some outer) pos = true.
Proof.
  intros Hs He H. apply Contains_iff in H. apply Contains_iff.
  unfold pos_le, pos_lt in *. lia.
Qed.

Lemma Contains_nested_witness :
  Location_Contains
    (Some (NewLocation (mkposition 1 1 0) struct_Foo_text))
    {| Line := 2; Col := 6; Offset := 18 |} = true.
Proof.
  apply (@Contains_nested
           (NewLocation (mkposition 2 3 15) "1: string a")
           (NewLocation (mkposition 1 1 0) struct_Foo_text)
           {| Line := 2; Col := 6; Offset := 18 |}).
  - left. left. vm_compute. reflexivity.
  - left. left. vm_compute. reflexivity.
  - vm_compute. reflexivity.
Defined.

(** ** Moving the start of a span *)

Lemma int_wrap_in_int (z : Z) : in_int (int_wrap z).
Proof.
  unfold in_int, int_min, int_max, int_wrap.
  pose proof (Z.mod_pos_bound (z + 2 ^ 63) (2 ^ 64) ltac:(lia)). lia.
Qed.

Lemma int_wrap_add_l (x y : Z) : int_wrap (int_wrap x + y) = int_wrap (x + y).
Proof.
  unfold int_wrap. f_equal.
  replace ((x + 2 ^ 63) mod 2 ^ 64 - 2 ^ 63 + y + 2 ^ 63)
    with ((x + 2 ^ 63) mod 2 ^ 64 + y) by lia.
  rewrite Z.add_mod_idemp_l by lia. f_equal. lia.
Qed.

Lemma int_wrap_add_r (x y : Z) : int_wrap (x + int_wrap y) = int_wrap (x + y).
Proof. rewrite (Z.add_comm x), int_wrap_add_l. f_equal. lia. Qed.

(** X5. Two moves of the start are one move by the sum, also when a
    sum wraps around; a move changes neither the line of the start nor
    the end; and on a span whose start holds Go integers, the move by 0
    changes nothing and the move by [-a] undoes the move by [a]. *)
Theorem MoveStartInLine_laws (l : Location) (a b : Z) :
  MoveStartInLine (MoveStartInLine l a) b = MoveStartInLine l (int_add a b)
  /\ EndPos (MoveStartInLine l a) = EndPos l
  /\ Line (StartPos (MoveStartInLine l a)) = Line (StartPos l)
  /\ (in_int (Col (StartPos l)) -> in_int (Offset (StartPos l)) ->
      MoveStartInLine l 0 = l
      /\ MoveStartInLine (MoveStartInLine l a) (int_sub 0 a) = l).
Proof.
  destruct l as [[sl sc so] e].
  unfold MoveStartInLine, int_add, int_sub. cbn [StartPos EndPos Line Col Offset].
  split; [|split; [reflexivity|split; [reflexivity|]]].
  - rewrite !int_wrap_add_l, !int_wrap_add_r. now rewrite !Z.add_assoc.
  - intros Hc Ho. rewrite !int_wrap_add_l, !int_wrap_add_r, !Z.add_0_r.
    replace (sc + a + (0 - a)) with sc by lia.
    replace (so + a + (0 - a)) with so by lia.
    now rewrite !int_wrap_id.
Qed.

Lemma MoveStartInLine_laws_witness :
  let l := NewLocation (mkposition 2 3 15) "1: string a" in
  MoveStartInLine l 0 = l
  /\ MoveStartInLine (MoveStartInLine l 3) (int_sub 0 3) = l.
Proof.
  intros l.
  destruct (MoveStartInLine_laws l 3 0) as (_ & _ & _ & H).
  apply H; unfold in_int, int_min, int_max; cbn; lia.
Defined.

(** ** The end of a span *)

Lemma len_String (a : ascii) (s : string) : len (String a s) = 1 + len s.
Proof. unfold len. cbn [String.length]. lia. Qed.

Lemma len_nonneg (s : string) : 0 <= len s.
Proof. unfold len. lia. Qed.

Lemma len_app (s t : string) : len (s ++ t) = len s + len t.
Proof.
  induction s as [|a s IH]; [reflexivity|].
  cbn [append]. rewrite !len_String, IH. lia.
Qed.

Lemma rune_count_from_bounds (s : string) : forall skip : nat,
  0 <= rune_count_from skip s <= len s.
Proof.
  induction s as [|a s IH]; intros skip.
  - cbn. lia.
  - rewrite len_String. cbn [rune_count_from]. destruct skip as [|k].
    + specialize (IH (Nat.pred (rune_size (Z.of_nat (nat_of_ascii a)) s))). lia.
    + specialize (IH k). lia.
Qed.

Lemma utf8_RuneCount_bounds (s : string) : 0 <= utf8_RuneCount s <= len s.
Proof. apply rune_count_from_bounds. Qed.

Lemma utf8_RuneCount_pos (s : string) :
  s <> EmptyString -> 1 <= utf8_RuneCount s.
Proof.
  destruct s as [|a s]; [congruence|]. intros _.
  unfold utf8_RuneCount. cbn [rune_count_from].
  pose proof (rune_count_from_bounds s
                (Nat.pred (rune_size (Z.of_nat (nat_of_ascii a)) s))). lia.
Qed.

Lemma utf8_RuneCount_ascii (s : string) :
  all_ascii s = true -> utf8_RuneCount s = len s.
Proof.
  unfold utf8_RuneCount. induction s as [|a s IH]; [reflexivity|].
  cbn [all_ascii rune_count_from]. intros H.
  apply andb_true_iff in H. destruct H as [Ha Hs].
  unfold rune_size. rewrite Ha. cbn [Nat.pred].
  rewrite (IH Hs), len_String. reflexivity.
Qed.

Lemma strings_Count_le_len (s : string) (c : ascii) : strings_Count s c <= len s.
Proof.
  induction s as [|a s IH]; [cbn; lia|].
  rewrite len_String. cbn [strings_Count]. destruct (Ascii.eqb a c); lia.
Qed.

Lemma len_drop_bytes (s : string) : forall n : nat,
  len (drop_bytes n s) <= len s.
Proof.
  induction s as [|a s IH]; intros [|n]; cbn [drop_bytes]; try lia.
  rewrite len_String. specialize (IH n). lia.
Qed.

Lemma Invalid_false (p : Position) :
  Pos.Invalid p = false <-> 1 <= Line p /\ 1 <= Col p /\ 0 <= Offset p.
Proof.
  unfold Pos.Invalid. rewrite !orb_false_iff, !Z.ltb_ge. tauto.
Qed.

(** The end of the span of a text without newline, from a start whose
    column is not 0, before any assumption on the size of the numbers. *)
Lemma NewLocation_one_line (p : position) (text : string) :
  col p <> 0 ->
  strings_Count text newline = 0 ->
  EndPos (NewLocation p text)
  = {| Line := int_add (line p) 0;
       Col := int_add (int_add (utf8_RuneCount text) 1) (int_sub (col p) 1);
       Offset := int_add (offset p) (len text) |}.
Proof.
  intros Hcol Hcount. unfold NewLocation. cbv zeta.
  rewrite Hcount, (strings_LastIndexByte_absent _ _ Hcount).
  destruct (Z.eqb_spec (col p) 0) as [E|_]; [contradiction|].
  reflexivity.
Qed.

Ltac int_range := unfold in_int, int_min, int_max in *; lia.

(** The end of the span of a text without newline when no number
    overflows. *)
Lemma NewLocation_one_line_end (p : position) (text : string) :
  strings_Count text newline = 0 ->
  1 <= col p ->
  in_int (line p) ->
  col p + len text <= int_max ->
  in_int (offset p + len text) ->
  EndPos (NewLocation p text)
  = {| Line := line p;
       Col := col p + utf8_RuneCount text;
       Offset := offset p + len text |}.
Proof.
  intros Hcount Hcol Hline Hc Ho.
  pose proof (utf8_RuneCount_bounds text) as Hrc.
  rewrite NewLocation_one_line by (assumption || lia).
  unfold int_add, int_sub.
  rewrite (int_wrap_id (z := line p + 0)) by (rewrite Z.add_0_r; exact Hline).
  rewrite (int_wrap_id (z := utf8_RuneCount text + 1)) by int_range.
  rewrite (int_wrap_id (z := col p - 1)) by int_range.
  rewrite (int_wrap_id (z := utf8_RuneCount text + 1 + (col p - 1))) by int_range.
  rewrite (int_wrap_id Ho).
  f_equal; lia.
Qed.

(** X6. On one line (no newline in the text, a start at column 1 or
    later, no overflow) the span ends on the line of its start, the
    column advanced by the number of runes of the text and the offset by
    its number of bytes.  The column never advances by more than the
    offset does, and it advances by as much when every byte of the text
    is below 128. *)
Theorem NewLocation_single_line (p : position) (text : string) :
  strings_Count text newline = 0 ->
  1 <= col p ->
  in_int (line p) ->
  col p + len text <= int_max ->
  in_int (offset p + len text) ->
  EndPos (NewLocation p text)
  = {| Line := line p;
       Col := col p + utf8_RuneCount text;
       Offset := offset p + len text |}
  /\ 0 <= utf8_RuneCount text <= len text
  /\ (all_ascii text = true -> utf8_RuneCount text = len text).
Proof.
  intros Hcount Hcol Hline Hc Ho.
  split; [now apply NewLocation_one_line_end|].
  split; [apply utf8_RuneCount_bounds | apply utf8_RuneCount_ascii].
Qed.

Lemma NewLocation_single_line_witness :
  EndPos (NewLocation (mkposition 2 3 15) "1: string a")
  = {| Line := 2; Col := 3 + utf8_RuneCount "1: string a";
       Offset := 15 + len "1: string a" |}
  /\ 0 <= utf8_RuneCount "1: string a" <= len "1: string a"
  /\ (all_ascii "1: string a" = true
      -> utf8_RuneCount "1: string a" = len "1: string a").
Proof.
  apply (NewLocation_single_line (mkposition 2 3 15) "1: string a");
    try reflexivity; unfold in_int, int_min, int_max; cbn; lia.
Defined.

(** X7. From a valid start (line and column at least 1, offset at
    least 0) and without overflow, [NewLocation] gives a valid span
    whatever the text: neither end is [Invalid], the end is not before
    the start, the offsets differ by the byte length of the text, and
    when the text is not empty the end is after the start, so that the
    span contains its own start. *)
Theorem NewLocation_well_formed (p : position) (text : string) :
  1 <= line p -> 1 <= col p -> 0 <= offset p ->
  line p + len text <= int_max ->
  col p + len text <= int_max ->
  offset p + len text <= int_max ->
  let l := NewLocation p text in
  Pos.Invalid (StartPos l) = false
  /\ Pos.Invalid (EndPos l) = false
  /\ pos_le (StartPos l) (EndPos l)
  /\ Offset (EndPos l) - Offset (StartPos l) = len text
  /\ (text <> EmptyString ->
      pos_lt (StartPos l) (EndPos l)
      /\ Location_Contains (Some l) (StartPos l) = true).
Proof.
  intros Hl Hc Ho Hml Hmc Hmo l.
  pose proof (len_nonneg text) as Hlen.
  assert (Hstart : StartPos l = ConvertPosition p) by reflexivity.
  assert (Hend : Line (EndPos l) = line p
                 /\ Col (EndPos l) = col p + utf8_RuneCount text
                 /\ Offset (EndPos l) = offset p + len text
                 /\ strings_Count text newline = 0
                 \/ line p < Line (EndPos l)
                 /\ 1 <= Col (EndPos l)
                 /\ Offset (EndPos l) = offset p + len text
                 /\ text <> EmptyString).
  { destruct (Z.eq_dec (strings_Count text newline) 0) as [Hcount|Hcount].
    - left.
      assert (He : EndPos l
                   = {| Line := line p;
                        Col := col p + utf8_RuneCount text;
                        Offset := offset p + len text |})
        by (apply NewLocation_one_line_end; try assumption; int_range).
      rewrite He. repeat split; assumption.
    - right. pose proof (strings_Count_nonneg text newline) as Hn0.
      pose proof (strings_Count_le_len text newline) as Hn1.
      subst l. unfold NewLocation. cbv zeta.
      destruct (Z.eqb_spec (col p) 0) as [E|_]; [lia|].
      destruct (Z.eqb_spec (strings_Count text newline) 0) as [E|_]; [lia|].
      cbn [EndPos Line Col Offset ConvertPosition].
      set (lastLine := drop_bytes _ text).
      pose proof (utf8_RuneCount_bounds lastLine) as Hrc.
      pose proof (len_drop_bytes text
                    (Z.to_nat (if strings_LastIndexByte text newline =? -1
                               then 0
                               else strings_LastIndexByte text newline))) as Hd.
      fold lastLine in Hd.
      unfold int_add.
      rewrite (int_wrap_id (z := line p + strings_Count text newline))
        by int_range.
      rewrite (int_wrap_id (z := utf8_RuneCount lastLine + 1)) by int_range.
      rewrite (int_wrap_id (z := offset p + len text)) by int_range.
      repeat split; try lia.
      intros E. apply Hcount. rewrite E. reflexivity. }
  rewrite !Invalid_false, Hstart. unfold ConvertPosition.
  unfold pos_le, pos_lt. cbn [Line Col Offset].
  pose proof (utf8_RuneCount_bounds text) as Hrc.
  assert (Hin : text <> EmptyString ->
                line p < Line (EndPos l)
                \/ line p = Line (EndPos l) /\ col p < Col (EndPos l)).
  { intros Hne. destruct Hend as [(E1 & E2 & E3 & _) | (E1 & _)]; [|lia].
    pose proof (utf8_RuneCount_pos Hne). lia. }
  split; [lia|]. split; [lia|]. split; [lia|]. split; [lia|].
  intros Hne. specialize (Hin Hne). split; [exact Hin|].
  apply Contains_iff. rewrite Hstart.
  unfold pos_le, pos_lt, ConvertPosition. cbn [Line Col Offset]. lia.
Qed.

Lemma NewLocation_well_formed_witness :
  let l := NewLocation (mkposition 1 1 0) struct_Foo_text in
  Pos.Invalid (StartPos l) = false
  /\ Pos.Invalid (EndPos l) = false
  /\ pos_le (StartPos l) (EndPos l)
  /\ Offset (EndPos l) - Offset (StartPos l) = len struct_Foo_text
  /\ (struct_Foo_text <> EmptyString ->
      pos_lt (StartPos l) (EndPos l)
      /\ Location_Contains (Some l) (StartPos l) = true).
Proof.
  apply (@NewLocation_well_formed (mkposition 1 1 0) struct_Foo_text);
    unfold int_max; cbn; lia.
Defined.

(** X8. A start at column 0, the case for which the code takes one
    off the number of newlines: the first newline of the text does not
    advance the line.  With [post] the text
    after the last newline and [pre] the text before it, the end is on
    line [start + newlines of pre]; its column is [1 + runes of post],
    the column after the last rune, when that newline is the only one,
    and one more when [pre] has newlines too. *)
Theorem NewLocation_from_column_0 (p : position) (pre post : string) :
  col p = 0 ->
  strings_Count post newline = 0 ->
  let text := (pre ++ String newline post)%string in
  in_int (line p) ->
  line p + len text <= int_max ->
  len text < int_max ->
  in_int (offset p + len text) ->
  EndPos (NewLocation p text)
  = {| Line := line p + strings_Count pre newline;
       Col := (if strings_Count pre newline =? 0 then 1 else 2)
              + utf8_RuneCount post;
       Offset := offset p + len text |}.
Proof.
  intros Hcol Hpost text Hline Hml Hlen Ho.
  pose proof (strings_Count_nonneg pre newline) as Hn0.
  pose proof (strings_Count_le_len pre newline) as Hn1.
  pose proof (utf8_RuneCount_bounds post) as Hrc.
  pose proof (len_nonneg pre) as Hpre. pose proof (len_nonneg post) as Hpo.
  assert (Htext : len text = len pre + (1 + len post)).
  { subst text. now rewrite len_app, len_String. }
  assert (Hcount : strings_Count text newline = strings_Count pre newline + 1).
  { subst text. rewrite strings_Count_app. cbn [strings_Count].
    rewrite Ascii.eqb_refl, Hpost. lia. }
  unfold NewLocation. cbv zeta. rewrite Hcount. fold text in Ho |- *.
  subst text.
  rewrite (@strings_LastIndexByte_last pre post newline Hpost).
  destruct (Z.eqb_spec (col p) 0) as [_|E]; [|contradiction].
  destruct (Z.eqb_spec (Z.of_nat (String.length pre)) (-1)) as [E|_]; [lia|].
  rewrite Nat2Z.id, drop_bytes_app, utf8_RuneCount_newline.
  cbn [ConvertPosition Line Col Offset]. rewrite Hcol.
  unfold int_add, int_sub.
  rewrite (int_wrap_id (z := strings_Count pre newline + 1 - 1)) by int_range.
  replace (strings_Count pre newline + 1 - 1)
    with (strings_Count pre newline) by lia.
  rewrite (int_wrap_id (z := line p + strings_Count pre newline)) by int_range.
  rewrite (int_wrap_id (z := 1 + utf8_RuneCount post + 1)) by int_range.
  rewrite (int_wrap_id Ho).
  cbn [EndPos]. f_equal.
  destruct (Z.eqb_spec (strings_Count pre newline) 0) as [_|_]; [|lia].
  change (int_wrap (0 - 1)) with (-1).
  rewrite int_wrap_id by int_range. lia.
Qed.

Lemma NewLocation_from_column_0_witness :
  EndPos (NewLocation (mkposition 2 0 12) (String newline "  1: string a"))
  = {| Line := 2; Col := 14; Offset := 26 |}.
Proof.
  apply (@NewLocation_from_column_0 (mkposition 2 0 12) EmptyString
           "  1: string a");
    try reflexivity; unfold in_int, int_min, int_max; cbn; lia.
Defined.

(** X9. A start at column 0 and a text without newline: the line of the
    end is the line before the start, so the end is before the start
    and the span contains no position. *)
Theorem NewLocation_column_0_one_line (p : position) (text : string) :
  col p = 0 ->
  strings_Count text newline = 0 ->
  in_int (line p - 1) ->
  len text < int_max ->
  in_int (offset p + len text) ->
  EndPos (NewLocation p text)
  = {| Line := line p - 1;
       Col := utf8_RuneCount text + 1;
       Offset := offset p + len text |}
  /\ pos_lt (EndPos (NewLocation p text)) (StartPos (NewLocation p text))
  /\ forall pos, Location_Contains (Some (NewLocation p text)) pos = false.
Proof.
  intros Hcol Hcount Hline Hlen Ho.
  pose proof (utf8_RuneCount_bounds text) as Hrc.
  assert (He : EndPos (NewLocation p text)
               = {| Line := line p - 1;
                    Col := utf8_RuneCount text + 1;
                    Offset := offset p + len text |}).
  { unfold NewLocation. cbv zeta.
    rewrite Hcount, (strings_LastIndexByte_absent _ _ Hcount).
    destruct (Z.eqb_spec (col p) 0) as [_|E]; [|contradiction].
    change (int_sub 0 1) with (-1).
    change (-1 =? 0) with false. change (-1 =? -1) with true.
    cbn [EndPos Z.to_nat drop_bytes ConvertPosition Line Col Offset].
    unfold int_add.
    rewrite (int_wrap_id (z := line p + -1)) by int_range.
    rewrite (int_wrap_id (z := utf8_RuneCount text + 1)) by int_range.
    rewrite (int_wrap_id Ho). f_equal; lia. }
  assert (Hlt : pos_lt (EndPos (NewLocation p text))
                       (StartPos (NewLocation p text))).
  { rewrite He. left. cbn [Line StartPos NewLocation ConvertPosition]. lia. }
  split; [exact He|]. split; [exact Hlt|].
  intros pos.
  destruct (Contains_reflect (NewLocation p text) pos) as [[H1 H2]|_];
    [|reflexivity].
  exfalso. unfold pos_le, pos_lt in *. lia.
Qed.

Lemma NewLocation_column_0_one_line_witness :
  EndPos (NewLocation (mkposition 2 0 12) "a")
  = {| Line := 1; Col := 2; Offset := 13 |}
  /\ forall pos,
       Location_Contains (Some (NewLocation (mkposition 2 0 12) "a")) pos
       = false.
Proof.
  destruct (@NewLocation_column_0_one_line (mkposition 2 0 12) "a")
    as (He & _ & Hc);
    try reflexivity; try (unfold in_int, int_min, int_max; cbn; lia).
  split; [exact He | exact Hc].
Defined.

(** ** The buckets of a document *)

Lemma In_select (A B : Type) (f : A -> option B) (l : list A) (y : B) :
  In y (select f l) <-> exists x, In x l /\ f x = Some y.
Proof.
  induction l as [|a l IH]; cbn [select In].
  - split; [intros [] | intros (x & [] & _)].
  - destruct (f a) as [b|] eqn:Hfa; cbn [In]; rewrite IH; split.
    + intros [<- | (x & Hin & Hx)]; [exists a | exists x]; auto.
    + intros (x & [<- | Hin] & Hx); [left; congruence | right; exists x; auto].
    + intros (x & Hin & Hx). exists x. auto.
    + intros (x & [<- | Hin] & Hx); [congruence | exists x; auto].
Qed.

Lemma In_values (A : Type) (l : list (iface A)) (x : A) :
  In x (values l) <-> In (Some x) l.
Proof.
  induction l as [|[y|] rest IH]; cbn [values In].
  - reflexivity.
  - rewrite IH. split; (intros [H|H]; [left; congruence | now right]).
  - rewrite IH. split; [now right | intros [H|H]; [discriminate H | exact H]].
Qed.

Lemma length_values (A : Type) (l : list (iface A)) :
  no_nil l = true -> List.length (values l) = List.length l.
Proof.
  induction l as [|[y|] rest IH]; cbn [no_nil values List.length]; intros H.
  - reflexivity.
  - now rewrite IH.
  - discriminate H.
Qed.

Lemma headers_partition (headers : list Header) :
  (List.length (select is_Include headers)
   + List.length (select is_CPPInclude headers)
   + List.length (select is_Namespace headers)
   + List.length (select is_BadHeader headers)
   + List.length (select is_Definition_header headers))%nat
  = List.length headers.
Proof.
  induction headers as [|h l IH]; [reflexivity|].
  destruct h; cbn [select is_Include is_CPPInclude is_Namespace is_BadHeader
                   is_Definition_header List.length]; lia.
Qed.

Lemma definitions_partition (defs : list Definition_) :
  (List.length (select is_Const defs) + List.length (select is_Typedef defs)
   + List.length (select is_Enum defs) + List.length (select is_Service defs)
   + List.length (select is_Struct defs) + List.length (select is_Union defs)
   + List.length (select is_Exception defs)
   + List.length (select is_BadDefinition defs))%nat
  = List.length defs.
Proof.
  induction defs as [|d l IH]; [reflexivity|].
  destruct d; cbn [select is_Const is_Typedef is_Enum is_Service is_Struct
                   is_Union is_Exception is_BadDefinition List.length]; lia.
Qed.

Ltac bucket_members :=
  let p := fresh "p" in
  intros p; rewrite In_select; split;
  [ intros (x & Hin & Hx); destruct x; inversion Hx; subst;
    apply In_values; exact Hin
  | intros Hin; apply In_values in Hin; eexists; split;
    [exact Hin | reflexivity] ].

(** X10. [NewDocument] panics exactly when a header or a definition is
    the nil interface value, on which it calls [Type()]; otherwise it
    returns a document: no type assertion of its two switches fails.
    In the document a header of one of the four header types is in the
    bucket of its type and in no other; a header of one of the eight
    types of definitions, which implement [Header] too, is in no bucket,
    so the four header buckets and these headers are as many as the
    headers.  The seven buckets of definitions hold the definitions but
    the [BadDefinition]s.  [Nodes] has one entry per header, definition
    and comment; the comments and the location are those given, and
    the file name is empty. *)
Theorem NewDocument_partition (headers : list (iface Header))
    (defs : list (iface Definition_)) (comments : list (ptr Comment.t))
    (loc : Location) :
  match NewDocument headers defs comments loc with
  | Ok (Some doc) =>
      no_nil headers = true /\ no_nil defs = true
      /\ (forall p, In p (Document.Includes doc)
                    <-> In (Some (HInclude p)) headers)
      /\ (forall p, In p (Document.CPPIncludes doc)
                    <-> In (Some (HCPPInclude p)) headers)
      /\ (forall p, In p (Document.Namespaces doc)
                    <-> In (Some (HNamespace p)) headers)
      /\ (forall p, In p (Document.BadHeaders doc)
                    <-> In (Some (HBadHeader p)) headers)
      /\ (forall p, In p (Document.Consts doc) <-> In (Some (DConst p)) defs)
      /\ (forall p, In p (Document.Typedefs doc)
                    <-> In (Some (DTypedef p)) defs)
      /\ (forall p, In p (Document.Enums doc) <-> In (Some (DEnum p)) defs)
      /\ (forall p, In p (Document.Services doc)
                    <-> In (Some (DService p)) defs)
      /\ (forall p, In p (Document.Structs doc)
                    <-> In (Some (DStruct p)) defs)
      /\ (forall p, In p (Document.Unions doc) <-> In (Some (DUnion p)) defs)
      /\ (forall p, In p (Document.Exceptions doc)
                    <-> In (Some (DException p)) defs)
      /\ (List.length (Document.Includes doc)
          + List.length (Document.CPPIncludes doc)
          + List.length (Document.Namespaces doc)
          + List.length (Document.BadHeaders doc)
          + List.length (select is_Definition_header (values headers)))%nat
         = List.length headers
      /\ (List.length (Document.Consts doc)
          + List.length (Document.Typedefs doc)
          + List.length (Document.Enums doc)
          + List.length (Document.Services doc)
          + List.length (Document.Structs doc)
          + List.length (Document.Unions doc)
          + List.length (Document.Exceptions doc)
          + List.length (select is_BadDefinition (values defs)))%nat
         = List.length defs
      /\ Document.BadDefinitions doc = []
      /\ List.length (Document.Nodes doc)
         = (List.length headers + List.length defs + List.length comments)%nat
      /\ Document.Comments doc = comments
      /\ Document.Location doc = loc
      /\ Document.Filename doc = EmptyString
  | Panic => In None headers \/ In None defs
  | Ok None | OutOfFuel => False
  end.
Proof.
  rewrite NewDocument_spec.
  destruct (no_nil headers) eqn:Hh; cbn [andb];
    [|left; now apply no_nil_false].
  destruct (no_nil defs) eqn:Hd; [|right; now apply no_nil_false].
  unfold NewDocument_result.
  cbn [Document.Includes Document.CPPIncludes Document.Namespaces
       Document.BadHeaders Document.Consts Document.Typedefs Document.Enums
       Document.Services Document.Structs Document.Unions Document.Exceptions
       Document.BadDefinitions Document.Nodes Document.Comments
       Document.Location Document.Filename].
  split; [reflexivity|]. split; [reflexivity|].
  do 11 (split; [bucket_members|]).
  split; [rewrite headers_partition; now apply length_values|].
  split; [rewrite definitions_partition; now apply length_values|].
  split; [reflexivity|].
  split; [|repeat split].
  rewrite !length_app, !length_map, Nat.add_assoc.
  now rewrite (length_values _ Hh), (length_values _ Hd).
Qed.

(** ** What the traversal visits *)

Lemma children_loop_first_bad (isBad cbn : Node -> Result bool)
    (pre post : list Node) (c : Node) :
  (forall x, In x pre -> isBad x = Ok false /\ cbn x = Ok false) ->
  isBad c = Ok true \/ (isBad c = Ok false /\ cbn c = Ok true) ->
  children_loop isBad cbn (pre ++ c :: post) = Ok true.
Proof.
  intros Hpre Hc. induction pre as [|x pre IH]; cbn [app children_loop].
  - destruct Hc as [-> | [-> ->]]; reflexivity.
  - destruct (Hpre x (or_introl eq_refl)) as [-> ->]. cbn [bind].
    apply IH. intros y Hy. apply Hpre. now right.
Qed.

Lemma children_loop_false_inv (isBad cbn : Node -> Result bool)
    (cs : list Node) :
  children_loop isBad cbn cs = Ok false ->
  forall c, In c cs -> isBad c = Ok false /\ cbn c = Ok false.
Proof.
  induction cs as [|x cs IH]; cbn [children_loop]; intros H c Hin.
  - destruct Hin.
  - destruct (isBad x) as [[|]| |] eqn:Hx; cbn [bind] in H;
      try discriminate H.
    destruct (cbn x) as [[|]| |] eqn:Hsub; cbn [bind] in H;
      try discriminate H.
    destruct Hin as [<- | Hin]; [now split | now apply IH].
Qed.

Lemma children_loop_true_inv (isBad cbn : Node -> Result bool)
    (cs : list Node) :
  children_loop isBad cbn cs = Ok true ->
  exists c, In c cs
    /\ (isBad c = Ok true \/ (isBad c = Ok false /\ cbn c = Ok true)).
Proof.
  induction cs as [|x cs IH]; cbn [children_loop]; intros H.
  - discriminate H.
  - destruct (isBad x) as [[|]| |] eqn:Hx; cbn [bind] in H;
      try discriminate H.
    + exists x. split; [now left | now left].
    + destruct (cbn x) as [[|]| |] eqn:Hsub; cbn [bind] in H;
        try discriminate H.
      * exists x. split; [now left | right; now split].
      * destruct (IH H) as (c & Hin & Hc). exists c. split; [now right|].
        exact Hc.
Qed.

Lemma children_loop_mono (isBad cbn isBad' cbn' : Node -> Result bool)
    (cs : list Node) (r : bool) :
  (forall c b, isBad c = Ok b -> isBad' c = Ok b) ->
  (forall c b, cbn c = Ok b -> cbn' c = Ok b) ->
  children_loop isBad cbn cs = Ok r ->
  children_loop isBad' cbn' cs = Ok r.
Proof.
  intros HB HC. induction cs as [|x cs IH]; cbn [children_loop]; intros H.
  - exact H.
  - destruct (isBad x) as [b| |] eqn:Hx; cbn [bind] in H;
      try discriminate H.
    rewrite (HB x b Hx). cbn [bind]. destruct b; [exact H|].
    destruct (cbn x) as [b'| |] eqn:Hsub; cbn [bind] in H;
      try discriminate H.
    rewrite (HC x b' Hsub). cbn [bind]. destruct b'; [exact H|].
    now apply IH.
Qed.

(** A value returned by [ChildrenBadNode] is the value it returns under
    every larger bound on the depth of the calls. *)
Lemma ChildrenBadNode_fuel_mono (fuel : nat) : forall (n : Node) (b : bool),
  ChildrenBadNode fuel n = Ok b ->
  forall fuel', (fuel <= fuel')%nat -> ChildrenBadNode fuel' n = Ok b.
Proof.
  induction fuel as [|fuel IH]; intros n b H fuel' Hle; [discriminate H|].
  destruct fuel' as [|fuel']; [lia|].
  rewrite ChildrenBadNode_unfold in *.
  destruct (Children n) as [cs| |]; cbn [bind] in *; try discriminate H.
  apply children_loop_mono
    with (isBad := IsBadNode fuel) (cbn := ChildrenBadNode fuel).
  - intros c b' Hc. now apply (IsBadNode_fuel_irrelevant fuel).
  - intros c b' Hc. apply (IH c b' Hc). lia.
  - exact H.
Qed.

(** A value returned by [ChildrenBadNode] is true exactly when a node
    below is bad. *)
Lemma ChildrenBadNode_value (fuel : nat) : forall (n : Node) (b : bool),
  ChildrenBadNode fuel n = Ok b -> (b = true <-> has_bad_descendant n).
Proof.
  induction fuel as [|fuel IH]; intros n b H; [discriminate H|].
  rewrite ChildrenBadNode_unfold in H.
  destruct (Children n) as [cs| |] eqn:Hcs; cbn [bind] in H;
    try discriminate H.
  rewrite (@has_bad_descendant_children n cs Hcs).
  destruct b.
  - split; [intros _ | reflexivity].
    destruct (children_loop_true_inv _ _ _ H) as (c & Hin & Hc).
    exists c. split; [exact Hin|].
    destruct Hc as [Hc | [_ Hc]].
    + left. now apply (IsBadNode_fuel_irrelevant fuel).
    + right. now apply (IH c true Hc).
  - split; [discriminate|]. intros (c & Hin & Hc). exfalso.
    destruct (children_loop_false_inv _ _ _ H c Hin) as [Hb Hsub].
    destruct Hc as [Hc | Hc].
    + specialize (Hc fuel). congruence.
    + apply (IH c false Hsub) in Hc. discriminate Hc.
Qed.

(** X11. The loop of [ChildrenBadNode] returns at the first child that
    is bad or has a bad node below it: when the children before it are
    neither, the answer is true, and the children after it are not
    looked at, be they nil pointers. *)
Theorem ChildrenBadNode_stops_at_first_bad (fuel : nat) (n : Node)
    (pre post : list Node) (c : Node) :
  Children n = Ok (pre ++ c :: post) ->
  (forall x, In x pre ->
     IsBadNode fuel x = Ok false /\ ChildrenBadNode fuel x = Ok false) ->
  IsBadNode fuel c = Ok true
  \/ (IsBadNode fuel c = Ok false /\ ChildrenBadNode fuel c = Ok true) ->
  ChildrenBadNode (S fuel) n = Ok true.
Proof.
  intros Hcs Hpre Hc. rewrite ChildrenBadNode_unfold, Hcs. cbn [bind].
  now apply children_loop_first_bad.
Qed.

Lemma ChildrenBadNode_stops_at_first_bad_witness :
  ChildrenBadNode 3 (struct_Foo [NewBadField zeroLocation; None]) = Ok true
  /\ ChildrenBadNode 3 (struct_Foo [None; NewBadField zeroLocation]) = Panic.
Proof.
  split; [|reflexivity].
  apply (@ChildrenBadNode_stops_at_first_bad 2
           (struct_Foo [NewBadField zeroLocation; None])
           [NKeyword StructKeyword (Some (NewKeyword [] None zeroLocation));
            NKeyword LCurKeyword (Some (NewKeyword [] None zeroLocation));
            NKeyword RCurKeyword (Some (NewKeyword [] None zeroLocation));
            NIdentifier (NewIdentifier
                           (NewIdentifierName "Foo" zeroLocation) []
                           zeroLocation)]
           [NField None]
           (NField (NewBadField zeroLocation))).
  - reflexivity.
  - intros x Hin. in_cases Hin; split; reflexivity.
  - left. reflexivity.
Defined.

(** X12. Whenever [ChildrenBadNode] returns a value, the value is true
    exactly when some node reached by one or more steps of [Children()]
    is bad, and it is the value returned under every larger bound on the
    depth of the calls: a false answer means that no node below is
    bad. *)
Theorem ChildrenBadNode_sound (fuel : nat) (n : Node) (b : bool) :
  ChildrenBadNode fuel n = Ok b ->
  (b = true <-> has_bad_descendant n)
  /\ (forall fuel', (fuel <= fuel')%nat -> ChildrenBadNode fuel' n = Ok b).
Proof.
  intros H. split.
  - now apply (ChildrenBadNode_value fuel).
  - now apply ChildrenBadNode_fuel_mono.
Qed.

Lemma ChildrenBadNode_sound_witness :
  ~ has_bad_descendant (struct_Foo [field_with_bad_index])
  /\ has_bad_descendant (struct_Foo [NewBadField zeroLocation]).
Proof.
  split.
  - destruct (@ChildrenBadNode_sound 5 (struct_Foo [field_with_bad_index])
                false eq_refl) as [Hiff _].
    intros Hbad. apply Hiff in Hbad. discriminate Hbad.
  - destruct (@ChildrenBadNode_sound 3
                (struct_Foo [NewBadField zeroLocation]) true eq_refl)
      as [Hiff _].
    now apply Hiff.
Defined.



(** ** What the traversal does not visit *)

(** X14. A keyword has no children, whatever its literal and its
    comments: [ChildrenBadNode] is false on it, [IsBadNode] is its own
    flag, and a keyword built by [NewKeyword] around the literal of
    [NewBadKeywordLiteral] is not bad and has no bad node below it.  A
    list separator is a keyword in this respect. *)
Theorem Keyword_has_no_children (kind : KeywordKind) (k : Keyword.t)
    (fuel : nat) :
  Children (NKeyword kind (Some k)) = Ok []
  /\ ChildrenBadNode (S fuel) (NKeyword kind (Some k)) = Ok false
  /\ IsBadNode fuel (NKeyword kind (Some k)) = Ok (Keyword.BadNode k)
  /\ ~ has_bad_descendant (NKeyword kind (Some k))
  /\ (forall (comments : list (ptr Comment.t)) (c : current) (loc : Location),
        let literal := NewBadKeywordLiteral c in
        let keyword := NKeyword kind (Some (NewKeyword comments literal loc)) in
        IsBadNode fuel (NKeywordLiteral literal) = Ok true
        /\ IsBadNode fuel keyword = Ok false
        /\ ChildrenBadNode (S fuel) keyword = Ok false)
  /\ (forall sep : ListSeparatorKeyword.t,
        Children (NListSeparatorKeyword (Some sep)) = Ok []
        /\ ChildrenBadNode (S fuel) (NListSeparatorKeyword (Some sep))
           = Ok false
        /\ IsBadNode fuel (NListSeparatorKeyword (Some sep))
           = Ok (Keyword.BadNode (ListSeparatorKeyword.Keyword sep))).
Proof.
  split; [reflexivity|]. split; [reflexivity|]. split; [reflexivity|].
  split; [|split; [intros; repeat split | intros; repeat split]].
  intros Hbad.
  apply (@ChildrenBadNode_value 1 (NKeyword kind (Some k)) false eq_refl)
    in Hbad.
  discriminate Hbad.
Qed.

(** X15. [Children] of a field does not list its index, and [Children]
    of a field type lists neither its [CppType] nor its three keywords:
    two fields, or two field types, that differ in these only have the
    same children, the same answer of [ChildrenBadNode] and the same bad
    nodes below.  So a bad field index in a field is not reported. *)
Theorem Field_index_not_traversed (fuel : nat)
    (e : ptr Keyword.t) (sep : ptr ListSeparatorKeyword.t)
    (comments endl : list (ptr Comment.t)) (annos : ptr Annotations.t)
    (index index' : ptr FieldIndex.t) (required : ptr Keyword.t)
    (ft : ptr FieldType.t) (id : ptr Identifier.t) (cv : ptr ConstValue.t)
    (loc : Location) :
  let f := NField (NewField e sep comments endl annos index required ft id
                     cv loc) in
  let f' := NField (NewField e sep comments endl annos index' required ft id
                      cv loc) in
  Children f = Children f'
  /\ ChildrenBadNode fuel f = ChildrenBadNode fuel f'
  /\ (has_bad_descendant f <-> has_bad_descendant f')
  /\ (forall (l r c l' r' c' : ptr Keyword.t) (cpp cpp' : ptr CppType.t)
        (typeName : ptr TypeName.t) (keyType valueType : ptr FieldType.t),
        let t := NFieldType (NewFieldType l r c cpp typeName keyType
                               valueType loc) in
        let t' := NFieldType (NewFieldType l' r' c' cpp' typeName keyType
                                valueType loc) in
        Children t = Children t'
        /\ ChildrenBadNode fuel t = ChildrenBadNode fuel t'
        /\ (has_bad_descendant t <-> has_bad_descendant t')).
Proof.
  intros f f'. split; [reflexivity|]. split; [|split].
  - destruct fuel; [reflexivity|]. now rewrite !ChildrenBadNode_unfold.
  - rewrite (@has_bad_descendant_children f _ eq_refl),
      (@has_bad_descendant_children f' _ eq_refl). reflexivity.
  - intros l r c l' r' c' cpp cpp' typeName keyType valueType t t'.
    split; [reflexivity|]. split.
    + destruct fuel; [reflexivity|]. now rewrite !ChildrenBadNode_unfold.
    + rewrite (@has_bad_descendant_children t _ eq_refl),
        (@has_bad_descendant_children t' _ eq_refl). reflexivity.
Qed.

Lemma Forall_map_Node (A : Type) (N : A -> Node) (P : Node -> Prop)
    (l : list A) :
  (forall x, P (N x)) -> Forall P (map N l).
Proof. intros H. induction l; cbn [map]; constructor; auto. Qed.

Lemma Forall_append_if_not_nil (A : Type) (N : ptr A -> Node)
    (P : Node -> Prop) (p : ptr A) :
  (forall x, P (N x)) -> Forall P (append_if_not_nil N p).
Proof. intros H. destruct p; cbn [append_if_not_nil]; constructor; auto. Qed.

Ltac listed_kinds :=
  repeat first
    [ apply Forall_nil
    | apply Forall_cons; [split; reflexivity|]
    | apply Forall_app; split
    | apply Forall_map_Node; intros; split; reflexivity
    | apply Forall_append_if_not_nil; intros; split; reflexivity ].

(** The children of a node other than a document. *)
Lemma Children_kinds (n : Node) (cs : list Node) :
  is_Document n = false -> Children n = Ok cs -> Forall listed_kind cs.
Proof.
  intros Hn Hcs.
  destruct n as [p|p|p|k p|p|p|p|p|p|p|p|p|p|p|p|p|p|p|p|p|p|p|p|p|p|p|p|p|p|p|p|p|p];
    try discriminate Hn; try destruct p;
    try discriminate Hcs; injection Hcs as <-; listed_kinds.
Qed.

Lemma NewDocument_kinds (headers : list Header) (defs : list Definition_)
    (comments : list (ptr Comment.t)) :
  Forall listed_kind
    (map Header_Node headers ++ map Definition_Node defs
     ++ map NComment comments).
Proof.
  apply Forall_app; split; [|apply Forall_app; split].
  - rewrite Forall_forall. intros c Hin. apply in_map_iff in Hin.
    destruct Hin as ([] & <- & _); split; reflexivity.
  - rewrite Forall_forall. intros c Hin. apply in_map_iff in Hin.
    destruct Hin as ([] & <- & _); split; reflexivity.
  - apply Forall_map_Node. intros; split; reflexivity.
Qed.

Lemma descendant_kinds (d n : Node) :
  descendant d n ->
  (forall cs, Children n = Ok cs -> Forall listed_kind cs) ->
  listed_kind d.
Proof.
  induction 1 as [n [cs Hcs Hin] | n c [cs Hcs Hin] _ IH]; intros Hn.
  - exact (proj1 (Forall_forall _ _) (Hn cs Hcs) d Hin).
  - apply IH. intros cs' Hcs'.
    pose proof (proj1 (Forall_forall _ _) (Hn cs Hcs) c Hin) as [Hc _].
    now apply Children_kinds with c.
Qed.

(** X16. Below a node that is not a document, and below a document
    built by [NewDocument], no node is a [CppType], a [FieldIndex] or a
    [KeywordLiteral] (nor a document): no [Children()] lists one.  So
    the traversal of [ChildrenBadNode] never consults the flag of one
    of those, and [IsBadNode] on a node it meets returns or panics on a
    nil pointer: the method of [CppType], which calls itself without
    end, is not among the calls. *)
Theorem traversal_never_meets_unlisted (n d : Node) :
  is_Document n = false
  \/ (exists headers defs comments loc doc,
        NewDocument headers defs comments loc = Ok doc /\ n = NDocument doc) ->
  descendant d n ->
  is_Document d = false
  /\ unlisted d = false
  /\ forall fuel, IsBadNode fuel d <> OutOfFuel.
Proof.
  intros Hn Hd.
  assert (Hk : listed_kind d).
  { apply (descendant_kinds Hd). intros cs Hcs.
    destruct Hn as [Hn | (headers & defs & comments & loc & doc & Hdoc & ->)].
    - now apply Children_kinds with n.
    - rewrite NewDocument_spec in Hdoc.
      destruct (no_nil headers && no_nil defs); [|discriminate Hdoc].
      injection Hdoc as <-.
      cbn [Children Document_Children deref NewDocument_result
           Document.Nodes] in Hcs.
      injection Hcs as <-. apply NewDocument_kinds. }
  destruct Hk as [Hdoc Hun]. split; [exact Hdoc|]. split; [exact Hun|].
  intros fuel.
  destruct d as [p|p|p|k p|p|p|p|p|p|p|p|p|p|p|p|p|p|p|p|p|p|p|p|p|p|p|p|p|p|p|p|p|p];
    try discriminate Hun; try discriminate Hdoc;
    try destruct p; discriminate.
Qed.

Lemma traversal_never_meets_unlisted_witness :
  unlisted (NIdentifierName (NewIdentifierName "a" zeroLocation)) = false
  /\ IsBadNode 0 (NIdentifierName (NewIdentifierName "a" zeroLocation))
     <> OutOfFuel.
Proof.
  assert (H : descendant (NIdentifierName (NewIdentifierName "a" zeroLocation))
                (NField field_with_bad_index)).
  { apply descendant_step
      with (NIdentifier (NewIdentifier (NewIdentifierName "a" zeroLocation) []
                           zeroLocation)).
    - eapply child_of_intro; [reflexivity|]. cbn. auto.
    - apply descendant_child. eapply child_of_intro; [reflexivity|].
      cbn. auto. }
  destruct (@traversal_never_meets_unlisted (NField field_with_bad_index) _
              (or_introl eq_refl) H) as (_ & Hun & Hfuel).
  split; [exact Hun | apply Hfuel].
Defined.

(** ** [ToFieldType] *)

(** X17. [ToFieldType] panics on a nil identifier and on an identifier
    without name, as the one of [NewBadIdentifier].  Otherwise it gives a
    field type whose only child is a type name with the text and the
    location of the name; neither is bad and nothing below is, whatever
    the flag of the identifier and of its name, and the comments of the
    identifier are not kept: the field type of the bad identifier built
    from the empty name is not bad. *)
Theorem ToFieldType_spec (i : ptr Identifier.t) (fuel : nat) :
  match i with
  | Some id =>
      match Identifier.Name id with
      | Some name =>
          exists ft tn,
            Identifier_ToFieldType i = Ok (Some ft)
            /\ FieldType.TypeName ft = Some tn
            /\ TypeName.Name tn = IdentifierName.Text name
            /\ TypeName.Location tn = IdentifierName.Location name
            /\ FieldType.Location ft = Identifier.Location id
            /\ Children (NFieldType (Some ft)) = Ok [NTypeName (Some tn)]
            /\ Children (NTypeName (Some tn)) = Ok []
            /\ IsBadNode fuel (NFieldType (Some ft)) = Ok false
            /\ IsBadNode fuel (NTypeName (Some tn)) = Ok false
            /\ ChildrenBadNode (S (S fuel)) (NFieldType (Some ft)) = Ok false
      | None => Identifier_ToFieldType i = Panic
      end
  | None => Identifier_ToFieldType i = Panic
  end
  /\ Identifier_ToFieldType (NewBadIdentifier zeroLocation) = Panic
  /\ (forall (comments : list (ptr Comment.t)) (loc : Location),
        let id := NewIdentifier (NewIdentifierName EmptyString loc) comments
                    loc in
        IsBadNode fuel (NIdentifier id) = Ok true
        /\ exists ft,
             Identifier_ToFieldType id = Ok ft
             /\ IsBadNode fuel (NFieldType ft) = Ok false
             /\ ChildrenBadNode (S (S fuel)) (NFieldType ft) = Ok false).
Proof.
  split; [|split; [reflexivity|]].
  - destruct i as [[[name|] comments bad loc]|]; try reflexivity.
    do 2 eexists. repeat split.
  - intros comments loc id. split; [reflexivity|].
    eexists. repeat split.
Qed.

(** ** [FieldSymbol] *)

(** What a false answer of [ChildrenBadNode] on a field says of its
    identifier: it is not bad, and it has a name that is not bad. *)
Lemma Field_guard_passed (fuel : nat) (f : Field.t) (id : Identifier.t) :
  ChildrenBadNode fuel (NField (Some f)) = Ok false ->
  Field.Identifier f = Some id ->
  Identifier.BadNode id = false
  /\ exists name,
       Identifier.Name id = Some name /\ IdentifierName.BadNode name = false.
Proof.
  intros H Hid. destruct fuel as [|fuel]; [discriminate H|].
  rewrite ChildrenBadNode_unfold in H.
  cbn [Children Field_Children deref bind] in H.
  destruct (children_loop_false_inv _ _ _ H (NIdentifier (Some id)))
    as [Hb Hsub].
  { rewrite Hid. apply in_or_app. right. apply in_or_app. right.
    apply in_or_app. left. left. reflexivity. }
  cbn in Hb. injection Hb as Hb. split; [exact Hb|].
  destruct fuel as [|fuel]; [discriminate Hsub|].
  rewrite ChildrenBadNode_unfold in Hsub.
  cbn [Children Identifier_Children deref bind] in Hsub.
  destruct (children_loop_false_inv _ _ _ Hsub
              (NIdentifierName (Identifier.Name id))) as [Hn _].
  { apply in_or_app. right. left. reflexivity. }
  destruct (Identifier.Name id) as [name|]; [|discriminate Hn].
  cbn in Hn. injection Hn as Hn. now exists name.
Qed.

(** X18. [FieldSymbol] returns nil on a field that is bad, without
    looking below it and without calling the formatter, and on a field
    above a bad node, when the traversal returns.  It returns nil on no
    other field: a nil result means that the field is bad or that a
    node below it is. *)
Theorem FieldSymbol_nil_iff (R : Type)
    (fmt : ptr FieldType.t -> Result string) (rng : Node -> Result R)
    (fuel : nat) (f : Field.t) :
  (FieldSymbol fmt rng fuel (Some f) = Ok None ->
   Field.BadNode f = true \/ has_bad_descendant (NField (Some f)))
  /\ (Field.BadNode f = true -> FieldSymbol fmt rng fuel (Some f) = Ok None)
  /\ (forall b, ChildrenBadNode fuel (NField (Some f)) = Ok b ->
      has_bad_descendant (NField (Some f)) ->
      FieldSymbol fmt rng fuel (Some f) = Ok None).
Proof.
  unfold FieldSymbol. cbn [Field_IsBadNode deref bind].
  split; [|split].
  - destruct (Field.BadNode f); [now left|]. intros H. right.
    destruct (ChildrenBadNode fuel (NField (Some f))) as [[|]| |] eqn:Hg;
      cbn [bind] in H; try discriminate H.
    + now apply (ChildrenBadNode_value fuel _ Hg).
    + exfalso.
      destruct (match Field.RequiredKeyword f with
                | Some k => deref (Keyword.Literal k) KeywordLiteral.Text
                | None => Ok EmptyString
                end) as [detail| |]; cbn [bind] in H; try discriminate H.
      destruct (fmt (Field.FieldType f)) as [ty| |]; cbn [bind] in H;
        try discriminate H.
      destruct (Field.Identifier f) as [id|]; cbn [deref bind] in H;
        try discriminate H.
      destruct (Identifier.Name id) as [name|]; cbn [deref bind] in H;
        try discriminate H.
      destruct (rng (NField (Some f))) as [r| |]; cbn [bind] in H;
        discriminate H.
  - intros ->. reflexivity.
  - intros b Hg Hbad. destruct (Field.BadNode f); [reflexivity|].
    rewrite Hg. apply (ChildrenBadNode_value fuel _ Hg) in Hbad.
    subst b. reflexivity.
Qed.

Lemma FieldSymbol_nil_iff_witness :
  FieldSymbol (fun _ => Panic) (fun _ => @Panic unit) 0
    (NewBadField zeroLocation) = Ok None.
Proof.
  destruct (NewBadField zeroLocation) as [f|] eqn:E; [|discriminate E].
  injection E as <-.
  apply (proj1 (proj2 (FieldSymbol_nil_iff (fun _ => Panic)
                         (fun _ => @Panic unit) 0 _))).
  reflexivity.
Defined.

(** X19. A symbol returned by [FieldSymbol] is the symbol of a field
    that is not bad and has no bad node below it; the field has an
    identifier and the identifier a name, neither bad.  The symbol has
    the text of the name, the kind of a field, the range of the field
    twice, and as detail the text of the required keyword, if there is
    one, followed by the formatted type. *)
Theorem FieldSymbol_symbol_inv (R : Type)
    (fmt : ptr FieldType.t -> Result string) (rng : Node -> Result R)
    (fuel : nat) (field : ptr Field.t) (sym : DocumentSymbol.t R) :
  FieldSymbol fmt rng fuel field = Ok (Some sym) ->
  exists f id name ty detail,
    field = Some f
    /\ Field.BadNode f = false
    /\ ~ has_bad_descendant (NField field)
    /\ Field.Identifier f = Some id
    /\ Identifier.BadNode id = false
    /\ Identifier.Name id = Some name
    /\ IdentifierName.BadNode name = false
    /\ fmt (Field.FieldType f) = Ok ty
    /\ match Field.RequiredKeyword f with
       | Some k =>
           exists l, Keyword.Literal k = Some l
                     /\ detail = KeywordLiteral.Text l
       | None => detail = EmptyString
       end
    /\ rng (NField field) = Ok (DocumentSymbol.Range sym)
    /\ DocumentSymbol.Name sym = IdentifierName.Text name
    /\ DocumentSymbol.Detail sym = (detail ++ ty)%string
    /\ DocumentSymbol.Kind sym = SymbolKindField
    /\ DocumentSymbol.SelectionRange sym = DocumentSymbol.Range sym.
Proof.
  unfold FieldSymbol. intros H.
  destruct field as [f|]; [|discriminate H].
  cbn [Field_IsBadNode deref bind] in H.
  destruct (Field.BadNode f) eqn:Hbad; [discriminate H|].
  destruct (ChildrenBadNode fuel (NField (Some f))) as [[|]| |] eqn:Hg;
    cbn [bind] in H; try discriminate H.
  destruct (match Field.RequiredKeyword f with
            | Some k => deref (Keyword.Literal k) KeywordLiteral.Text
            | None => Ok EmptyString
            end) as [detail| |] eqn:Hdetail; cbn [bind] in H;
    try discriminate H.
  destruct (fmt (Field.FieldType f)) as [ty| |] eqn:Hty; cbn [bind] in H;
    try discriminate H.
  destruct (Field.Identifier f) as [id|] eqn:Hid; cbn [deref bind] in H;
    try discriminate H.
  destruct (Identifier.Name id) as [name|] eqn:Hname; cbn [deref bind] in H;
    try discriminate H.
  destruct (rng (NField (Some f))) as [r| |] eqn:Hr; cbn [bind] in H;
    try discriminate H.
  injection H as <-.
  destruct (Field_guard_passed _ _ Hg Hid) as (Hidbad & name' & Hname' & Hnbad).
  assert (name' = name) by congruence. subst name'.
  exists f, id, name, ty, detail.
  cbn [DocumentSymbol.Name DocumentSymbol.Detail DocumentSymbol.Kind
       DocumentSymbol.Range DocumentSymbol.SelectionRange].
  repeat split; try assumption; try reflexivity.
  - intros Hd. apply (ChildrenBadNode_value fuel _ Hg) in Hd. discriminate Hd.
  - destruct (Field.RequiredKeyword f) as [k|].
    + destruct (Keyword.Literal k) as [l|]; [|discriminate Hdetail].
      exists l. split; [reflexivity|]. cbn in Hdetail. congruence.
    + congruence.
Qed.

Lemma FieldSymbol_symbol_inv_witness :
  exists f id name,
    field_with_bad_index = Some f
    /\ Field.Identifier f = Some id
    /\ Identifier.Name id = Some name
    /\ IdentifierName.BadNode name = false
    /\ ~ has_bad_descendant (NField field_with_bad_index).
Proof.
  destruct (@FieldSymbol_symbol_inv unit (fun _ => Ok "i32") (fun _ => Ok tt)
              5 field_with_bad_index
              {| DocumentSymbol.Name := "a";
                 DocumentSymbol.Detail := "i32";
                 DocumentSymbol.Kind := SymbolKindField;
                 DocumentSymbol.Range := tt;
                 DocumentSymbol.SelectionRange := tt |} eq_refl)
    as (f & id & name & ty & detail & Hf & _ & Hd & Hid & _ & Hname & Hn & _).
  exists f, id, name. repeat split; assumption.
Defined.

(** X20. A field that passes the test of [FieldSymbol] (not bad, no bad
    node below) gets a symbol as soon as it has an identifier, its
    required keyword, if any, has a literal, and the formatter and the
    range return: the name of the identifier cannot be nil then, since
    the traversal went through it. *)
Theorem FieldSymbol_on_checked_field (R : Type)
    (fmt : ptr FieldType.t -> Result string) (rng : Node -> Result R)
    (fuel : nat) (f : Field.t) (id : Identifier.t) (ty : string) (r : R) :
  Field.BadNode f = false ->
  ChildrenBadNode fuel (NField (Some f)) = Ok false ->
  Field.Identifier f = Some id ->
  (forall k, Field.RequiredKeyword f = Some k -> Keyword.Literal k <> None) ->
  fmt (Field.FieldType f) = Ok ty ->
  rng (NField (Some f)) = Ok r ->
  exists name,
    Identifier.Name id = Some name
    /\ FieldSymbol fmt rng fuel (Some f)
       = Ok (Some {| DocumentSymbol.Name := IdentifierName.Text name;
                     DocumentSymbol.Detail :=
                       (match Field.RequiredKeyword f with
                        | Some k =>
                            match Keyword.Literal k with
                            | Some l => KeywordLiteral.Text l
                            | None => EmptyString
                            end
                        | None => EmptyString
                        end ++ ty)%string;
                     DocumentSymbol.Kind := SymbolKindField;
                     DocumentSymbol.Range := r;
                     DocumentSymbol.SelectionRange := r |}).
Proof.
  intros Hbad Hg Hid Hreq Hty Hr.
  destruct (Field_guard_passed _ _ Hg Hid) as (_ & name & Hname & _).
  exists name. split; [exact Hname|].
  unfold FieldSymbol. cbn [Field_IsBadNode deref bind].
  rewrite Hbad, Hg. cbn [bind]. rewrite Hty, Hid, Hr.
  destruct (Field.RequiredKeyword f) as [k|].
  - specialize (Hreq k eq_refl).
    destruct (Keyword.Literal k) as [l|]; [|congruence].
    cbn [deref bind]. rewrite Hname. reflexivity.
  - cbn [deref bind]. rewrite Hname. reflexivity.
Qed.

Lemma FieldSymbol_on_checked_field_witness :
  exists name,
    Some name = NewIdentifierName "a" zeroLocation
    /\ FieldSymbol (fun _ => Ok "i32") (fun _ => Ok tt) 5 field_with_bad_index
       = Ok (Some {| DocumentSymbol.Name := IdentifierName.Text name;
                     DocumentSymbol.Detail := "i32";
                     DocumentSymbol.Kind := SymbolKindField;
                     DocumentSymbol.Range := tt;
                     DocumentSymbol.SelectionRange := tt |}).
Proof.
  destruct field_with_bad_index as [f|] eqn:E; [|discriminate E].
  injection E as <-.
  match goal with
  | |- context [FieldSymbol _ _ _ (Some ?f)] =>
      destruct (@FieldSymbol_on_checked_field unit (fun _ => Ok "i32")
                  (fun _ => Ok tt) 5 f _ "i32" tt eq_refl eq_refl eq_refl)
        as (name & Hname & H); try reflexivity
  end.
  - intros k Hk. discriminate Hk.
  - exists name. split; [symmetry; exact Hname | exact H].
Defined.

(** X21. The test of [FieldSymbol] does not cover every pointer that
    the function follows: on a field that passes it and has no
    identifier, or whose required keyword has no literal, the call
    panics. *)
Theorem FieldSymbol_panics_past_guard (R : Type)
    (fmt : ptr FieldType.t -> Result string) (rng : Node -> Result R)
    (fuel : nat) (f : Field.t) (ty : string) :
  Field.BadNode f = false ->
  ChildrenBadNode fuel (NField (Some f)) = Ok false ->
  fmt (Field.FieldType f) = Ok ty ->
  Field.Identifier f = None
  \/ (exists k, Field.RequiredKeyword f = Some k /\ Keyword.Literal k = None) ->
  FieldSymbol fmt rng fuel (Some f) = Panic.
Proof.
  intros Hbad Hg Hty H.
  unfold FieldSymbol. cbn [Field_IsBadNode deref bind].
  rewrite Hbad, Hg. cbn [bind]. rewrite Hty.
  destruct H as [Hid | (k & Hk & Hl)].
  - rewrite Hid.
    destruct (Field.RequiredKeyword f) as [k|]; [|reflexivity].
    destruct (Keyword.Literal k); reflexivity.
  - rewrite Hk, Hl. reflexivity.
Qed.

Lemma FieldSymbol_panics_past_guard_witness :
  FieldSymbol (fun _ => Ok "i32") (fun _ => Ok tt) 1
    (NewField None None [] [] None None None None None None zeroLocation)
  = Panic.
Proof.
  destruct (NewField None None [] [] None None None None None None
              zeroLocation) as [f|] eqn:E; [|discriminate E].
  injection E as <-.
  apply (@FieldSymbol_panics_past_guard unit (fun _ => Ok "i32")
           (fun _ => Ok tt) 1 _ "i32"); try reflexivity.
  left. reflexivity.
Defined.

(** ** The children of a field and of a literal *)

(** X22. [Children] of a field, and of a literal, tests each pointer
    before it lists it: when the comments hold no nil pointer, no child
    is one, and [IsBadNode] and [Children] return on every child.  The
    loop of [ChildrenBadNode] on a field or a literal therefore does
    not panic on a child of the node itself. *)
Theorem Field_Children_no_nil (fuel : nat) (f : Field.t) (l : Literal.t) :
  (forall c, In c (Field.Comments f ++ Field.EndLineComments f) ->
             c <> None) ->
  (forall c, In c (Literal.Comments l) -> c <> None) ->
  (exists cs,
     Children (NField (Some f)) = Ok cs
     /\ forall c, In c cs ->
          (exists b, IsBadNode fuel c = Ok b)
          /\ (exists cs', Children c = Ok cs'))
  /\ (exists cs,
        Children (NLiteral (Some l)) = Ok cs
        /\ forall c, In c cs ->
             (exists b, IsBadNode fuel c = Ok b)
             /\ (exists cs', Children c = Ok cs')).
Proof.
  intros Hf Hl.
  assert (Hcomment : forall (cs : list (ptr Comment.t)) (c : Node),
             (forall x, In x cs -> x <> None) ->
             In c (map NComment cs) ->
             (exists b, IsBadNode fuel c = Ok b)
             /\ (exists cs', Children c = Ok cs')).
  { intros cs c Hcs Hin. apply in_map_iff in Hin.
    destruct Hin as (x & <- & Hx). specialize (Hcs x Hx).
    destruct x as [x|]; [|congruence]. split; eexists; reflexivity. }
  assert (Hptr : forall (A : Type) (N : ptr A -> Node) (p : ptr A) (c : Node),
             (forall x : A,
                (exists b, IsBadNode fuel (N (Some x)) = Ok b)
                /\ (exists cs', Children (N (Some x)) = Ok cs')) ->
             In c (append_if_not_nil N p) ->
             (exists b, IsBadNode fuel c = Ok b)
             /\ (exists cs', Children c = Ok cs')).
  { intros A N p c HN Hin. destruct p as [x|]; [|destruct Hin].
    destruct Hin as [<- | []]. apply HN. }
  split.
  - eexists. split; [reflexivity|]. intros c Hin.
    repeat (apply in_app_or in Hin; destruct Hin as [Hin | Hin]).
    + refine (Hptr _ _ _ _ _ Hin); intros x; split; eexists; reflexivity.
    + refine (Hptr _ _ _ _ _ Hin); intros x; split; eexists; reflexivity.
    + refine (Hptr _ _ _ _ _ Hin); intros x; split; eexists; reflexivity.
    + refine (Hptr _ _ _ _ _ Hin); intros x; split; eexists; reflexivity.
    + refine (Hptr _ _ _ _ _ Hin); intros x; split; eexists; reflexivity.
    + refine (Hptr _ _ _ _ _ Hin); intros x; split; eexists; reflexivity.
    + apply (Hcomment (Field.Comments f)); [|exact Hin].
      intros x Hx. apply Hf. apply in_or_app. now left.
    + apply (Hcomment (Field.EndLineComments f)); [|exact Hin].
      intros x Hx. apply Hf. apply in_or_app. now right.
    + refine (Hptr _ _ _ _ _ Hin); intros x; split; eexists; reflexivity.
  - eexists. split; [reflexivity|]. intros c Hin.
    apply in_app_or in Hin. destruct Hin as [Hin | Hin].
    + now apply (Hcomment (Literal.Comments l)).
    + refine (Hptr _ _ _ _ _ Hin); intros x; split; eexists; reflexivity.
Qed.

Lemma Field_Children_no_nil_witness :
  exists cs,
    Children (NField field_with_bad_index) = Ok cs
    /\ forall c, In c cs ->
         (exists b, IsBadNode 0 c = Ok b) /\ (exists cs', Children c = Ok cs').
Proof.
  destruct field_with_bad_index as [f|] eqn:E; [|discriminate E].
  injection E as <-.
  match goal with
  | |- context [NField (Some ?f)] =>
      refine (proj1 (@Field_Children_no_nil 0 f
                       {| Literal.Value := None; Literal.Quote := EmptyString;
                          Literal.Comments := []; Literal.BadNode := false;
                          Literal.Location := zeroLocation |} _ _))
  end.
  - intros c [].
  - intros c [].
Defined.

(** The general form of the end of a span over several lines, at the
    three-line text of a struct. *)
Lemma NewLocation_multi_line_witness :
  EndPos (NewLocation (mkposition 1 1 0) struct_Foo_text)
  = {| Line := 3; Col := 3; Offset := 28 |}.
Proof.
  destruct (@NewLocation_multi_line (mkposition 1 1 0)
              ("struct Foo {" ++ String newline "  1: string a") "}")
    as [_ H]; [discriminate | reflexivity |].
  exact H.
Defined.
